(** * pybreatheaudio: frame codec, transport and controller

    A shallow embedding of [pybreatheaudio/__init__.py], the serial driver
    of the BreatheAudio six-zone amplifier, together with the properties of
    its frame codec (command encoders, [ZoneStatus.from_string]), of its two
    transports ([BreatheAudioSync._process_request] and
    [BreatheAudioProtocol.send]) and of [restore_zone].

    Conventions.
    - A Python [str] or [bytes] value is a [string]: a list of 8-bit
      characters, read as code points 0..255.  Everything the driver
      decodes comes out of [bytes.decode('ascii')], hence is below 128.
    - A Python [float] is an IEEE-754 binary64 value, modelled by the
      executable specification [spec_float] of the standard library with
      precision 53 and [emax] 1024 (round to nearest, ties to even).
    - A Python exception is a value of [exn]; code that may raise returns
      a [result]. *)

From Stdlib Require Import ZArith List String Ascii Bool Lia QArith Qabs.
From Stdlib Require Import Floats.SpecFloat.
From Stdlib Require Import DecimalString.
From Stdlib Require Import DecimalZ DecimalPos.
Import ListNotations.

Local Open Scope string_scope.
Local Open Scope Z_scope.

(** ** Exceptions and results *)

Inductive exn : Type :=
| ValueError
| OverflowError
| ZeroDivisionError
| UnicodeDecodeError
| AttributeError (name : string)
| NameError (name : string)
| SerialTimeoutException (message : string)
| AsyncioTimeoutError.

Inductive result (A : Type) : Type :=
| Ok (a : A)
| Raise (e : exn).

Arguments Ok {A} a.
Arguments Raise {A} e.

Definition rbind {A B : Type} (r : result A) (k : A -> result B) : result B :=
  match r with
  | Ok a => k a
  | Raise e => Raise e
  end.

Declare Scope result_scope.
Delimit Scope result_scope with result.
Notation "x <- r ;; k" := (rbind r (fun x => k))
  (at level 61, r at next level, right associativity) : result_scope.

(** ** Python numbers *)

Module Py.

(** binary64 *)
Definition prec : Z := 53.
Definition emax : Z := 1024.

(** A number is an [int] (unbounded) or a [float]. *)
Inductive num : Type :=
| Int (z : Z)
| Float (f : spec_float).

(** [float(z)]: the nearest double; exact when [|z| <= 2^53]. *)
Definition float_of_Z (z : Z) : spec_float :=
  binary_normalize prec emax z 0 false.

Definition is_infinite (f : spec_float) : bool :=
  match f with
  | S754_infinity _ => true
  | _ => false
  end.

(** [int.__float__]: raises [OverflowError] when the integer is too large. *)
Definition to_float (z : Z) : result spec_float :=
  let f := float_of_Z z in
  if is_infinite f then Raise OverflowError else Ok f.

(** [a / b] on two ints: the correctly rounded quotient (CPython's
    [long_true_divide]); a single rounding of the exact rational. *)
Definition int_truediv (a b : Z) : result spec_float :=
  match a, b with
  | _, Z0 => Raise ZeroDivisionError
  | Z0, Zpos _ => Ok (S754_zero false)
  | Z0, Zneg _ => Ok (S754_zero true)
  | _, _ =>
      let q := SFdiv prec emax
                 (S754_finite (a <? 0) (Z.to_pos (Z.abs a)) 0)
                 (S754_finite (b <? 0) (Z.to_pos (Z.abs b)) 0) in
      if is_infinite q then Raise OverflowError else Ok q
  end.

Definition is_zero (f : spec_float) : bool :=
  match f with
  | S754_zero _ => true
  | _ => false
  end.

(** [x / y] on two floats. *)
Definition float_truediv (x y : spec_float) : result spec_float :=
  if is_zero y then Raise ZeroDivisionError else Ok (SFdiv prec emax x y).

(** [a / b] *)
Definition truediv (a b : num) : result num :=
  match a, b with
  | Int x, Int y => (q <- int_truediv x y ;; Ok (Float q))%result
  | Int x, Float g =>
      (f <- to_float x ;; q <- float_truediv f g ;; Ok (Float q))%result
  | Float f, Int y =>
      (g <- to_float y ;; q <- float_truediv f g ;; Ok (Float q))%result
  | Float f, Float g => (q <- float_truediv f g ;; Ok (Float q))%result
  end.

(** [a * b] *)
Definition mul (a b : num) : result num :=
  match a, b with
  | Int x, Int y => Ok (Int (x * y))
  | Int x, Float g => (f <- to_float x ;; Ok (Float (SFmul prec emax f g)))%result
  | Float f, Int y => (g <- to_float y ;; Ok (Float (SFmul prec emax f g)))%result
  | Float f, Float g => Ok (Float (SFmul prec emax f g))
  end.

(** The exact value of a finite double as an integer ratio [n / 2^k]. *)
Definition float_num_den (f : spec_float) : Z * Z :=
  match f with
  | S754_finite s m e =>
      let n := if s then Zneg m else Zpos m in
      if 0 <=? e then (n * 2 ^ e, 1) else (n, 2 ^ (- e))
  | _ => (0, 1)
  end.

(** Python compares an int with a float by exact value. *)
Definition int_float_compare (z : Z) (f : spec_float) : option comparison :=
  match f with
  | S754_nan => None
  | S754_infinity s => Some (if s then Gt else Lt)
  | _ => let '(n, d) := float_num_den f in Some (z * d ?= n)
  end.

Definition compare (a b : num) : option comparison :=
  match a, b with
  | Int x, Int y => Some (x ?= y)
  | Int x, Float g => int_float_compare x g
  | Float f, Int y => option_map CompOpp (int_float_compare y f)
  | Float f, Float g => SFcompare f g
  end.

(** [a < b] *)
Definition lt (a b : num) : bool :=
  match compare a b with
  | Some Lt => true
  | _ => false
  end.

(** [a > b] *)
Definition gt (a b : num) : bool :=
  match compare a b with
  | Some Gt => true
  | _ => false
  end.

(** [min(a, b)]: keeps the first argument unless the second is smaller. *)
Definition min (a b : num) : num := if lt b a then b else a.

(** [max(a, b)]: keeps the first argument unless the second is larger. *)
Definition max (a b : num) : num := if gt b a then b else a.

(** [int(x)]: truncation toward zero. *)
Definition int (x : num) : result Z :=
  match x with
  | Int z => Ok z
  | Float (S754_zero _) => Ok 0
  | Float (S754_infinity _) => Raise OverflowError
  | Float S754_nan => Raise ValueError
  | Float (S754_finite s m e) =>
      let a := if 0 <=? e then Zpos m * 2 ^ e else Zpos m / 2 ^ (- e) in
      Ok (if s then - a else a)
  end.

(** The exact rational value of a number (0 for a non-finite float). *)
Definition to_Q (x : num) : Q :=
  match x with
  | Int z => inject_Z z
  | Float f => let '(n, d) := float_num_den f in Qmake n (Z.to_pos d)
  end.

(** *** Text *)

(** [str(z)] *)
Definition str (z : Z) : string := NilZero.string_of_int (Z.to_int z).

Definition is_digit (c : ascii) : bool :=
  let n := N_of_ascii c in ((48 <=? n) && (n <=? 57))%N.

Definition digit_value (c : ascii) : Z := Z.of_N (N_of_ascii c) - 48.

Fixpoint repeat_char (c : ascii) (n : nat) : string :=
  match n with
  | O => EmptyString
  | S k => String c (repeat_char c k)
  end.

(** [format(z, '02')]: at least two characters, zero-padded after the sign. *)
Definition format_02 (z : Z) : string :=
  let digits := str (Z.abs z) in
  let sign := if z <? 0 then "-" else "" in
  let used := (String.length sign + String.length digits)%nat in
  sign ++ repeat_char "0" (2 - used) ++ digits.

(** [int(s)] on a decimal literal: digits, with single underscores allowed
    between digits, after an optional sign.  (Surrounding white space, the
    only other thing [int] tolerates, cannot occur in a regex group of
    [\d] or [\w] characters.) *)
Fixpoint digits_value (acc : Z) (after_digit : bool) (s : string) : option Z :=
  match s with
  | EmptyString => if after_digit then Some acc else None
  | String c rest =>
      if is_digit c then digits_value (10 * acc + digit_value c) true rest
      else if (Ascii.eqb c "_" && after_digit)%bool then
        match rest with
        | EmptyString => None
        | String d _ => if is_digit d then digits_value acc false rest else None
        end
      else None
  end.

Definition int_of_str (s : string) : result Z :=
  let '(neg, body) :=
    match s with
    | String "-" rest => (true, rest)
    | String "+" rest => (false, rest)
    | _ => (false, s)
    end in
  match digits_value 0 false body with
  | Some n => Ok (if neg then - n else n)
  | None => Raise ValueError
  end.

End Py.

(** ** The two reply patterns

    Both patterns of the module are sequences of literal text and of
    capturing groups over a character class, so [re.search] is a scan for
    the leftmost position at which the sequence matches; there is neither
    alternation nor repetition, hence no backtracking. *)

Module Re.

Inductive cclass : Type :=
| digit   (* \d *)
| word.   (* \w *)

Inductive piece : Type :=
| lit (text : string)
| group (classes : list cclass).

Definition regex : Type := list piece.

Definition between (lo hi n : N) : bool := ((lo <=? n) && (n <=? hi))%N.

(** [\w] on a [str] pattern: alphanumeric code points and the underscore.
    Below 256 these are the ASCII letters and digits, [_], and the Latin-1
    letters and numerics. *)
Definition is_word (c : ascii) : bool :=
  let n := N_of_ascii c in
  between 48 57 n || between 65 90 n || between 97 122 n || (n =? 95)%N
  || (n =? 170)%N || (n =? 178)%N || (n =? 179)%N || (n =? 181)%N
  || (n =? 185)%N || (n =? 186)%N || between 188 190 n
  || between 192 214 n || between 216 246 n || between 248 255 n.

Definition in_class (k : cclass) (c : ascii) : bool :=
  match k with
  | digit => Py.is_digit c
  | word => is_word c
  end.

(** The text after [text] at the head of [s]. *)
Fixpoint match_lit (text s : string) : option string :=
  match text, s with
  | EmptyString, _ => Some s
  | String a text', String b s' =>
      if Ascii.eqb a b then match_lit text' s' else None
  | String _ _, EmptyString => None
  end.

(** The captured text and what follows it. *)
Fixpoint match_classes (ks : list cclass) (s : string) : option (string * string) :=
  match ks, s with
  | [], _ => Some (EmptyString, s)
  | k :: ks', String c s' =>
      if in_class k c then
        match match_classes ks' s' with
        | Some (captured, rest) => Some (String c captured, rest)
        | None => None
        end
      else None
  | _ :: _, EmptyString => None
  end.

(** A match anchored at the head of [s]: the groups, in order. *)
Fixpoint match_here (r : regex) (s : string) : option (list string) :=
  match r with
  | [] => Some []
  | lit text :: r' =>
      match match_lit text s with
      | Some rest => match_here r' rest
      | None => None
      end
  | group ks :: r' =>
      match match_classes ks s with
      | Some (captured, rest) =>
          match match_here r' rest with
          | Some groups => Some (captured :: groups)
          | None => None
          end
      | None => None
      end
  end.

(** [re.search(r, s)] followed by [.groups()]: the leftmost match. *)
Fixpoint search (r : regex) (s : string) : option (list string) :=
  match match_here r s with
  | Some groups => Some groups
  | None =>
      match s with
      | EmptyString => None
      | String _ s' => search r s'
      end
  end.

End Re.

(** [ZONE_PATTERN_OFF = re.compile('#Z0(\d)PWROFF')] *)
Definition ZONE_PATTERN_OFF : Re.regex :=
  [Re.lit "#Z0"; Re.group [Re.digit]; Re.lit "PWROFF"].

(** [ZONE_PATTERN_ON =
      re.compile('#Z0(\d)PWRON,SRC(\d),GRP(\d),VOL-(\w\w),POFF')] *)
Definition ZONE_PATTERN_ON : Re.regex :=
  [Re.lit "#Z0"; Re.group [Re.digit]; Re.lit "PWRON,SRC"; Re.group [Re.digit];
   Re.lit ",GRP"; Re.group [Re.digit]; Re.lit ",VOL-";
   Re.group [Re.word; Re.word]; Re.lit ",POFF"].

Definition CR : ascii := ascii_of_N 13.
Definition EOL : string := String CR EmptyString.
Definition LEN_EOL : nat := String.length EOL.
Definition MAX_VOLUME : Z := 78.

(** ** ZoneStatus *)

(** The attributes [__init__] sets.  [volume] is whatever number the
    caller passes: [from_string] passes the int [0] or a float. *)
Record ZoneStatus : Type := mkZoneStatus {
  zone : Z;
  volume : Py.num;
  power : bool;
  mute : bool;
  source : Z
}.

(** An attribute value. *)
Inductive value : Type :=
| VNum (n : Py.num)
| VBool (b : bool).

(** The instance dictionary: [treble], [bass] and [balance] are not in it
    (their assignments in [__init__] are commented out). *)
Definition ZoneStatus_dict (status : ZoneStatus) : list (string * value) :=
  [("zone", VNum (Py.Int (zone status)));
   ("volume", VNum (volume status));
   ("power", VBool (power status));
   ("mute", VBool (mute status));
   ("source", VNum (Py.Int (source status)))].

Fixpoint dict_get (d : list (string * value)) (name : string) : option value :=
  match d with
  | [] => None
  | (k, v) :: d' => if String.eqb k name then Some v else dict_get d' name
  end.

(** [status.name] *)
Definition getattr (status : ZoneStatus) (name : string) : result value :=
  match dict_get (ZoneStatus_dict status) name with
  | Some v => Ok v
  | None => Raise (AttributeError name)
  end.

(** The groups of a match, by index; the patterns fix their number. *)
Definition groups_get (groups : list string) (i : nat) : string :=
  nth i groups EmptyString.

(** [ZoneStatus.from_string]; [None] is Python's [None]. *)
Definition from_string (string : string) : result (option ZoneStatus) :=
  match string with
  | EmptyString => Ok None
  | _ =>
      match Re.search ZONE_PATTERN_OFF string with
      | Some groups =>
          (zone <- Py.int_of_str (groups_get groups 0) ;;
           Ok (Some (mkZoneStatus zone (Py.Int 0) false false 1)))%result
      | None =>
          match Re.search ZONE_PATTERN_ON string with
          | Some groups =>
              (zone <- Py.int_of_str (groups_get groups 0) ;;
               source <- Py.int_of_str (groups_get groups 1) ;;
               let volume := groups_get groups 3 in
               if (String.eqb volume "MT" || String.eqb volume "XM")%bool then
                 Ok (Some (mkZoneStatus zone (Py.Int 0) true true source))
               else
                 native <- Py.int_of_str (groups_get groups 3) ;;
                 fraction <- Py.truediv (Py.Int native) (Py.Int MAX_VOLUME) ;;
                 volume <- Py.mul fraction (Py.Int 100) ;;
                 Ok (Some (mkZoneStatus zone volume true false source)))%result
          | None => Ok None
          end
      end
  end.

(** ** Command encoders *)

Definition _format_zone_status_request (zone : Z) : string :=
  "*Z0" ++ Py.str zone ++ "CONSR" ++ EOL.

Definition _format_set_power (zone : Z) (power : bool) : string :=
  "*Z0" ++ Py.str zone ++ (if power then "ON" else "OFF") ++ EOL.

Definition _format_set_mute (zone : Z) (mute : bool) : string :=
  "*Z0" ++ Py.str zone ++ (if mute then "MTON" else "MTOFF") ++ EOL.

(** [volume_percentage = volume / 100]
    [volume = int(max(0, min(MAX_VOLUME * volume_percentage, MAX_VOLUME)))] *)
Definition _format_set_volume (zone : Z) (volume : Py.num) : result string :=
  (volume_percentage <- Py.truediv volume (Py.Int 100) ;;
   scaled <- Py.mul (Py.Int MAX_VOLUME) volume_percentage ;;
   volume <- Py.int (Py.max (Py.Int 0) (Py.min scaled (Py.Int MAX_VOLUME))) ;;
   Ok ("*Z0" ++ Py.str zone ++ "VOL" ++ Py.format_02 volume ++ EOL))%result.

(** [source = int(max(0, min(source, 6)))] *)
Definition _format_set_source (zone : Z) (source : Z) : string :=
  let source := Z.max 0 (Z.min source 6) in
  "*Z0" ++ Py.str zone ++ "SRC" ++ Py.str source ++ EOL.

(** ** Stateful code: a state-and-exception monad

    A raised exception keeps the state reached so far (bytes already
    written stay written). *)

Definition io (S A : Type) : Type := S -> result A * S.

Definition ret {S A : Type} (a : A) : io S A := fun s => (Ok a, s).

Definition throw {S A : Type} (e : exn) : io S A := fun s => (Raise e, s).

Definition lift {S A : Type} (r : result A) : io S A := fun s => (r, s).

Definition bind {S A B : Type} (m : io S A) (k : A -> io S B) : io S B :=
  fun s =>
    match m s with
    | (Ok a, s') => k a s'
    | (Raise e, s') => (Raise e, s')
    end.

Declare Scope io_scope.
Delimit Scope io_scope with io.
Notation "x <- m ;; k" := (bind m (fun x => k))
  (at level 61, m at next level, right associativity) : io_scope.
Notation "m ;; k" := (bind m (fun _ => k))
  (at level 61, right associativity) : io_scope.

(** ** What both transports share *)

(** [hex(n)] for a byte. *)
Definition hex_digit (n : N) : ascii :=
  ascii_of_N (if (n <? 10)%N then 48 + n else 87 + n).

Definition hex (b : ascii) : string :=
  let n := N_of_ascii b in
  "0x" ++ (if (n <? 16)%N then String (hex_digit n) EmptyString
           else String (hex_digit (n / 16)) (String (hex_digit (n mod 16)) EmptyString)).

(** [str] of a list of strings: the [repr] of each item, in brackets. *)
Fixpoint join_reprs (items : list string) : string :=
  match items with
  | [] => EmptyString
  | [x] => "'" ++ x ++ "'"
  | x :: rest => "'" ++ x ++ "', " ++ join_reprs rest
  end.

Definition str_of_list (items : list string) : string :=
  "[" ++ join_reprs items ++ "]".

Definition bytes_to_list (s : string) : list ascii := list_ascii_of_string s.

(** ['Connection timed out! Last received bytes {}'
       .format([hex(a) for a in result])] *)
Definition timeout_message (result : string) : string :=
  "Connection timed out! Last received bytes "
  ++ str_of_list (map hex (bytes_to_list result)).

(** [result[-n:]] *)
Definition last_bytes (n : nat) (result : string) : string :=
  substring (String.length result - n) n result.

(** [len(result) > skip and result[-LEN_EOL:] == EOL] *)
Definition terminated (skip : nat) (result : string) : bool :=
  (skip <? String.length result)%nat && String.eqb (last_bytes LEN_EOL result) EOL.

Fixpoint all_ascii (s : string) : bool :=
  match s with
  | EmptyString => true
  | String c s' => (N_of_ascii c <? 128)%N && all_ascii s'
  end.

(** [ret.decode('ascii')] *)
Definition decode_ascii (ret : string) : result string :=
  if all_ascii ret then Ok ret else Raise UnicodeDecodeError.

(** How a receive loop ends. *)
Inductive received : Type :=
| Complete (result : string)
| TimedOut (result : string).

(** ** The blocking transport ([get_breatheaudio]) *)

Module BreatheAudioSync.

(** The serial port as the driver sees it.
    - [written]: the requests written, oldest first.
    - [incoming]: for each coming transaction, the bytes the device sends
      after the write until the line stays silent for [TIMEOUT] seconds;
      a transaction beyond the end of the list hears nothing.
    Input left unread is dropped by the next [reset_input_buffer]. *)
Record Port : Type := mkPort {
  written : list string;
  incoming : list string
}.

(** The [while True] loop: [self._port.read(1)] yields the next byte, or
    nothing once the line is silent. *)
Fixpoint read_loop (skip : nat) (result : string) (line : string) : received :=
  match line with
  | EmptyString => TimedOut result
  | String c line' =>
      let result := result ++ String c EmptyString in
      if terminated skip result then Complete result
      else read_loop skip result line'
  end.

Definition _process_request (request : string) (skip : nat) : io Port string :=
  fun port =>
    let line := hd EmptyString (incoming port) in
    let port' := mkPort (written port ++ [request]) (tl (incoming port)) in
    match read_loop skip EmptyString line with
    | TimedOut result => (Raise (SerialTimeoutException (timeout_message result)), port')
    | Complete result => (decode_ascii result, port')
    end.

Definition zone_status (zone : Z) : io Port (option ZoneStatus) :=
  (reply <- _process_request (_format_zone_status_request zone) LEN_EOL ;;
   lift (from_string reply))%io.

Definition set_power (zone : Z) (power : bool) : io Port unit :=
  (_process_request (_format_set_power zone power) 0 ;; ret tt)%io.

Definition set_mute (zone : Z) (mute : bool) : io Port unit :=
  (_process_request (_format_set_mute zone mute) 0 ;; ret tt)%io.

Definition set_volume (zone : Z) (volume : Py.num) : io Port unit :=
  (request <- lift (_format_set_volume zone volume) ;;
   _process_request request 0 ;; ret tt)%io.

Definition set_source (zone : Z) (source : Z) : io Port unit :=
  (_process_request (_format_set_source zone source) 0 ;; ret tt)%io.

(** [set_treble], [set_bass] and [set_balance] call [_format_set_treble],
    [_format_set_bass] and [_format_set_balance], names the module never
    binds (their definitions are commented out): evaluating the name
    raises [NameError] before anything is sent. *)
Definition set_treble (zone : Z) (treble : value) : io Port unit :=
  throw (NameError "_format_set_treble").

Definition set_bass (zone : Z) (bass : value) : io Port unit :=
  throw (NameError "_format_set_bass").

Definition set_balance (zone : Z) (balance : value) : io Port unit :=
  throw (NameError "_format_set_balance").

(** Arguments are evaluated left to right before the call. *)
Definition restore_zone (status : ZoneStatus) : io Port unit :=
  (set_power (zone status) (power status) ;;
   set_mute (zone status) (mute status) ;;
   set_volume (zone status) (volume status) ;;
   treble <- lift (getattr status "treble") ;;
   set_treble (zone status) treble ;;
   bass <- lift (getattr status "bass") ;;
   set_bass (zone status) bass ;;
   balance <- lift (getattr status "balance") ;;
   set_balance (zone status) balance ;;
   set_source (zone status) (source status))%io.

End BreatheAudioSync.

(** ** The event-driven transport ([get_async_breatheaudio]) *)

Module BreatheAudioProtocol.

(** The protocol object and its serial transport.
    - [written]: the requests written, oldest first.
    - [incoming]: for each coming transaction, the chunks handed to
      [data_received] after the write, each within [TIMEOUT] seconds of
      the wait for it; once they are used up [q.get()] times out.
    - [error_log]: the arguments of each [_LOGGER.error] call, that is
      the command and the bytes received. *)
Record Protocol : Type := mkProtocol {
  written : list string;
  incoming : list (list string);
  error_log : list (string * string)
}.

(** The [while True] loop of [send]: [result += yield from wait_for(q.get())]. *)
Fixpoint receive_loop (skip : nat) (result : string) (chunks : list string) : received :=
  match chunks with
  | [] => TimedOut result
  | chunk :: chunks' =>
      let result := result ++ chunk in
      if terminated skip result then Complete result
      else receive_loop skip result chunks'
  end.

Definition send (request : string) (skip : nat) : io Protocol string :=
  fun p =>
    let chunks := hd [] (incoming p) in
    let sent := (written p ++ [request])%list in
    match receive_loop skip EmptyString chunks with
    | Complete result =>
        (decode_ascii result, mkProtocol sent (tl (incoming p)) (error_log p))
    | TimedOut result =>
        (Raise AsyncioTimeoutError,
         mkProtocol sent (tl (incoming p)) (error_log p ++ [(request, result)]))
    end.

End BreatheAudioProtocol.

(** The controller over the protocol object. *)
Module BreatheAudioAsync.

Import BreatheAudioProtocol.

Definition zone_status (zone : Z) : io Protocol (option ZoneStatus) :=
  (reply <- send (_format_zone_status_request zone) 0 ;;
   lift (from_string reply))%io.

Definition set_power (zone : Z) (power : bool) : io Protocol unit :=
  (send (_format_set_power zone power) 0 ;; ret tt)%io.

Definition set_mute (zone : Z) (mute : bool) : io Protocol unit :=
  (send (_format_set_mute zone mute) 0 ;; ret tt)%io.

Definition set_volume (zone : Z) (volume : Py.num) : io Protocol unit :=
  (request <- lift (_format_set_volume zone volume) ;;
   send request 0 ;; ret tt)%io.

Definition set_source (zone : Z) (source : Z) : io Protocol unit :=
  (send (_format_set_source zone source) 0 ;; ret tt)%io.

(** Here the unbound name [_format_set_treble] is evaluated before its
    arguments, so [status.treble] is never reached. *)
Definition restore_zone (status : ZoneStatus) : io Protocol unit :=
  (send (_format_set_power (zone status) (power status)) 0 ;;
   send (_format_set_mute (zone status) (mute status)) 0 ;;
   request <- lift (_format_set_volume (zone status) (volume status)) ;;
   send request 0 ;;
   throw (A := string) (NameError "_format_set_treble") ;;
   throw (A := string) (NameError "_format_set_bass") ;;
   throw (A := string) (NameError "_format_set_balance") ;;
   send (_format_set_source (zone status) (source status)) 0 ;;
   ret tt)%io.

End BreatheAudioAsync.

(** ** More Python arithmetic

    The sums and differences of [media_player.py]. *)

Module PyArith.

(** [a + b] *)
Definition add (a b : Py.num) : result Py.num :=
  match a, b with
  | Py.Int x, Py.Int y => Ok (Py.Int (x + y))
  | Py.Int x, Py.Float g =>
      (f <- Py.to_float x ;; Ok (Py.Float (SFadd Py.prec Py.emax f g)))%result
  | Py.Float f, Py.Int y =>
      (g <- Py.to_float y ;; Ok (Py.Float (SFadd Py.prec Py.emax f g)))%result
  | Py.Float f, Py.Float g => Ok (Py.Float (SFadd Py.prec Py.emax f g))
  end.

(** [a - b] *)
Definition sub (a b : Py.num) : result Py.num :=
  match a, b with
  | Py.Int x, Py.Int y => Ok (Py.Int (x - y))
  | Py.Int x, Py.Float g =>
      (f <- Py.to_float x ;; Ok (Py.Float (SFsub Py.prec Py.emax f g)))%result
  | Py.Float f, Py.Int y =>
      (g <- Py.to_float y ;; Ok (Py.Float (SFsub Py.prec Py.emax f g)))%result
  | Py.Float f, Py.Float g => Ok (Py.Float (SFsub Py.prec Py.emax f g))
  end.

End PyArith.

(** ** The media player entity ([media_player.py])

    [BreatheAudioZone] over the blocking driver, which is the one
    [async_setup_entry] creates.  A method runs on the entity and the
    serial port and leaves both as they are when it returns or raises. *)

Module MediaPlayer.

(** [homeassistant.const] *)
Definition STATE_ON : string := "on".
Definition STATE_OFF : string := "off".

(** What a method raises: an exception of the kinds the driver has, or
    the [TypeError] of [None * 100]. *)
Inductive raised : Type :=
| Driver (e : exn)
| TypeError.

Inductive outcome : Type :=
| Returned
| Raised (e : raised).

Record BreatheAudioZone : Type := mkBreatheAudioZone {
  _source_id_name : list (Z * string);
  _source_name_id : list (string * Z);
  _source_names : list string;
  _zone_id : Z;
  _snapshot : option ZoneStatus;
  _state : option string;
  _volume : option Py.num;
  _source : option string;
  _mute : option bool
}.

(** [__init__] *)
Definition new_zone (sources : list (Z * string) * list (string * Z) * list string)
    (zone_id : Z) : BreatheAudioZone :=
  let '(id_name, name_id, names) := sources in
  mkBreatheAudioZone id_name name_id names zone_id None None None None None.

(** [d[k]] when [k in d], for the two source dictionaries. *)
Fixpoint id_name_get (d : list (Z * string)) (k : Z) : option string :=
  match d with
  | [] => None
  | (k', v) :: d' => if k' =? k then Some v else id_name_get d' k
  end.

Fixpoint name_id_get (d : list (string * Z)) (k : string) : option Z :=
  match d with
  | [] => None
  | (k', v) :: d' => if String.eqb k' k then Some v else name_id_get d' k
  end.

(** [except SerialException]: the timeout of the driver is one. *)
Definition is_SerialException (e : exn) : bool :=
  match e with
  | SerialTimeoutException _ => true
  | _ => false
  end.

(** A call into the driver whose result is dropped. *)
Definition call (m : io BreatheAudioSync.Port unit)
    (self : BreatheAudioZone) (port : BreatheAudioSync.Port)
    : outcome * BreatheAudioZone * BreatheAudioSync.Port :=
  match m port with
  | (Ok _, port') => (Returned, self, port')
  | (Raise e, port') => (Raised (Driver e), self, port')
  end.

(** [state.power] on [None] raises [AttributeError]; only
    [SerialException] is caught. *)
Definition update (self : BreatheAudioZone) (port : BreatheAudioSync.Port)
    : outcome * BreatheAudioZone * BreatheAudioSync.Port :=
  match BreatheAudioSync.zone_status (_zone_id self) port with
  | (Raise e, port') =>
      if is_SerialException e then (Returned, self, port')
      else (Raised (Driver e), self, port')
  | (Ok None, port') => (Raised (Driver (AttributeError "power")), self, port')
  | (Ok (Some state), port') =>
      let state_name := if power state then STATE_ON else STATE_OFF in
      match Py.truediv (volume state) (Py.Int 100) with
      | Raise e =>
          (Raised (Driver e),
           mkBreatheAudioZone (_source_id_name self) (_source_name_id self)
             (_source_names self) (_zone_id self) (_snapshot self)
             (Some state_name) (_volume self) (_source self) (_mute self),
           port')
      | Ok level =>
          (Returned,
           mkBreatheAudioZone (_source_id_name self) (_source_name_id self)
             (_source_names self) (_zone_id self) (_snapshot self)
             (Some state_name) (Some level)
             (id_name_get (_source_id_name self) (source state))
             (Some (mute state)),
           port')
      end
  end.

Definition snapshot (self : BreatheAudioZone) (port : BreatheAudioSync.Port)
    : outcome * BreatheAudioZone * BreatheAudioSync.Port :=
  match BreatheAudioSync.zone_status (_zone_id self) port with
  | (Raise e, port') => (Raised (Driver e), self, port')
  | (Ok status, port') =>
      (Returned,
       mkBreatheAudioZone (_source_id_name self) (_source_name_id self)
         (_source_names self) (_zone_id self) status
         (_state self) (_volume self) (_source self) (_mute self),
       port')
  end.

(** [schedule_update_ha_state] belongs to the platform and touches none
    of the fields. *)
Definition restore (self : BreatheAudioZone) (port : BreatheAudioSync.Port)
    : outcome * BreatheAudioZone * BreatheAudioSync.Port :=
  match _snapshot self with
  | None => (Returned, self, port)
  | Some status => call (BreatheAudioSync.restore_zone status) self port
  end.

Definition select_source (self : BreatheAudioZone) (source : string)
    (port : BreatheAudioSync.Port)
    : outcome * BreatheAudioZone * BreatheAudioSync.Port :=
  match name_id_get (_source_name_id self) source with
  | None => (Returned, self, port)
  | Some idx => call (BreatheAudioSync.set_source (_zone_id self) idx) self port
  end.

Definition turn_on (self : BreatheAudioZone) :=
  call (BreatheAudioSync.set_power (_zone_id self) true) self.

Definition turn_off (self : BreatheAudioZone) :=
  call (BreatheAudioSync.set_power (_zone_id self) false) self.

Definition mute_volume (self : BreatheAudioZone) (mute : bool) :=
  call (BreatheAudioSync.set_mute (_zone_id self) mute) self.

(** [volume = int(volume * 100)], then the arguments of the debug
    message, [self._volume * 100] among them, then [set_volume]. *)
Definition set_volume_level (self : BreatheAudioZone) (volume : Py.num)
    (port : BreatheAudioSync.Port)
    : outcome * BreatheAudioZone * BreatheAudioSync.Port :=
  match (scaled <- Py.mul volume (Py.Int 100) ;; Py.int scaled)%result with
  | Raise e => (Raised (Driver e), self, port)
  | Ok volume =>
      match _volume self with
      | None => (Raised TypeError, self, port)
      | Some current =>
          match Py.mul current (Py.Int 100) with
          | Raise e => (Raised (Driver e), self, port)
          | Ok _ =>
              call (BreatheAudioSync.set_volume (_zone_id self) (Py.Int volume)) self port
          end
      end
  end.

(** [volume = (self._volume * 100) + 10], [set_volume(zone, min(volume, 100))] *)
Definition volume_up (self : BreatheAudioZone) (port : BreatheAudioSync.Port)
    : outcome * BreatheAudioZone * BreatheAudioSync.Port :=
  match _volume self with
  | None => (Returned, self, port)
  | Some level =>
      match (scaled <- Py.mul level (Py.Int 100) ;;
             PyArith.add scaled (Py.Int 10))%result with
      | Raise e => (Raised (Driver e), self, port)
      | Ok volume =>
          call (BreatheAudioSync.set_volume (_zone_id self) (Py.min volume (Py.Int 100)))
            self port
      end
  end.

(** [volume = (self._volume * 100) - 10], [set_volume(zone, max(volume, 0))] *)
Definition volume_down (self : BreatheAudioZone) (port : BreatheAudioSync.Port)
    : outcome * BreatheAudioZone * BreatheAudioSync.Port :=
  match _volume self with
  | None => (Returned, self, port)
  | Some level =>
      match (scaled <- Py.mul level (Py.Int 100) ;;
             PyArith.sub scaled (Py.Int 10))%result with
      | Raise e => (Raised (Driver e), self, port)
      | Ok volume =>
          call (BreatheAudioSync.set_volume (_zone_id self) (Py.max volume (Py.Int 0)))
            self port
      end
  end.

End MediaPlayer.

(** * The vocabulary of the statements

    Reports, device scripts and checks that the properties below are
    stated with; none of it is code of the driver. *)

(** [free a s]: the character [a] does not occur in [s]. *)
Fixpoint free (a : ascii) (s : string) : bool :=
  match s with
  | EmptyString => true
  | String c s' => negb (Ascii.eqb a c) && free a s'
  end.

(** The character every reply starts with. *)
Definition hash : ascii := "#"%char.

(** No [#] in [s]. *)
Definition no_hash (s : string) : bool := free hash s.

(** The power-off report of zone digit [z]. *)
Definition off_report (z : ascii) : string :=
  "#Z0" ++ String z "PWROFF".

(** The power-on report of zone digit [z], source [s], group [g] and
    volume token [token]. *)
Definition on_report (z s g : ascii) (token : string) : string :=
  "#Z0" ++ String z ("PWRON,SRC" ++ String s (",GRP" ++ String g (",VOL-" ++ token ++ ",POFF"))).

(** A device that acknowledges every command with an empty line. *)
Definition acknowledging : BreatheAudioSync.Port :=
  BreatheAudioSync.mkPort [] [EOL; EOL; EOL; EOL; EOL; EOL; EOL].

(** The same device, its answers arriving as one chunk each. *)
Definition acknowledging_async : BreatheAudioProtocol.Protocol :=
  BreatheAudioProtocol.mkProtocol [] [[EOL]; [EOL]; [EOL]; [EOL]; [EOL]; [EOL]; [EOL]] [].

(** A snapshot as [zone_status] returns it: zone 2, source 4, volume 50.0. *)
Definition snapshot_2 : ZoneStatus :=
  mkZoneStatus 2 (Py.Float (S754_finite false 7036874417766400 (-47))) true false 4.

(** No carriage return at or after index [skip]. *)
Fixpoint no_cr_after (skip : nat) (line : string) : bool :=
  match line with
  | EmptyString => true
  | String c line' =>
      match skip with
      | O => negb (Ascii.eqb c CR) && no_cr_after O line'
      | S k => no_cr_after k line'
      end
  end.

(** The successive values of [result] as the chunks come in. *)
Fixpoint accumulated (result : string) (chunks : list string) : list string :=
  match chunks with
  | [] => []
  | chunk :: chunks' => (result ++ chunk) :: accumulated (result ++ chunk) chunks'
  end.

(** After no chunk is the accumulated reply longer than [skip] bytes and
    ended by a carriage return. *)
Definition unterminated (skip : nat) (chunks : list string) : bool :=
  forallb (fun result => negb (terminated skip result)) (accumulated EmptyString chunks).

(** The chunks, concatenated. *)
Definition join (chunks : list string) : string :=
  fold_right append EmptyString chunks.

(** The quote around each item of the timeout message. *)
Definition quote : ascii := "'"%char.

(** The value of a hexadecimal digit. *)
Definition hex_digit_value (c : ascii) : N :=
  let n := N_of_ascii c in (if n <? 58 then n - 48 else n - 87)%N.

(** The byte [hex] printed: [unhex (hex b) = b]. *)
Definition unhex (s : string) : ascii :=
  match s with
  | String _ (String _ (String h EmptyString)) => ascii_of_N (hex_digit_value h)
  | String _ (String _ (String h (String l EmptyString))) =>
      ascii_of_N (16 * hex_digit_value h + hex_digit_value l)
  | _ => zero
  end.

(** What follows the closing quote of an item. *)
Definition after_item (rest : list string) : string :=
  match rest with
  | [] => "]"
  | _ :: _ => ", " ++ join_reprs rest ++ "]"
  end.

(** Values are compared after scaling by [2^K], which makes every
    exponent at hand non-negative. *)
Definition K : Z := 1200.

(** [m * 2^e], scaled. *)
Definition scaled_value (m e : Z) : Z := m * 2 ^ (e + K).

(** The native volume [_format_set_volume] puts in the frame. *)
Definition native_volume (volume : Py.num) : result Z :=
  (volume_percentage <- Py.truediv volume (Py.Int 100) ;;
   scaled <- Py.mul (Py.Int MAX_VOLUME) volume_percentage ;;
   Py.int (Py.max (Py.Int 0) (Py.min scaled (Py.Int MAX_VOLUME))))%result.

(** The volume command carrying a native volume. *)
Definition volume_frame (zone native : Z) : string :=
  "*Z0" ++ Py.str zone ++ "VOL" ++ Py.format_02 native ++ EOL.

(** [x] brought into [lo..hi]. *)
Definition clamp (lo hi x : Z) : Z := Z.max lo (Z.min x hi).

(** What the code computes: the scaled percentage cut down to an integer. *)
Definition truncated_native (pct : Z) : Z := 78 * clamp 0 100 pct / 100.

(** What the specification asks for,
    [round(clamp(pct,0,100)/100 * 78)]: the nearest integer, a tie going
    to the even one as Python's [round] does. *)
Definition round_half_even (num den : Z) : Z :=
  let q := num / den in
  let r := num mod den in
  if 2 * r <? den then q
  else if den <? 2 * r then q + 1
  else if Z.even q then q else q + 1.

(** The native volume of the specification. *)
Definition rounded_native (pct : Z) : Z := round_half_even (clamp 0 100 pct * 78) 100.

(** The [n] integers from [lo] on. *)
Definition Zrange (lo : Z) (n : nat) : list Z :=
  map (fun i => lo + Z.of_nat i) (seq 0 n).

(** The frame of [pct] carries [truncated_native pct]. *)
Definition native_is_truncated (pct : Z) : bool :=
  match native_volume (Py.Int pct) with
  | Ok native => native =? truncated_native pct
  | Raise _ => false
  end.

(** The mantissa of 78.0, which is [M78 * 2^-46]. *)
Definition M78 : positive := 5488762045857792.

(** The power-on report of a zone at a native volume. *)
Definition status_reply (zone source group native : Z) : string :=
  "#Z0" ++ Py.str zone ++ "PWRON,SRC" ++ Py.str source ++ ",GRP" ++ Py.str group
  ++ ",VOL-" ++ Py.format_02 native ++ ",POFF" ++ EOL.

(** One native step, in percent. *)
Definition one_step : Q := 100 # 78.

(** [native / MAX_VOLUME * 100], the volume [from_string] stores. *)
Definition decoded_volume (native : Z) : result Py.num :=
  (fraction <- Py.truediv (Py.Int native) (Py.Int MAX_VOLUME) ;;
   Py.mul fraction (Py.Int 100))%result.

(** The character of a decimal digit. *)
Definition digit_char (d : Z) : ascii := ascii_of_N (48 + Z.to_N d).

(** The volume decoded from the native volume of [pct] is at most [pct]
    and less than one step below it. *)
Definition round_trip_ok (pct : Z) : bool :=
  match native_volume (Py.Int pct), decoded_volume (truncated_native pct) with
  | Ok native, Ok recovered =>
      (native =? truncated_native pct)
      && Qle_bool (Py.to_Q recovered) (inject_Z pct)
      && negb (Qle_bool one_step (inject_Z pct - Py.to_Q recovered))
  | _, _ => false
  end.

(** ** The vocabulary of the further properties

    Auxiliary notions for the properties of the decoder, the encoders,
    the two transports and the media player entity that close the
    development. *)

Import MediaPlayer.

(** The classes of the groups of a pattern, in order. *)
Fixpoint group_classes (r : Re.regex) : list (list Re.cclass) :=
  match r with
  | [] => []
  | Re.lit _ :: r' => group_classes r'
  | Re.group ks :: r' => ks :: group_classes r'
  end.

(** [g] has one character of each class of [ks], in order. *)
Fixpoint fits (ks : list Re.cclass) (g : string) : bool :=
  match ks, g with
  | [], EmptyString => true
  | k :: ks', String c g' => Re.in_class k c && fits ks' g'
  | _, _ => false
  end.

(** The rescaled volume of a two-digit token: never negative, within
    0..100 exactly for tokens up to 78, and the nearest doubles away from
    [100 * native / 78]. *)
Definition decoded_volume_ok (native : Z) : bool :=
  match decoded_volume native with
  | Ok (Py.Float v) =>
      let q := Py.to_Q (Py.Float v) in
      Qle_bool 0 q
      && Bool.eqb (Qle_bool q 100) (native <=? 78)
      && negb (Qle_bool (1 # 2 ^ 45) (Qabs (q - (100 * native # 78))))
  | _ => false
  end.

(** A sign or a decimal digit. *)
Definition is_numeric (c : ascii) : bool := Py.is_digit c || Ascii.eqb c "-".

Fixpoint all_numeric (s : string) : bool :=
  match s with
  | EmptyString => true
  | String c s' => is_numeric c && all_numeric s'
  end.

(** A frame is one line: a body without carriage return, then the
    terminator. *)
Definition single_line (frame : string) : Prop :=
  exists body, frame = body ++ EOL /\ free CR body = true.

(** A line, one byte a chunk. *)
Definition bytewise (line : string) : list string :=
  map (fun c => String c EmptyString) (list_ascii_of_string line).

(** The blocking outcome, as the event-driven transport reports it. *)
Definition as_async (r : result string) : result string :=
  match r with
  | Raise (SerialTimeoutException _) => Raise AsyncioTimeoutError
  | _ => r
  end.

(** The chunk is not empty and does not end with a carriage return. *)
Definition ends_without_cr (chunk : string) : bool :=
  negb (String.eqb chunk EmptyString) && negb (String.eqb (last_bytes LEN_EOL chunk) EOL).

(** The native volumes that lose a step when their decoded percentage is
    sent back. *)
Definition lossy_natives : list Z := [13; 25; 26; 37; 45; 50; 52; 55; 57; 74].

Definition replayed_native (native : Z) : Z :=
  if existsb (Z.eqb native) lossy_natives then native - 1 else native.

Definition replay_ok (native : Z) : bool :=
  match decoded_volume native with
  | Ok v =>
      match native_volume v with
      | Ok n => n =? replayed_native native
      | Raise _ => false
      end
  | Raise _ => false
  end.

(** The level [update] stores for a native volume: [native / 78 * 100 / 100]. *)
Definition stored_level (native : Z) : result Py.num :=
  (v <- decoded_volume native ;; Py.truediv v (Py.Int 100))%result.

(** The unit interval holds the stored level exactly for natives up to 78. *)
Definition stored_level_ok (native : Z) : bool :=
  match stored_level native with
  | Ok (Py.Float level) =>
      let q := Py.to_Q (Py.Float level) in
      Qle_bool 0 q && Bool.eqb (Qle_bool q 1) (native <=? 78)
  | _ => false
  end.

(** The native volume [volume_up] sends from a stored level. *)
Definition up_native (level : Py.num) : result Z :=
  (scaled <- Py.mul level (Py.Int 100) ;;
   volume <- PyArith.add scaled (Py.Int 10) ;;
   native_volume (Py.min volume (Py.Int 100)))%result.

Definition down_native (level : Py.num) : result Z :=
  (scaled <- Py.mul level (Py.Int 100) ;;
   volume <- PyArith.sub scaled (Py.Int 10) ;;
   native_volume (Py.max volume (Py.Int 0)))%result.

Definition steps_ok (native : Z) : bool :=
  match stored_level native with
  | Ok level =>
      match up_native level, down_native level with
      | Ok up, Ok down => (up =? Z.min (native + 7) 78) && (down =? Z.max (native - 8) 0)
      | _, _ => false
      end
  | Raise _ => false
  end.

(** The outcome of a driver call. *)
Definition outcome_of {A : Type} (r : result A) : outcome :=
  match r with
  | Ok _ => Returned
  | Raise e => Raised (Driver e)
  end.

(** Sending one volume frame. *)
Definition sends_volume (self : BreatheAudioZone) (native : Z)
    (port : BreatheAudioSync.Port)
    : outcome * BreatheAudioZone * BreatheAudioSync.Port :=
  let '(r, port') :=
    BreatheAudioSync._process_request (volume_frame (_zone_id self) native) 0 port in
  (outcome_of r, self, port').

(** The native volume sent when the level read is written back. *)
Definition writeback_native (level : Py.num) : result Z :=
  (scaled <- Py.mul level (Py.Int 100) ;;
   pct <- Py.int scaled ;;
   native_volume (Py.Int pct))%result.

Definition kept_natives : list Z := [0; 39; 78].

Definition written_back (native : Z) : Z :=
  if existsb (Z.eqb native) kept_natives then native else native - 1.

Definition writeback_ok (native : Z) : bool :=
  match stored_level native with
  | Ok level =>
      match writeback_native level with
      | Ok n => n =? written_back native
      | Raise _ => false
      end
  | Raise _ => false
  end.

(** The port after one status query. *)
Definition queried (zone : Z) (port : BreatheAudioSync.Port) : BreatheAudioSync.Port :=
  BreatheAudioSync.mkPort
    (BreatheAudioSync.written port ++ [_format_zone_status_request zone])
    (tl (BreatheAudioSync.incoming port)).

(** The commands of the protocol, a volume command by its native volume. *)
Inductive command : Type :=
| Query
| Power (power : bool)
| Mute (mute : bool)
| Volume (native : Z)
| Source (source : Z).

(** The frame of a command, as the encoders build it. *)
Definition frame_of (zone : Z) (c : command) : string :=
  match c with
  | Query => _format_zone_status_request zone
  | Power power => _format_set_power zone power
  | Mute mute => _format_set_mute zone mute
  | Volume native => volume_frame zone native
  | Source source => _format_set_source zone source
  end.

(** The arguments the clamps of the encoders leave as they are. *)
Definition in_range (c : command) : Prop :=
  match c with
  | Volume native => 0 <= native <= 78
  | Source source => 0 <= source <= 6
  | _ => True
  end.

(** The text of a command after the zone. *)
Definition command_text (c : command) : string :=
  match c with
  | Query => "CONSR"
  | Power power => if power then "ON" else "OFF"
  | Mute mute => if mute then "MTON" else "MTOFF"
  | Volume native => "VOL" ++ Py.format_02 native
  | Source source => "SRC" ++ Py.str (Z.max 0 (Z.min source 6))
  end.

(** * Properties *)

(** ** Sample evaluations *)

Example float_one_hundredth :
  Py.int_truediv 1 100 = Ok (S754_finite false 5764607523034235 (-59)).
Proof. reflexivity. Qed.

Example str_examples :
  Py.str 3 = "3" /\ Py.format_02 7 = "07" /\ Py.format_02 78 = "78"
  /\ Py.format_02 (-5) = "-5" /\ Py.format_02 123 = "123".
Proof. repeat split. Qed.

Example int_of_str_examples :
  Py.int_of_str "39" = Ok 39 /\ Py.int_of_str "07" = Ok 7
  /\ Py.int_of_str "MT" = Raise ValueError /\ Py.int_of_str "1_" = Raise ValueError
  /\ Py.int_of_str "_1" = Raise ValueError /\ Py.int_of_str "1_0" = Ok 10.
Proof. repeat split. Qed.

Example decode_examples :
  from_string ("#Z03PWROFF" ++ EOL) = Ok (Some (mkZoneStatus 3 (Py.Int 0) false false 1))
  /\ from_string ("#Z02PWRON,SRC4,GRP1,VOL-39,POFF" ++ EOL)
     = Ok (Some (mkZoneStatus 2 (Py.Float (S754_finite false 7036874417766400 (-47)))
                   true false 4))
  /\ from_string "#Z01PWRON,SRC1,GRP1,VOL-MT,POFF"
     = Ok (Some (mkZoneStatus 1 (Py.Int 0) true true 1))
  /\ from_string "#Z01PWRON,SRC1,GRP1,VOL-AB,POFF" = Raise ValueError
  /\ from_string "hello" = Ok None.
Proof. repeat split. Qed.

Example encode_examples :
  _format_set_volume 1 (Py.Int 50) = Ok ("*Z01VOL39" ++ EOL)
  /\ _format_set_volume 1 (Py.Int 1) = Ok ("*Z01VOL00" ++ EOL)
  /\ _format_set_volume 6 (Py.Int 100) = Ok ("*Z06VOL78" ++ EOL)
  /\ _format_set_volume 6 (Py.Int 250) = Ok ("*Z06VOL78" ++ EOL)
  /\ _format_set_volume 6 (Py.Int (-3)) = Ok ("*Z06VOL00" ++ EOL)
  /\ _format_set_volume 2 (Py.Int (10 ^ 400)) = Raise OverflowError
  /\ _format_set_source 2 9 = "*Z02SRC6" ++ EOL
  /\ _format_set_power 4 true = "*Z04ON" ++ EOL.
Proof. repeat split; vm_compute; reflexivity. Qed.

(** ** Scanning past text that cannot start a reply *)

Section Scan.

Variable a : ascii.
Variable text : string.
Variable r : Re.regex.

(** Both patterns start with a literal; a position holding another
    character than its first one is skipped. *)
Lemma search_skip (c : ascii) (s : string) :
  Ascii.eqb a c = false ->
  Re.search (Re.lit (String a text) :: r) (String c s)
  = Re.search (Re.lit (String a text) :: r) s.
Proof.
  intros Hc. cbn [Re.search Re.match_here Re.match_lit]. rewrite Hc. reflexivity.
Qed.

Lemma search_skip_free (junk s : string) :
  free a junk = true ->
  Re.search (Re.lit (String a text) :: r) (junk ++ s)
  = Re.search (Re.lit (String a text) :: r) s.
Proof.
  induction junk as [|c junk IH]; intros Hfree; [reflexivity|].
  cbn [free] in Hfree. apply andb_true_iff in Hfree as [Hc Hjunk].
  apply negb_true_iff in Hc.
  cbn [append]. rewrite search_skip by exact Hc. apply IH, Hjunk.
Qed.

End Scan.

Lemma digit_not_hash (c : ascii) : Py.is_digit c = true -> Ascii.eqb hash c = false.
Proof.
  intros H. destruct (Ascii.eqb hash c) eqn:E; [|reflexivity].
  apply Ascii.eqb_eq in E. subst c. discriminate H.
Qed.

Lemma word_not_hash (c : ascii) : Re.is_word c = true -> Ascii.eqb hash c = false.
Proof.
  intros H. destruct (Ascii.eqb hash c) eqn:E; [|reflexivity].
  apply Ascii.eqb_eq in E. subst c. discriminate H.
Qed.

(** A one-digit group converts to the value of its digit. *)
Lemma int_of_digit (c : ascii) :
  Py.is_digit c = true ->
  Py.int_of_str (String c EmptyString) = Ok (Py.digit_value c).
Proof.
  intros H.
  assert (Hm : Ascii.eqb c "-" = false /\ Ascii.eqb c "+" = false).
  { split; (destruct (Ascii.eqb c _) eqn:E; [|reflexivity]);
      apply Ascii.eqb_eq in E; subst c; discriminate H. }
  destruct Hm as [Hminus Hplus].
  unfold Py.int_of_str.
  assert (Hbody : (match String c EmptyString with
                   | String "-" rest => (true, rest)
                   | String "+" rest => (false, rest)
                   | _ => (false, String c EmptyString)
                   end) = (false, String c EmptyString)).
  { destruct c as [[] [] [] [] [] [] [] []]; try reflexivity; discriminate. }
  rewrite Hbody. cbn [Py.digits_value]. rewrite H. reflexivity.
Qed.

Example off_report_3 : off_report "3" ++ EOL = "#Z03PWROFF" ++ EOL.
Proof. reflexivity. Qed.

Example on_report_mute :
  on_report "1" "1" "1" "MT" ++ EOL = "#Z01PWRON,SRC1,GRP1,VOL-MT,POFF" ++ EOL.
Proof. reflexivity. Qed.

(** ** Decoding *)

(** [from_string] by the outcome of the two searches. *)
Lemma from_string_off (s : string) (groups : list string) :
  Re.search ZONE_PATTERN_OFF s = Some groups ->
  from_string s =
  (zone <- Py.int_of_str (groups_get groups 0) ;;
   Ok (Some (mkZoneStatus zone (Py.Int 0) false false 1)))%result.
Proof.
  intros Hoff. destruct s as [|c s]; [discriminate Hoff|].
  unfold from_string. rewrite Hoff. reflexivity.
Qed.

Lemma from_string_on (s : string) (groups : list string) :
  Re.search ZONE_PATTERN_OFF s = None ->
  Re.search ZONE_PATTERN_ON s = Some groups ->
  from_string s =
  (zone <- Py.int_of_str (groups_get groups 0) ;;
   source <- Py.int_of_str (groups_get groups 1) ;;
   if (String.eqb (groups_get groups 3) "MT" || String.eqb (groups_get groups 3) "XM")%bool
   then Ok (Some (mkZoneStatus zone (Py.Int 0) true true source))
   else
     native <- Py.int_of_str (groups_get groups 3) ;;
     fraction <- Py.truediv (Py.Int native) (Py.Int MAX_VOLUME) ;;
     volume <- Py.mul fraction (Py.Int 100) ;;
     Ok (Some (mkZoneStatus zone volume true false source)))%result.
Proof.
  intros Hoff Hon. destruct s as [|c s]; [discriminate Hon|].
  unfold from_string. rewrite Hoff, Hon. reflexivity.
Qed.

Lemma search_cons (r : Re.regex) (c : ascii) (s : string) :
  Re.search r (String c s)
  = match Re.match_here r (String c s) with
    | Some groups => Some groups
    | None => Re.search r s
    end.
Proof. reflexivity. Qed.

(** One anchored match, computed as far as the text is known. *)
Ltac here :=
  cbn [Re.match_here Re.match_lit Re.match_classes Re.in_class
       Ascii.eqb Bool.eqb andb].

Ltac scan := cbn [off_report on_report append]; rewrite search_cons; here.

Lemma search_off_report (junk : string) (z : ascii) (rest : string) :
  no_hash junk = true -> Py.is_digit z = true ->
  Re.search ZONE_PATTERN_OFF (junk ++ off_report z ++ rest)
  = Some [String z EmptyString].
Proof.
  intros Hjunk Hz. unfold ZONE_PATTERN_OFF.
  rewrite search_skip_free by exact Hjunk.
  scan. rewrite Hz. reflexivity.
Qed.

(** C6. A power-off report, after any text free of [#] and before any
    text at all, decodes to the status of the reported zone with power
    off, mute off, volume 0 and source 1; the report of the specification,
    [#Z03PWROFF] with its carriage return, gives zone 3. *)
Theorem from_string_power_off (junk : string) (z : ascii) (rest : string) :
  no_hash junk = true ->
  Py.is_digit z = true ->
  from_string (junk ++ off_report z ++ rest)
  = Ok (Some (mkZoneStatus (Py.digit_value z) (Py.Int 0) false false 1)).
Proof.
  intros Hjunk Hz.
  rewrite (from_string_off _ _ (search_off_report junk z rest Hjunk Hz)).
  cbn [groups_get nth]. rewrite (int_of_digit z Hz). reflexivity.
Qed.

Lemma from_string_power_off_witness :
  from_string ("#Z03PWROFF" ++ EOL)
  = Ok (Some (mkZoneStatus 3 (Py.Int 0) false false 1)).
Proof.
  exact (from_string_power_off EmptyString "3" EOL eq_refl eq_refl).
Defined.

Section OnReport.

Variables z s g t1 t2 : ascii.
Variables junk rest : string.

Hypothesis Hjunk : no_hash junk = true.
Hypothesis Hz : Py.is_digit z = true.
Hypothesis Hs : Py.is_digit s = true.
Hypothesis Hg : Py.is_digit g = true.
Hypothesis Ht1 : Re.is_word t1 = true.
Hypothesis Ht2 : Re.is_word t2 = true.

Let token : string := String t1 (String t2 EmptyString).

(** The power-on report is not mistaken for a power-off report: the
    off pattern matches in it only where it matches in what follows. *)
Lemma search_off_on_report :
  Re.search ZONE_PATTERN_OFF (junk ++ on_report z s g token ++ rest)
  = Re.search ZONE_PATTERN_OFF rest.
Proof.
  unfold ZONE_PATTERN_OFF.
  rewrite search_skip_free by exact Hjunk.
  unfold token. scan. rewrite Hz. here.
  repeat (rewrite search_skip
           by first [ reflexivity
                    | apply digit_not_hash; assumption
                    | apply word_not_hash; assumption ]).
  reflexivity.
Qed.

Lemma search_on_on_report :
  Re.search ZONE_PATTERN_ON (junk ++ on_report z s g token ++ rest)
  = Some [String z EmptyString; String s EmptyString; String g EmptyString; token].
Proof.
  unfold ZONE_PATTERN_ON.
  rewrite search_skip_free by exact Hjunk.
  unfold token. scan. rewrite Hz. here. rewrite Hs. here. rewrite Hg. here.
  rewrite Ht1, Ht2. reflexivity.
Qed.

End OnReport.

(** C7. A power-on report whose volume token is one of the two mute
    sentinels [MT] and [XM] decodes to a muted, powered status with volume
    0 and the reported zone and source. *)
Theorem from_string_mute_sentinel
    (junk : string) (z s g : ascii) (token rest : string) :
  no_hash junk = true ->
  Py.is_digit z = true -> Py.is_digit s = true -> Py.is_digit g = true ->
  token = "MT" \/ token = "XM" ->
  Re.search ZONE_PATTERN_OFF rest = None ->
  from_string (junk ++ on_report z s g token ++ rest)
  = Ok (Some (mkZoneStatus (Py.digit_value z) (Py.Int 0) true true (Py.digit_value s))).
Proof.
  intros Hjunk Hz Hs Hg Htoken Hrest.
  assert (Hsearch :
    Re.search ZONE_PATTERN_OFF (junk ++ on_report z s g token ++ rest) = None
    /\ Re.search ZONE_PATTERN_ON (junk ++ on_report z s g token ++ rest)
       = Some [String z EmptyString; String s EmptyString; String g EmptyString; token]).
  { destruct Htoken; subst token; split;
      first [ rewrite search_off_on_report by (assumption || reflexivity); exact Hrest
            | apply search_on_on_report; (assumption || reflexivity) ]. }
  destruct Hsearch as [Hoff Hon].
  rewrite (from_string_on _ _ Hoff Hon).
  cbn [groups_get nth]. rewrite (int_of_digit z Hz), (int_of_digit s Hs).
  destruct Htoken; subst token; reflexivity.
Qed.

Lemma from_string_mute_sentinel_witness :
  from_string ("#Z01PWRON,SRC1,GRP1,VOL-MT,POFF" ++ EOL)
  = Ok (Some (mkZoneStatus 1 (Py.Int 0) true true 1)).
Proof.
  exact (from_string_mute_sentinel EmptyString "1" "1" "1" "MT" EOL
           eq_refl eq_refl eq_refl eq_refl (or_introl eq_refl) eq_refl).
Defined.

(** C8. A string in which neither reply pattern is found decodes to
    [None]: a result, not an exception. *)
Theorem from_string_no_match (s : string) :
  Re.search ZONE_PATTERN_OFF s = None ->
  Re.search ZONE_PATTERN_ON s = None ->
  from_string s = Ok None.
Proof.
  intros Hoff Hon. destruct s as [|c s]; [reflexivity|].
  unfold from_string. rewrite Hoff, Hon. reflexivity.
Qed.

Lemma from_string_no_match_witness :
  from_string "*Z01CONSR" = Ok None.
Proof.
  exact (from_string_no_match "*Z01CONSR" eq_refl eq_refl).
Defined.

(** [int] rejects a two-character word token unless both are digits. *)
Lemma int_of_token_invalid (t1 t2 : ascii) :
  Re.is_word t1 = true ->
  (Py.is_digit t1 && Py.is_digit t2)%bool = false ->
  Py.int_of_str (String t1 (String t2 EmptyString)) = Raise ValueError.
Proof.
  intros Hw Hd. unfold Py.int_of_str.
  assert (Hbody : (match String t1 (String t2 EmptyString) with
                   | String "-" rest => (true, rest)
                   | String "+" rest => (false, rest)
                   | _ => (false, String t1 (String t2 EmptyString))
                   end) = (false, String t1 (String t2 EmptyString))).
  { destruct t1 as [[] [] [] [] [] [] [] []]; try reflexivity; discriminate. }
  rewrite Hbody. cbn [Py.digits_value].
  destruct (Py.is_digit t1) eqn:D1.
  - cbn [andb] in Hd. cbn [Py.digits_value]. rewrite Hd.
    destruct (Ascii.eqb t2 "_" && true)%bool; reflexivity.
  - rewrite andb_false_r. reflexivity.
Qed.

(** C10. [from_string] is not total: on a power-on report whose volume
    token is two word characters that are neither a mute sentinel nor two
    digits, [int(groups[3])] raises [ValueError]. *)
Theorem from_string_raises_on_bad_token
    (junk : string) (z s g t1 t2 : ascii) (rest : string) :
  no_hash junk = true ->
  Py.is_digit z = true -> Py.is_digit s = true -> Py.is_digit g = true ->
  Re.is_word t1 = true -> Re.is_word t2 = true ->
  (Py.is_digit t1 && Py.is_digit t2)%bool = false ->
  String t1 (String t2 EmptyString) <> "MT" ->
  String t1 (String t2 EmptyString) <> "XM" ->
  Re.search ZONE_PATTERN_OFF rest = None ->
  from_string (junk ++ on_report z s g (String t1 (String t2 EmptyString)) ++ rest)
  = Raise ValueError.
Proof.
  intros Hjunk Hz Hs Hg Ht1 Ht2 Hd Hmt Hxm Hrest.
  rewrite (from_string_on _ [String z EmptyString; String s EmptyString;
                             String g EmptyString; String t1 (String t2 EmptyString)]).
  - cbn [groups_get nth]. rewrite (int_of_digit z Hz), (int_of_digit s Hs).
    cbn [rbind].
    apply String.eqb_neq in Hmt. apply String.eqb_neq in Hxm.
    rewrite Hmt, Hxm. cbn [orb].
    rewrite (int_of_token_invalid t1 t2 Ht1 Hd). reflexivity.
  - rewrite search_off_on_report by assumption. exact Hrest.
  - apply search_on_on_report; assumption.
Qed.

Lemma from_string_raises_on_bad_token_witness :
  from_string ("#Z01PWRON,SRC1,GRP1,VOL-AB,POFF" ++ EOL) = Raise ValueError.
Proof.
  refine (from_string_raises_on_bad_token EmptyString "1" "1" "1" "A" "B" EOL
            eq_refl eq_refl eq_refl eq_refl eq_refl eq_refl eq_refl _ _ eq_refl);
    discriminate.
Defined.

(** C5. The decoded volume is [native / 78 * 100] as a float: for the
    report of native volume 1 it is 1.2820512820512822, not an integer,
    and for the token [99], which the pattern accepts, it is above 100. *)
Theorem from_string_volume_is_a_float :
  from_string ("#Z01PWRON,SRC1,GRP1,VOL-01,POFF" ++ EOL)
  = Ok (Some (mkZoneStatus 1 (Py.Float (S754_finite false 5773845676116020 (-52)))
                true false 1))
  /\ (forall n : Z,
        ~ Py.to_Q (Py.Float (S754_finite false 5773845676116020 (-52))) == inject_Z n)
  /\ from_string ("#Z01PWRON,SRC1,GRP1,VOL-99,POFF" ++ EOL)
     = Ok (Some (mkZoneStatus 1 (Py.Float (S754_finite false 8931417530241969 (-46)))
                   true false 1))
  /\ (100 < Py.to_Q (Py.Float (S754_finite false 8931417530241969 (-46))))%Q.
Proof.
  split; [vm_compute; reflexivity|]. split.
  - intros n. unfold Qeq. cbn. lia.
  - split; [vm_compute; reflexivity|]. reflexivity.
Qed.

(** ** Transactions *)

Lemma process_request_port (request : string) (skip : nat) (port : BreatheAudioSync.Port) :
  snd (BreatheAudioSync._process_request request skip port)
  = BreatheAudioSync.mkPort
      (BreatheAudioSync.written port ++ [request])
      (tl (BreatheAudioSync.incoming port)).
Proof.
  unfold BreatheAudioSync._process_request.
  destruct (BreatheAudioSync.read_loop skip EmptyString _); reflexivity.
Qed.

Lemma send_written (request : string) (skip : nat) (p : BreatheAudioProtocol.Protocol) :
  BreatheAudioProtocol.written (snd (BreatheAudioProtocol.send request skip p))
  = (BreatheAudioProtocol.written p ++ [request])%list
  /\ BreatheAudioProtocol.incoming (snd (BreatheAudioProtocol.send request skip p))
     = tl (BreatheAudioProtocol.incoming p).
Proof.
  unfold BreatheAudioProtocol.send.
  destruct (BreatheAudioProtocol.receive_loop skip EmptyString _); split; reflexivity.
Qed.

Example snapshot_2_decoded :
  BreatheAudioSync.zone_status 2
    (BreatheAudioSync.mkPort [] ["#Z02PWRON,SRC4,GRP1,VOL-39,POFF" ++ EOL])
  = (Ok (Some snapshot_2), BreatheAudioSync.mkPort ["*Z02CONSR" ++ EOL] []).
Proof. vm_compute. reflexivity. Qed.

(** C1. [restore_zone] never completes: in the blocking driver it sends
    the power, mute and volume commands and then raises [AttributeError]
    on [status.treble]; in the event-driven driver it raises [NameError]
    on [_format_set_treble] at the same point.  Whatever the device
    answers, the source command is not sent. *)
Theorem restore_zone_raises
    (status : ZoneStatus) (port : BreatheAudioSync.Port)
    (protocol : BreatheAudioProtocol.Protocol) :
  let power_frame := _format_set_power (zone status) (power status) in
  let mute_frame := _format_set_mute (zone status) (mute status) in
  let sent_is (sent : list string) :=
    sent = [power_frame] \/ sent = [power_frame; mute_frame]
    \/ exists volume_frame,
         _format_set_volume (zone status) (volume status) = Ok volume_frame
         /\ sent = [power_frame; mute_frame; volume_frame] in
  (exists e port' sent,
      BreatheAudioSync.restore_zone status port = (Raise e, port')
      /\ BreatheAudioSync.written port' = (BreatheAudioSync.written port ++ sent)%list
      /\ sent_is sent)
  /\ (exists e protocol' sent,
        BreatheAudioAsync.restore_zone status protocol = (Raise e, protocol')
        /\ BreatheAudioProtocol.written protocol'
           = (BreatheAudioProtocol.written protocol ++ sent)%list
        /\ sent_is sent)
  /\ BreatheAudioSync.restore_zone snapshot_2 acknowledging
     = (Raise (AttributeError "treble"),
        BreatheAudioSync.mkPort
          ["*Z02ON" ++ EOL; "*Z02MTOFF" ++ EOL; "*Z02VOL39" ++ EOL]
          [EOL; EOL; EOL; EOL])
  /\ BreatheAudioAsync.restore_zone snapshot_2 acknowledging_async
     = (Raise (NameError "_format_set_treble"),
        BreatheAudioProtocol.mkProtocol
          ["*Z02ON" ++ EOL; "*Z02MTOFF" ++ EOL; "*Z02VOL39" ++ EOL]
          [[EOL]; [EOL]; [EOL]; [EOL]] []).
Proof.
  intros power_frame mute_frame sent_is.
  split; [|split; [|split; vm_compute; reflexivity]].
  - unfold BreatheAudioSync.restore_zone, BreatheAudioSync.set_power,
      BreatheAudioSync.set_mute, BreatheAudioSync.set_volume, bind, lift, ret.
    fold power_frame mute_frame.
    pose proof (process_request_port power_frame 0 port) as H1.
    destruct (BreatheAudioSync._process_request power_frame 0 port) as [[r1|e1] port1];
      cbn [snd] in H1; subst port1.
    2:{ eexists _, _, [power_frame]. split; [reflexivity|]. split; [reflexivity|].
        left; reflexivity. }
    match goal with |- context [BreatheAudioSync._process_request mute_frame 0 ?p] =>
      pose proof (process_request_port mute_frame 0 p) as H2;
      destruct (BreatheAudioSync._process_request mute_frame 0 p) as [[r2|e2] port2]
    end; cbn [snd BreatheAudioSync.written BreatheAudioSync.incoming] in H2; subst port2.
    2:{ eexists _, _, [power_frame; mute_frame]. split; [reflexivity|].
        cbn [BreatheAudioSync.written]. rewrite <- app_assoc.
        split; [reflexivity|]. right; left; reflexivity. }
    destruct (_format_set_volume (zone status) (volume status)) as [volume_frame|e3] eqn:Hv.
    2:{ eexists _, _, [power_frame; mute_frame]. split; [reflexivity|].
        cbn [BreatheAudioSync.written]. rewrite <- app_assoc.
        split; [reflexivity|]. right; left; reflexivity. }
    match goal with |- context [BreatheAudioSync._process_request volume_frame 0 ?p] =>
      pose proof (process_request_port volume_frame 0 p) as H3;
      destruct (BreatheAudioSync._process_request volume_frame 0 p) as [[r3|e3] port3]
    end; cbn [snd BreatheAudioSync.written BreatheAudioSync.incoming] in H3; subst port3.
    + eexists _, _, [power_frame; mute_frame; volume_frame].
      split; [reflexivity|]. cbn [BreatheAudioSync.written]. rewrite <- !app_assoc.
      split; [reflexivity|]. right; right. exists volume_frame. split; reflexivity.
    + eexists _, _, [power_frame; mute_frame; volume_frame].
      split; [reflexivity|]. cbn [BreatheAudioSync.written]. rewrite <- !app_assoc.
      split; [reflexivity|]. right; right. exists volume_frame. split; reflexivity.
  - unfold BreatheAudioAsync.restore_zone, bind, lift, ret, throw.
    fold power_frame mute_frame.
    destruct (send_written power_frame 0 protocol) as [W1 _].
    destruct (BreatheAudioProtocol.send power_frame 0 protocol) as [[r1|e1] p1];
      cbn [snd] in W1.
    2:{ eexists _, _, [power_frame]. split; [reflexivity|]. split; [exact W1|].
        left; reflexivity. }
    destruct (send_written mute_frame 0 p1) as [W2 _].
    destruct (BreatheAudioProtocol.send mute_frame 0 p1) as [[r2|e2] p2];
      cbn [snd] in W2; rewrite W1 in W2; rewrite <- app_assoc in W2.
    2:{ eexists _, _, [power_frame; mute_frame]. split; [reflexivity|].
        split; [exact W2|]. right; left; reflexivity. }
    destruct (_format_set_volume (zone status) (volume status)) as [volume_frame|e3] eqn:Hv.
    2:{ eexists _, _, [power_frame; mute_frame]. split; [reflexivity|].
        split; [exact W2|]. right; left; reflexivity. }
    destruct (send_written volume_frame 0 p2) as [W3 _].
    destruct (BreatheAudioProtocol.send volume_frame 0 p2) as [[r3|e3] p3];
      cbn [snd] in W3; rewrite W2 in W3; rewrite <- app_assoc in W3.
    + eexists _, _, [power_frame; mute_frame; volume_frame]. split; [reflexivity|].
      split; [exact W3|]. right; right. exists volume_frame. split; reflexivity.
    + eexists _, _, [power_frame; mute_frame; volume_frame]. split; [reflexivity|].
      split; [exact W3|]. right; right. exists volume_frame. split; reflexivity.
Qed.

(** ** Timeouts *)

Section Strings.

Lemma append_assoc (a b c : string) : (a ++ b) ++ c = a ++ (b ++ c).
Proof. induction a as [|x a IH]; cbn [append]; [reflexivity | now rewrite IH]. Qed.

Lemma append_nil_r (a : string) : a ++ EmptyString = a.
Proof. induction a as [|x a IH]; cbn [append]; [reflexivity | now rewrite IH]. Qed.

Lemma length_append (a b : string) :
  String.length (a ++ b) = (String.length a + String.length b)%nat.
Proof. induction a as [|x a IH]; cbn [append String.length]; [reflexivity | now rewrite IH]. Qed.

Lemma append_cancel_l (a b c : string) : a ++ b = a ++ c -> b = c.
Proof.
  induction a as [|x a IH]; cbn [append]; intros H; [exact H|].
  injection H as H. apply IH, H.
Qed.

(** [result[-1:]] after appending one byte is that byte. *)
Lemma last_bytes_snoc (a : string) (c : ascii) :
  last_bytes 1 (a ++ String c EmptyString) = String c EmptyString.
Proof.
  unfold last_bytes. rewrite length_append. cbn [String.length].
  replace (String.length a + 1 - 1)%nat with (String.length a) by lia.
  induction a as [|x a IH]; [reflexivity|].
  cbn [append String.length substring]. exact IH.
Qed.

End Strings.

Lemma read_loop_times_out (skip : nat) (line result : string) :
  no_cr_after (skip - String.length result) line = true ->
  BreatheAudioSync.read_loop skip result line = TimedOut (result ++ line).
Proof.
  revert result. induction line as [|c line IH]; intros result H.
  - cbn [BreatheAudioSync.read_loop]. now rewrite append_nil_r.
  - cbn [BreatheAudioSync.read_loop].
    assert (Hlen : String.length (result ++ String c EmptyString)
                   = S (String.length result)).
    { rewrite length_append. cbn [String.length]. lia. }
    assert (Hnot : terminated skip (result ++ String c EmptyString) = false).
    { unfold terminated. rewrite last_bytes_snoc, Hlen.
      cbn [no_cr_after] in H.
      destruct (skip - String.length result)%nat as [|k] eqn:Hk.
      - apply andb_true_iff in H as [Hc _]. apply negb_true_iff in Hc.
        unfold EOL. cbn [String.eqb]. rewrite Hc. apply andb_false_r.
      - replace (skip <? S (String.length result))%nat with false; [reflexivity|].
        symmetry. apply Nat.ltb_ge. lia. }
    rewrite Hnot, IH.
    + now rewrite append_assoc.
    + rewrite Hlen. cbn [no_cr_after] in H.
      destruct (skip - String.length result)%nat as [|k] eqn:Hk.
      * apply andb_true_iff in H as [_ H].
        replace (skip - S (String.length result))%nat with O by lia. exact H.
      * replace (skip - S (String.length result))%nat with k by lia. exact H.
Qed.

Lemma receive_loop_times_out (skip : nat) (chunks : list string) (result : string) :
  forallb (fun r => negb (terminated skip r)) (accumulated result chunks) = true ->
  BreatheAudioProtocol.receive_loop skip result chunks = TimedOut (result ++ join chunks).
Proof.
  revert result. induction chunks as [|chunk chunks IH]; intros result H.
  - cbn [BreatheAudioProtocol.receive_loop join fold_right]. now rewrite append_nil_r.
  - cbn [accumulated forallb] in H. apply andb_true_iff in H as [Hnot H].
    apply negb_true_iff in Hnot.
    cbn [BreatheAudioProtocol.receive_loop]. rewrite Hnot, (IH _ H).
    cbn [join fold_right]. now rewrite append_assoc.
Qed.

(** *** The timeout message determines the bytes received *)

Lemma unhex_hex (b : ascii) : unhex (hex b) = b.
Proof. destruct b as [[] [] [] [] [] [] [] []]; reflexivity. Qed.

Lemma hex_quote_free (b : ascii) : free quote (hex b) = true.
Proof. destruct b as [[] [] [] [] [] [] [] []]; reflexivity. Qed.

Lemma map_hex_injective (l1 l2 : list ascii) : map hex l1 = map hex l2 -> l1 = l2.
Proof.
  revert l2. induction l1 as [|a l1 IH]; intros [|b l2] H; try discriminate; [reflexivity|].
  pose proof (f_equal (hd EmptyString) H) as Hab.
  pose proof (f_equal (@tl string) H) as Hl.
  cbn [map hd tl] in Hab, Hl.
  f_equal; [|apply IH, Hl].
  apply (f_equal unhex) in Hab. now rewrite !unhex_hex in Hab.
Qed.

Lemma split_at_quote (u v r1 r2 : string) :
  free quote u = true -> free quote v = true ->
  u ++ String quote r1 = v ++ String quote r2 -> u = v /\ r1 = r2.
Proof.
  revert v. induction u as [|x u IH]; intros [|y v] Hu Hv H; cbn [append] in H.
  - injection H as H. now split.
  - injection H as Hy _. subst y. cbn in Hv. discriminate Hv.
  - injection H as Hx _. subst x. cbn in Hu. discriminate Hu.
  - injection H as Hxy H. subst y.
    cbn [free] in Hu, Hv.
    apply andb_true_iff in Hu as [_ Hu]. apply andb_true_iff in Hv as [_ Hv].
    destruct (IH v Hu Hv H) as [-> ->]. now split.
Qed.

Lemma join_reprs_cons (x : string) (rest : list string) :
  join_reprs (x :: rest) ++ "]" = String quote (x ++ String quote (after_item rest)).
Proof.
  destruct rest as [|y rest]; cbn [join_reprs after_item].
  - change ("'" ++ x ++ "'") with (String quote (x ++ String quote EmptyString)).
    cbn [append]. f_equal. now rewrite append_assoc.
  - change ("'" ++ x ++ "', " ++ join_reprs (y :: rest))
      with (String quote (x ++ String quote (", " ++ join_reprs (y :: rest)))).
    cbn [append]. f_equal. rewrite append_assoc. cbn [append]. reflexivity.
Qed.

Lemma join_reprs_injective (l1 l2 : list string) :
  Forall (fun x => free quote x = true) l1 ->
  Forall (fun x => free quote x = true) l2 ->
  join_reprs l1 ++ "]" = join_reprs l2 ++ "]" -> l1 = l2.
Proof.
  revert l2. induction l1 as [|x l1 IH]; intros [|y l2] H1 H2 H.
  - reflexivity.
  - rewrite join_reprs_cons in H. discriminate H.
  - rewrite join_reprs_cons in H. discriminate H.
  - rewrite !join_reprs_cons in H. injection H as H.
    inversion H1 as [|? ? Hx H1']; subst. inversion H2 as [|? ? Hy H2']; subst.
    destruct (split_at_quote _ _ _ _ Hx Hy H) as [-> Hrest].
    f_equal. apply IH; [assumption..|].
    destruct l1 as [|a l1], l2 as [|b l2]; cbn [after_item] in Hrest;
      try discriminate Hrest; [reflexivity|].
    injection Hrest as Hrest. exact Hrest.
Qed.

Lemma timeout_message_injective (a b : string) :
  timeout_message a = timeout_message b -> a = b.
Proof.
  unfold timeout_message, str_of_list, bytes_to_list. intros H.
  apply append_cancel_l in H. cbn [append] in H. injection H as H.
  apply join_reprs_injective in H.
  - apply map_hex_injective in H.
    rewrite <- (string_of_list_ascii_of_string a), <- (string_of_list_ascii_of_string b).
    now rewrite H.
  - apply Forall_forall. intros x Hx. apply in_map_iff in Hx as [c [<- _]].
    apply hex_quote_free.
  - apply Forall_forall. intros x Hx. apply in_map_iff in Hx as [c [<- _]].
    apply hex_quote_free.
Qed.

(** C4, as the code has it.  When the line falls silent before the
    terminator, the blocking transport raises [SerialTimeoutException]
    with a message from which the bytes received can be read back; the
    event-driven transport writes the bytes received to the error log and
    re-raises the [TimeoutError] of [wait_for] as it is. *)
Theorem timeout_reports_partial_bytes
    (request : string) (skip : nat)
    (port : BreatheAudioSync.Port) (protocol : BreatheAudioProtocol.Protocol) :
  let line := hd EmptyString (BreatheAudioSync.incoming port) in
  let chunks := hd [] (BreatheAudioProtocol.incoming protocol) in
  no_cr_after skip line = true ->
  unterminated skip chunks = true ->
  BreatheAudioSync._process_request request skip port
  = (Raise (SerialTimeoutException (timeout_message line)),
     BreatheAudioSync.mkPort (BreatheAudioSync.written port ++ [request])
       (tl (BreatheAudioSync.incoming port)))
  /\ (forall other : string, timeout_message other = timeout_message line -> other = line)
  /\ BreatheAudioProtocol.send request skip protocol
     = (Raise AsyncioTimeoutError,
        BreatheAudioProtocol.mkProtocol
          (BreatheAudioProtocol.written protocol ++ [request])
          (tl (BreatheAudioProtocol.incoming protocol))
          (BreatheAudioProtocol.error_log protocol ++ [(request, join chunks)])).
Proof.
  intros line chunks Hline Hchunks. split; [|split].
  - unfold BreatheAudioSync._process_request. fold line.
    rewrite read_loop_times_out by (cbn [String.length]; now rewrite Nat.sub_0_r).
    reflexivity.
  - intros other. apply timeout_message_injective.
  - unfold BreatheAudioProtocol.send. fold chunks.
    rewrite receive_loop_times_out by exact Hchunks. reflexivity.
Qed.

Lemma timeout_reports_partial_bytes_witness :
  BreatheAudioSync._process_request ("*Z01CONSR" ++ EOL) 1
    (BreatheAudioSync.mkPort [] [EOL ++ "#Z01PWR"])
  = (Raise (SerialTimeoutException
       "Connection timed out! Last received bytes ['0xd', '0x23', '0x5a', '0x30', '0x31', '0x50', '0x57', '0x52']"),
     BreatheAudioSync.mkPort ["*Z01CONSR" ++ EOL] [])
  /\ BreatheAudioProtocol.send ("*Z01CONSR" ++ EOL) 0
       (BreatheAudioProtocol.mkProtocol [] [["#Z0"; "1PWR"]] [])
     = (Raise AsyncioTimeoutError,
        BreatheAudioProtocol.mkProtocol ["*Z01CONSR" ++ EOL] []
          [("*Z01CONSR" ++ EOL, "#Z01PWR")]).
Proof.
  split.
  - exact (proj1 (timeout_reports_partial_bytes ("*Z01CONSR" ++ EOL) 1
             (BreatheAudioSync.mkPort [] [EOL ++ "#Z01PWR"])
             (BreatheAudioProtocol.mkProtocol [] [] []) eq_refl eq_refl)).
  - exact (proj2 (proj2 (timeout_reports_partial_bytes ("*Z01CONSR" ++ EOL) 0
             (BreatheAudioSync.mkPort [] [])
             (BreatheAudioProtocol.mkProtocol [] [["#Z0"; "1PWR"]] []) eq_refl eq_refl))).
Defined.

(** C4, as stated, fails for the event-driven transport: two timed-out
    transactions that received different bytes raise the same exception,
    so no reading of the exception gives the bytes received. *)
Lemma async_timeout_carries_no_bytes :
  ~ exists partial_of : exn -> string,
      forall (request : string) (skip : nat) (protocol : BreatheAudioProtocol.Protocol),
        unterminated skip (hd [] (BreatheAudioProtocol.incoming protocol)) = true ->
        exists e,
          fst (BreatheAudioProtocol.send request skip protocol) = Raise e
          /\ partial_of e = join (hd [] (BreatheAudioProtocol.incoming protocol)).
Proof.
  intros [partial_of H].
  destruct (H EOL 0%nat (BreatheAudioProtocol.mkProtocol [] [["#Z0"]] []) eq_refl)
    as [e1 [He1 Hp1]].
  destruct (H EOL 0%nat (BreatheAudioProtocol.mkProtocol [] [["#Z01PWR"]] []) eq_refl)
    as [e2 [He2 Hp2]].
  cbn in He1, He2. injection He1 as <-. injection He2 as <-.
  rewrite Hp1 in Hp2. discriminate Hp2.
Qed.

(** ** Rounding to binary64

    What the proofs below need of [binary_round_aux], the rounding step
    shared by the division and the multiplication of floats: in the
    normal range it keeps 53 digits, and it never rounds a number to
    below a representable one that it is not below. *)

Section Rounding.

(** [shr_1] halves the mantissa. *)
Lemma shr_1_m (mrs : shr_record) :
  0 <= shr_m mrs -> shr_m (shr_1 mrs) = shr_m mrs / 2.
Proof.
  destruct mrs as [m r s]. cbn [shr_m]. intros Hm.
  destruct m as [|[p|p|]|p]; cbn [shr_1 shr_m]; try reflexivity; try lia.
  - rewrite Pos2Z.inj_xI. apply Z.div_unique with (r := 1); lia.
  - rewrite Pos2Z.inj_xO. apply Z.div_unique with (r := 0); lia.
Qed.

Lemma shr_m_iter (p : positive) (mrs : shr_record) :
  0 <= shr_m mrs ->
  shr_m (iter_pos shr_1 p mrs) = shr_m mrs / 2 ^ Zpos p.
Proof.
  revert mrs. induction p as [p IH|p IH|]; intros mrs Hm; cbn [iter_pos].
  - assert (H1 : 0 <= shr_m (shr_1 mrs)).
    { rewrite shr_1_m by exact Hm. apply Z.div_pos; lia. }
    assert (H2 : 0 <= shr_m (iter_pos shr_1 p (shr_1 mrs))).
    { rewrite IH by exact H1. apply Z.div_pos; [exact H1|]. apply Z.pow_pos_nonneg; lia. }
    rewrite IH by exact H2. rewrite IH by exact H1. rewrite shr_1_m by exact Hm.
    rewrite !Z.div_div by (try apply Z.pow_pos_nonneg; lia).
    f_equal.
    replace (Z.pos p~1) with (1 + Z.pos p + Z.pos p) by lia.
    rewrite !Z.pow_add_r by lia. lia.
  - assert (H2 : 0 <= shr_m (iter_pos shr_1 p mrs)).
    { rewrite IH by exact Hm. apply Z.div_pos; [exact Hm|]. apply Z.pow_pos_nonneg; lia. }
    rewrite IH by exact H2. rewrite IH by exact Hm.
    rewrite !Z.div_div by (try apply Z.pow_pos_nonneg; lia).
    f_equal.
    replace (Z.pos p~0) with (Z.pos p + Z.pos p) by lia.
    rewrite !Z.pow_add_r by lia. lia.
  - rewrite shr_1_m by exact Hm. reflexivity.
Qed.

Lemma digits2_bounds (p : positive) :
  2 ^ (Zpos (digits2_pos p) - 1) <= Zpos p < 2 ^ Zpos (digits2_pos p).
Proof.
  induction p as [p IH|p IH|]; cbn [digits2_pos]; [| |cbn; lia].
  all: rewrite Pos2Z.inj_succ;
    replace (Z.succ (Z.pos (digits2_pos p)) - 1) with (Z.pos (digits2_pos p)) by lia;
    rewrite Z.pow_succ_r by lia;
    assert (E : 2 ^ Z.pos (digits2_pos p) = 2 * 2 ^ (Z.pos (digits2_pos p) - 1))
      by (rewrite <- Z.pow_succ_r by lia; f_equal; lia);
    lia.
Qed.

Lemma Zdigits2_bounds (m : Z) :
  0 < m -> 2 ^ (Zdigits2 m - 1) <= m < 2 ^ Zdigits2 m.
Proof.
  destruct m as [|p|p]; try lia. intros _. apply digits2_bounds.
Qed.

Lemma Zdigits2_pos (m : Z) : 0 < m -> 0 < Zdigits2 m.
Proof. destruct m; cbn; lia. Qed.

(** A number below [2^k] has at most [k] digits, one from [2^k] on has more. *)
Lemma Zdigits2_le (m k : Z) : 0 < m -> 0 <= k -> m < 2 ^ k -> Zdigits2 m <= k.
Proof.
  intros Hm Hk Hlt. pose proof (Zdigits2_bounds m Hm) as [Hlo _].
  pose proof (Zdigits2_pos m Hm).
  destruct (Z_le_gt_dec (Zdigits2 m) k) as [|Hgt]; [assumption|exfalso].
  assert (2 ^ k <= 2 ^ (Zdigits2 m - 1)) by (apply Z.pow_le_mono_r; lia). lia.
Qed.

Lemma Zdigits2_gt (m k : Z) : 0 < m -> 0 <= k -> 2 ^ k <= m -> k < Zdigits2 m.
Proof.
  intros Hm Hk Hle. pose proof (Zdigits2_bounds m Hm) as [_ Hhi].
  pose proof (Zdigits2_pos m Hm).
  destruct (Z_lt_le_dec k (Zdigits2 m)) as [|Hge]; [assumption|exfalso].
  assert (2 ^ Zdigits2 m <= 2 ^ k) by (apply Z.pow_le_mono_r; lia). lia.
Qed.

Lemma shr_m_of_loc (m : Z) (l : location) : shr_m (shr_record_of_loc m l) = m.
Proof. destruct l as [|[]]; reflexivity. Qed.

Lemma loc_of_shr_of_loc (m : Z) (l : location) :
  loc_of_shr_record (shr_record_of_loc m l) = l.
Proof. destruct l as [|[]]; reflexivity. Qed.

Lemma round_nearest_even_bounds (m : Z) (l : location) :
  m <= round_nearest_even m l <= m + 1.
Proof.
  unfold round_nearest_even. destruct l as [|[]]; try lia. destruct (Z.even m); lia.
Qed.

(** In the normal range the mantissa is cut down to 53 digits. *)
Lemma shr_fexp_normal (m e : Z) (l : location) :
  0 < m -> -1021 <= Zdigits2 m + e ->
  let n := Z.max 0 (Zdigits2 m - 53) in
  exists mrs, shr_fexp Py.prec Py.emax m e l = (mrs, e + n)
              /\ shr_m mrs = m / 2 ^ n
              /\ (n = 0 -> mrs = shr_record_of_loc m l).
Proof.
  intros Hm Hnormal n. unfold shr_fexp, shr, fexp, emin, Py.prec, Py.emax.
  replace (Z.max (Zdigits2 m + e - 53) (3 - 1024 - 53) - e) with (Zdigits2 m - 53) by lia.
  destruct (Zdigits2 m - 53) as [|p|p] eqn:Hd; subst n.
  - exists (shr_record_of_loc m l). cbn [Z.max]. rewrite Z.add_0_r, shr_m_of_loc.
    cbn. rewrite Z.div_1_r. auto.
  - eexists. split; [reflexivity|]. split.
    + rewrite shr_m_iter; rewrite shr_m_of_loc; [reflexivity|lia].
    + cbn. discriminate.
  - exists (shr_record_of_loc m l). replace (Z.max 0 (Z.neg p)) with 0 by lia.
    rewrite Z.add_0_r, shr_m_of_loc. cbn. rewrite Z.div_1_r. auto.
Qed.

(** Rounding a positive number of the normal range: the mantissa is cut
    down to 53 digits, possibly incremented, and renormalised when the
    increment carries into a 54th digit. *)
Lemma binary_round_aux_normal (s : bool) (mx ex : Z) (lx : location) :
  0 < mx -> -1021 <= Zdigits2 mx + ex ->
  let n := Z.max 0 (Zdigits2 mx - 53) in
  exists m1 m e,
    mx / 2 ^ n <= m1 <= mx / 2 ^ n + 1
    /\ 0 < m
    /\ ((m = m1 /\ e = ex + n) \/ (m1 = 2 * m /\ e = ex + n + 1))
    /\ binary_round_aux Py.prec Py.emax s mx ex lx
       = if e <=? 971 then S754_finite s (Z.to_pos m) e else S754_infinity s.
Proof.
  intros Hmx Hnormal n.
  pose proof (Zdigits2_bounds mx Hmx) as [Hlo Hhi].
  pose proof (Zdigits2_pos mx Hmx) as Hd.
  assert (Hn : 0 <= n) by (subst n; lia).
  assert (Hpow : 0 < 2 ^ n) by (apply Z.pow_pos_nonneg; lia).
  (* the truncated mantissa has between 1 and 53 digits *)
  assert (Hcut : 2 ^ (Zdigits2 mx - 1 - n) <= mx / 2 ^ n < 2 ^ (Zdigits2 mx - n)).
  { split.
    - apply Z.div_le_lower_bound; [exact Hpow|].
      rewrite <- Z.pow_add_r by (subst n; lia).
      replace (n + (Zdigits2 mx - 1 - n)) with (Zdigits2 mx - 1) by lia. exact Hlo.
    - apply Z.div_lt_upper_bound; [exact Hpow|].
      rewrite <- Z.pow_add_r by (subst n; lia).
      replace (n + (Zdigits2 mx - n)) with (Zdigits2 mx) by lia. exact Hhi. }
  assert (Hcut_pos : 0 < mx / 2 ^ n).
  { assert (0 < 2 ^ (Zdigits2 mx - 1 - n)) by (apply Z.pow_pos_nonneg; subst n; lia). lia. }
  assert (Hcut53 : mx / 2 ^ n < 2 ^ 53).
  { assert (2 ^ (Zdigits2 mx - n) <= 2 ^ 53) by (apply Z.pow_le_mono_r; subst n; lia). lia. }
  destruct (shr_fexp_normal mx ex lx Hmx Hnormal) as [mrs [Hshr [Hm _]]].
  fold n in Hshr, Hm.
  unfold binary_round_aux. rewrite Hshr, Hm.
  set (m1 := round_nearest_even (mx / 2 ^ n) (loc_of_shr_record mrs)).
  pose proof (round_nearest_even_bounds (mx / 2 ^ n) (loc_of_shr_record mrs)) as Hm1.
  fold m1 in Hm1.
  assert (Hm1pos : 0 < m1) by lia.
  assert (Hd1 : Zdigits2 mx - n <= Zdigits2 m1).
  { assert (Zdigits2 mx - 1 - n < Zdigits2 m1); [|lia].
    apply Zdigits2_gt; [lia | subst n; lia | lia]. }
  assert (Hnormal1 : -1021 <= Zdigits2 m1 + (ex + n)) by lia.
  destruct (shr_fexp_normal m1 (ex + n) loc_Exact Hm1pos Hnormal1) as [mrs2 [Hshr2 [Hm2 _]]].
  rewrite Hshr2, Hm2.
  destruct (Z_le_gt_dec (Zdigits2 m1) 53) as [Hle|Hgt].
  - (* no carry *)
    replace (Z.max 0 (Zdigits2 m1 - 53)) with 0 by lia.
    rewrite Z.add_0_r. cbn [Z.pow]. rewrite Z.div_1_r.
    exists m1, m1, (ex + n). split; [exact Hm1|]. split; [exact Hm1pos|].
    split; [left; split; reflexivity|].
    destruct m1 as [|p|p]; try lia. reflexivity.
  - (* the increment reached 2^53 *)
    assert (Hm1eq : m1 = 2 ^ 53).
    { assert (2 ^ 53 <= m1); [|lia].
      pose proof (Zdigits2_bounds m1 Hm1pos) as [Hlo1 _].
      assert (2 ^ 53 <= 2 ^ (Zdigits2 m1 - 1)) by (apply Z.pow_le_mono_r; lia). lia. }
    assert (Hd54 : Zdigits2 m1 = 54) by (rewrite Hm1eq; reflexivity).
    rewrite Hd54. replace (Z.max 0 (54 - 53)) with 1 by lia.
    rewrite Hm1eq. change (2 ^ 53 / 2 ^ 1) with (2 ^ 52).
    exists m1, (2 ^ 52), (ex + n + 1). split; [exact Hm1|]. split; [reflexivity|].
    split; [right; split; [rewrite Hm1eq; reflexivity | reflexivity]|].
    reflexivity.
Qed.

Lemma pow2_pos (k : Z) : 0 <= k -> 0 < 2 ^ k.
Proof. intros. apply Z.pow_pos_nonneg; lia. Qed.

Lemma pow2_split (a b : Z) : 0 <= a -> 0 <= b -> 2 ^ (a + b) = 2 ^ a * 2 ^ b.
Proof. intros. apply Z.pow_add_r; assumption. Qed.

(** Rounding is monotone against a 53-digit number: what is not below
    it is not rounded below it. *)
Lemma binary_round_aux_ge (s : bool) (mx ex : Z) (lx : location) (my ey : Z) :
  0 < mx -> 2 ^ 52 <= my < 2 ^ 53 -> - K <= ex -> -1074 <= ey ->
  scaled_value my ey <= scaled_value mx ex ->
  exists m e,
    0 < m
    /\ ex <= e <= ex + Z.max 0 (Zdigits2 mx - 53) + 1
    /\ scaled_value my ey <= scaled_value m e
    /\ binary_round_aux Py.prec Py.emax s mx ex lx
       = if e <=? 971 then S754_finite s (Z.to_pos m) e else S754_infinity s.
Proof.
  unfold scaled_value, K. intros Hmx Hmy Hex Hey Hle.
  pose proof (Zdigits2_bounds mx Hmx) as [Hlo Hhi].
  pose proof (Zdigits2_pos mx Hmx) as Hd.
  set (d := Zdigits2 mx) in *.
  assert (Hbinade : 52 + ey < d + ex).
  { assert (H1 : 2 ^ 52 * 2 ^ (ey + 1200) <= my * 2 ^ (ey + 1200)).
    { apply Z.mul_le_mono_nonneg_r; [apply Z.lt_le_incl, pow2_pos|]; lia. }
    assert (H2 : mx * 2 ^ (ex + 1200) < 2 ^ d * 2 ^ (ex + 1200)).
    { apply Z.mul_lt_mono_pos_r; [apply pow2_pos|]; lia. }
    rewrite <- pow2_split in H1, H2 by lia.
    assert (52 + (ey + 1200) < d + (ex + 1200)); [|lia].
    apply (Z.pow_lt_mono_r_iff 2); lia. }
  destruct (binary_round_aux_normal s mx ex lx Hmx ltac:(fold d; lia))
    as [m1 [m [e [Hm1 [Hm [Hme Hres]]]]]].
  fold d in Hm1, Hme.
  set (n := Z.max 0 (d - 53)) in *.
  assert (Hn : 0 <= n) by (subst n; lia).
  exists m, e. split; [exact Hm|]. split; [lia|]. split; [|exact Hres].
  (* the truncation is not below [my * 2^ey] *)
  assert (Hfloor : my * 2 ^ (ey + 1200) <= mx / 2 ^ n * 2 ^ (ex + n + 1200)).
  { destruct (Z.eq_dec n 0) as [Hn0|Hn0].
    - rewrite Hn0. cbn [Z.pow]. rewrite Z.div_1_r, Z.add_0_r. exact Hle.
    - assert (Hnd : n = d - 53) by (subst n; lia).
      destruct (Z_le_gt_dec (ex + n) ey) as [Hgrid|Hcoarse].
      + (* [my * 2^ey] is on the grid of the result *)
        replace (ey + 1200) with ((ey - (ex + n)) + (ex + n + 1200)) by lia.
        rewrite pow2_split by lia. rewrite Z.mul_assoc.
        apply Z.mul_le_mono_nonneg_r; [apply Z.lt_le_incl, pow2_pos; lia|].
        apply Z.div_le_lower_bound; [apply pow2_pos; lia|].
        replace (ey + 1200) with ((n + (ey - (ex + n))) + (ex + 1200)) in Hle by lia.
        rewrite (pow2_split (n + _)) in Hle by lia.
        rewrite Z.mul_assoc in Hle.
        apply Z.mul_le_mono_pos_r in Hle; [|apply pow2_pos; lia].
        rewrite pow2_split in Hle by lia. lia.
      + (* the result is in a higher binade *)
        assert (H52 : 2 ^ 52 <= mx / 2 ^ n).
        { apply Z.div_le_lower_bound; [apply pow2_pos; lia|].
          rewrite <- pow2_split by lia. replace (n + 52) with (d - 1) by lia. exact Hlo. }
        assert (H1 : my * 2 ^ (ey + 1200) <= 2 ^ 53 * 2 ^ (ey + 1200)).
        { apply Z.mul_le_mono_nonneg_r; [apply Z.lt_le_incl, pow2_pos|]; lia. }
        assert (H2 : 2 ^ 52 * 2 ^ (ex + n + 1200) <= mx / 2 ^ n * 2 ^ (ex + n + 1200)).
        { apply Z.mul_le_mono_nonneg_r; [apply Z.lt_le_incl, pow2_pos|]; lia. }
        rewrite <- pow2_split in H1, H2 by lia.
        assert (2 ^ (53 + (ey + 1200)) <= 2 ^ (52 + (ex + n + 1200)))
          by (apply Z.pow_le_mono_r; lia).
        lia. }
  assert (Hstep : mx / 2 ^ n * 2 ^ (ex + n + 1200) <= m1 * 2 ^ (ex + n + 1200)).
  { apply Z.mul_le_mono_nonneg_r; [apply Z.lt_le_incl, pow2_pos|]; lia. }
  destruct Hme as [[-> ->]|[-> ->]]; [lia|].
  replace (ex + n + 1 + 1200) with (1 + (ex + n + 1200)) by lia.
  rewrite (pow2_split 1 (ex + n + 1200)) by lia. change (2 ^ 1) with 2. lia.
Qed.

End Rounding.

(** ** Volume *)

Lemma format_set_volume_native (zone : Z) (volume : Py.num) :
  _format_set_volume zone volume
  = (native <- native_volume volume ;; Ok (volume_frame zone native))%result.
Proof.
  unfold _format_set_volume, native_volume, volume_frame.
  destruct (Py.truediv volume (Py.Int 100)) as [vp|]; [|reflexivity]. cbn [rbind].
  destruct (Py.mul (Py.Int MAX_VOLUME) vp) as [scaled|]; reflexivity.
Qed.

Example native_examples :
  map truncated_native [0; 1; 2; 25; 50; 75; 99; 100] = [0; 0; 1; 19; 39; 58; 77; 78]
  /\ map rounded_native [0; 1; 2; 25; 50; 75; 99; 100] = [0; 1; 2; 20; 39; 58; 77; 78].
Proof. split; reflexivity. Qed.

(** *** Checking a finite range by evaluation *)

Lemma in_Zrange (lo : Z) (n : nat) (x : Z) :
  lo <= x < lo + Z.of_nat n -> In x (Zrange lo n).
Proof.
  intros H. unfold Zrange. apply in_map_iff.
  exists (Z.to_nat (x - lo)). split; [lia|]. apply in_seq. lia.
Qed.

Lemma forallb_Zrange (f : Z -> bool) (lo : Z) (n : nat) :
  forallb f (Zrange lo n) = true ->
  forall x, lo <= x < lo + Z.of_nat n -> f x = true.
Proof.
  intros H x Hx. rewrite forallb_forall in H. apply H, in_Zrange, Hx.
Qed.

Lemma native_volume_checked :
  forallb native_is_truncated (Zrange (-99) 199) = true.
Proof. vm_compute. reflexivity. Qed.

(** *** Percentages far out of range *)

Lemma div_eucl_quotient (a b q r : Z) : Z.div_eucl a b = (q, r) -> q = a / b.
Proof. intros H. unfold Z.div. now rewrite H. Qed.

(** [p / 100] for [p >= 100], of either sign: at least 1 in magnitude. *)
Lemma div_100_normal (s : bool) (p : positive) :
  100 <= Zpos p ->
  exists m e,
    0 < m
    /\ -53 <= e <= Zdigits2 (Zpos p) - 58
    /\ 2 ^ K <= scaled_value m e
    /\ SFdiv Py.prec Py.emax (S754_finite s p 0) (S754_finite false 100 0)
       = if e <=? 971 then S754_finite s (Z.to_pos m) e else S754_infinity s.
Proof.
  intros Hp.
  pose proof (Zdigits2_bounds (Zpos p) ltac:(lia)) as [Hlo Hhi].
  set (d := Zdigits2 (Zpos p)) in *.
  assert (Hd : 7 <= d).
  { assert (6 < d); [|lia]. apply Zdigits2_gt; [lia | lia |]. change (2 ^ 6) with 64. lia. }
  unfold SFdiv, SFdiv_core_binary. fold d.
  change (Zdigits2 100) with 7.
  unfold fexp, emin, Py.prec, Py.emax.
  replace (Z.min (Z.max (d + 0 - (7 + 0) - 53) (3 - 1024 - 53)) (0 - 0))
    with (Z.min (d - 60) 0) by lia.
  set (e' := Z.min (d - 60) 0).
  set (sh := 0 - 0 - e').
  assert (Hsh : 0 <= sh) by (subst sh e'; lia).
  set (m' := match sh with
             | 0 => Z.pos p
             | Z.pos _ => Z.shiftl (Z.pos p) sh
             | Z.neg _ => 0
             end).
  assert (Hm' : m' = Zpos p * 2 ^ sh).
  { subst m'. destruct sh as [|k|k] eqn:E; [cbn; lia | | lia].
    rewrite Z.shiftl_mul_pow2 by lia. reflexivity. }
  destruct (Z.div_eucl m' 100) as [q r] eqn:Hqr.
  apply div_eucl_quotient in Hqr.
  assert (H2sh : 0 < 2 ^ sh) by (apply pow2_pos; lia).
  assert (Hq_lo : 2 ^ sh <= q).
  { rewrite Hqr. apply Z.div_le_lower_bound; [lia|]. rewrite Hm'. nia. }
  assert (Hq_hi : q < 2 ^ (d + sh - 6)).
  { rewrite Hqr. apply Z.div_lt_upper_bound; [lia|]. rewrite Hm'.
    assert (Z.pos p * 2 ^ sh < 2 ^ d * 2 ^ sh) by (apply Z.mul_lt_mono_pos_r; lia).
    rewrite <- pow2_split in H by lia.
    replace (d + sh) with (6 + (d + sh - 6)) in H by lia.
    rewrite pow2_split in H by lia. change (2 ^ 6) with 64 in H.
    assert (0 < 2 ^ (d + sh - 6)) by (apply pow2_pos; lia). lia. }
  assert (Hq : 0 < q) by lia.
  assert (Hdq : Zdigits2 q <= d + sh - 6) by (apply Zdigits2_le; lia).
  assert (Hone : scaled_value (2 ^ 52) (-52) = 2 ^ K) by reflexivity.
  destruct (binary_round_aux_ge (xorb s false) q e' (new_location 100 r) (2 ^ 52) (-52))
    as [m [e [Hm [He [Hle Hres]]]]].
  - exact Hq.
  - split; [lia | reflexivity].
  - unfold K. subst e'. lia.
  - lia.
  - rewrite Hone. unfold scaled_value.
    replace (2 ^ K) with (2 ^ sh * 2 ^ (e' + K)).
    + apply Z.mul_le_mono_nonneg_r; [apply Z.lt_le_incl, pow2_pos; unfold K; subst e'; lia|].
      exact Hq_lo.
    + rewrite <- pow2_split by (unfold K; subst e'; lia). f_equal. subst sh. lia.
  - rewrite xorb_false_r in Hres. rewrite Hone in Hle.
    exists m, e. split; [exact Hm|]. split; [subst e' sh; lia|]. split; [exact Hle|].
    rewrite xorb_false_r. exact Hres.
Qed.

Lemma to_float_78 : Py.to_float MAX_VOLUME = Ok (S754_finite false M78 (-46)).
Proof. reflexivity. Qed.

(** [78.0 * x] for [|x| >= 1]: at least 78 in magnitude, or infinite. *)
Lemma mul_78_normal (s : bool) (m e : Z) :
  0 < m -> -53 <= e -> 2 ^ K <= scaled_value m e ->
  exists m2 e2,
    0 < m2 /\ - K <= e2
    /\ 78 * 2 ^ K <= scaled_value m2 e2
    /\ SFmul Py.prec Py.emax (S754_finite false M78 (-46)) (S754_finite s (Z.to_pos m) e)
       = if e2 <=? 971 then S754_finite s (Z.to_pos m2) e2 else S754_infinity s.
Proof.
  intros Hm He Hone. unfold SFmul. cbn [xorb].
  assert (H78 : scaled_value (Zpos M78) (-46) = 78 * 2 ^ K) by reflexivity.
  destruct (binary_round_aux_ge (if s then true else false)
              (Zpos (M78 * Z.to_pos m)) (-46 + e) loc_Exact (Zpos M78) (-46))
    as [m2 [e2 [Hm2 [He2 [Hle Hres]]]]].
  - lia.
  - split; [apply Z.leb_le | apply Z.ltb_lt]; reflexivity.
  - unfold K. lia.
  - lia.
  - rewrite H78. unfold scaled_value in *.
    rewrite Pos2Z.inj_mul, Z2Pos.id by exact Hm.
    replace (e + K) with (46 + (-46 + e + K)) in Hone by lia.
    rewrite pow2_split in Hone by (unfold K; lia).
    change (Zpos M78) with (78 * 2 ^ 46). nia.
  - rewrite H78 in Hle. exists m2, e2.
    split; [exact Hm2|]. split; [unfold K in *; lia|]. split; [exact Hle|].
    destruct s; exact Hres.
Qed.

(** The clamp and the truncation on a float that is at least 78. *)
Lemma clamp_at_least_78 (m e : Z) :
  0 < m -> - K <= e -> 78 * 2 ^ K <= scaled_value m e ->
  Py.int (Py.max (Py.Int 0)
            (Py.min (Py.Float (if e <=? 971 then S754_finite false (Z.to_pos m) e
                               else S754_infinity false))
                    (Py.Int MAX_VOLUME)))
  = Ok 78.
Proof.
  intros Hm He Hle. destruct (e <=? 971); [|reflexivity].
  unfold scaled_value in Hle.
  (* the value as a ratio [n / d], at least 78 *)
  destruct (Py.float_num_den (S754_finite false (Z.to_pos m) e)) as [n d] eqn:Hnd.
  assert (Hratio : 0 < d /\ 78 * d <= n
                   /\ (78 * d = n ->
                       Py.int (Py.Float (S754_finite false (Z.to_pos m) e)) = Ok 78)).
  { unfold Py.float_num_den in Hnd. unfold Py.int.
    rewrite Z2Pos.id in * by exact Hm.
    destruct (0 <=? e) eqn:Hsign; injection Hnd as <- <-.
    - apply Z.leb_le in Hsign.
      rewrite (Z.add_comm e K), pow2_split in Hle by (unfold K; lia).
      assert (H2K : 0 < 2 ^ K) by (apply pow2_pos; unfold K; lia).
      split; [lia|]. split; [nia|]. intros Heq. f_equal. lia.
    - apply Z.leb_gt in Hsign.
      assert (Hsplit : 2 ^ K = 2 ^ (- e) * 2 ^ (e + K)).
      { rewrite <- pow2_split by (unfold K in *; lia). f_equal. lia. }
      assert (H2e : 0 < 2 ^ (e + K)) by (apply pow2_pos; unfold K in *; lia).
      assert (H2n : 0 < 2 ^ (- e)) by (apply pow2_pos; lia).
      split; [lia|]. split; [rewrite Hsplit in Hle; nia|].
      intros Heq. f_equal. rewrite <- Heq. apply Z.div_mul. lia. }
  destruct Hratio as [Hd [H78 Hint]].
  unfold Py.min, Py.lt, Py.compare, Py.int_float_compare, MAX_VOLUME. rewrite Hnd.
  destruct (78 * d ?= n) eqn:Hcmp.
  - apply Z.compare_eq in Hcmp.
    unfold Py.max, Py.gt, Py.compare, Py.int_float_compare. rewrite Hnd.
    assert (Hpos : (0 * d ?= n) = Lt) by (apply Z.compare_lt_iff; lia).
    rewrite Hpos. cbn [option_map CompOpp]. exact (Hint Hcmp).
  - reflexivity.
  - apply Z.compare_gt_iff in Hcmp. lia.
Qed.

(** The clamp on a negative float. *)
Lemma clamp_negative (m e : Z) :
  0 < m ->
  Py.int (Py.max (Py.Int 0)
            (Py.min (Py.Float (if e <=? 971 then S754_finite true (Z.to_pos m) e
                               else S754_infinity true))
                    (Py.Int MAX_VOLUME)))
  = Ok 0.
Proof.
  intros Hm. destruct (e <=? 971); [|reflexivity].
  destruct (Py.float_num_den (S754_finite true (Z.to_pos m) e)) as [n d] eqn:Hnd.
  assert (Hratio : 0 < d /\ n < 0).
  { unfold Py.float_num_den in Hnd.
    destruct (0 <=? e) eqn:Hsign; injection Hnd as <- <-.
    - apply Z.leb_le in Hsign.
      assert (H2e : 0 < 2 ^ e) by (apply pow2_pos; lia).
      split; [lia|].
      exact (Z.mul_neg_pos (Z.neg (Z.to_pos m)) (2 ^ e) ltac:(lia) H2e).
    - apply Z.leb_gt in Hsign.
      assert (H2n : 0 < 2 ^ (- e)) by (apply pow2_pos; lia). split; lia. }
  destruct Hratio as [Hd Hn].
  unfold Py.min, Py.lt, Py.compare, Py.int_float_compare, MAX_VOLUME. rewrite Hnd.
  assert (H1 : (78 * d ?= n) = Gt) by (apply Z.compare_gt_iff; lia).
  rewrite H1.
  unfold Py.max, Py.gt, Py.compare, Py.int_float_compare. rewrite Hnd.
  assert (H2 : (0 * d ?= n) = Gt) by (apply Z.compare_gt_iff; lia).
  rewrite H2. reflexivity.
Qed.

Lemma int_truediv_100 (p : positive) (negative : bool) :
  Py.int_truediv (if negative then Zneg p else Zpos p) 100
  = let q := SFdiv Py.prec Py.emax (S754_finite negative p 0) (S754_finite false 100 0) in
    if Py.is_infinite q then Raise OverflowError else Ok q.
Proof. destruct negative; reflexivity. Qed.

(** Far out of range the frame carries 78, or 0 below zero. *)
Lemma native_volume_far (p : positive) (negative : bool) :
  100 <= Zpos p < 2 ^ 1000 ->
  native_volume (Py.Int (if negative then Zneg p else Zpos p))
  = Ok (if negative then 0 else 78).
Proof.
  intros [Hlo Hhi].
  assert (Hd : Zdigits2 (Zpos p) <= 1000) by (apply Zdigits2_le; lia).
  unfold native_volume, Py.truediv. rewrite int_truediv_100. cbv zeta.
  destruct (div_100_normal negative p Hlo) as [m [e [Hm [He [Hone Hdiv]]]]].
  rewrite Hdiv.
  replace (e <=? 971) with true by (symmetry; apply Z.leb_le; lia).
  cbn [Py.is_infinite rbind]. unfold Py.mul. rewrite to_float_78. cbn [rbind].
  destruct (mul_78_normal negative m e Hm ltac:(lia) Hone) as [m2 [e2 [Hm2 [He2 [H78 Hmul]]]]].
  rewrite Hmul. destruct negative.
  - apply clamp_negative, Hm2.
  - apply clamp_at_least_78; assumption.
Qed.

(** The native volume of every integer percentage that Python can
    divide by 100. *)
Lemma native_volume_int (pct : Z) :
  - 2 ^ 1000 < pct < 2 ^ 1000 ->
  native_volume (Py.Int pct) = Ok (truncated_native pct).
Proof.
  intros Hpct.
  destruct (Z_lt_le_dec (Z.abs pct) 100) as [Hnear|Hfar].
  - pose proof (forallb_Zrange _ _ _ native_volume_checked pct ltac:(lia)) as H.
    unfold native_is_truncated in H.
    destruct (native_volume (Py.Int pct)) as [native|]; [|discriminate H].
    apply Z.eqb_eq in H. now subst native.
  - destruct pct as [|p|p]; [cbn in Hfar; lia | |].
    + rewrite (native_volume_far p false) by (cbn in Hfar; lia).
      unfold truncated_native, clamp.
      replace (Z.max 0 (Z.min (Z.pos p) 100)) with 100 by (cbn in Hfar; lia).
      reflexivity.
    + rewrite (native_volume_far p true) by (cbn in Hfar; lia).
      unfold truncated_native, clamp.
      replace (Z.max 0 (Z.min (Z.neg p) 100)) with 0 by lia.
      reflexivity.
Qed.

(** C2, as the code has it.  The native volume in the frame is the scaled
    percentage cut down to an integer, [int(78 * (pct / 100))] clamped to
    0..78, which is [floor(78 * clamp(pct,0,100) / 100)]; this for every
    integer that is not so large that [pct / 100] overflows a float. *)
Theorem format_set_volume_truncates (zone pct : Z) :
  - 2 ^ 1000 < pct < 2 ^ 1000 ->
  _format_set_volume zone (Py.Int pct) = Ok (volume_frame zone (truncated_native pct)).
Proof.
  intros Hpct. rewrite format_set_volume_native, (native_volume_int pct Hpct).
  reflexivity.
Qed.

Lemma format_set_volume_truncates_witness :
  _format_set_volume 3 (Py.Int 99) = Ok ("*Z03VOL77" ++ EOL)
  /\ _format_set_volume 3 (Py.Int 250) = Ok ("*Z03VOL78" ++ EOL)
  /\ _format_set_volume 3 (Py.Int (-250)) = Ok ("*Z03VOL00" ++ EOL).
Proof.
  exact (conj (format_set_volume_truncates 3 99 (conj eq_refl eq_refl))
          (conj (format_set_volume_truncates 3 250 (conj eq_refl eq_refl))
                (format_set_volume_truncates 3 (-250) (conj eq_refl eq_refl)))).
Defined.

(** C2, as stated, fails: for zone 1 and 1 percent the frame carries
    native volume 00, while [round(0.78)] is 1. *)
Lemma format_set_volume_does_not_round :
  ~ forall zone pct : Z,
      1 <= zone <= 6 ->
      _format_set_volume zone (Py.Int pct) = Ok (volume_frame zone (rounded_native pct)).
Proof.
  intros H. specialize (H 1 1 ltac:(lia)). vm_compute in H. discriminate H.
Qed.

(** *** Round trip *)

Lemma digit_is_word (c : ascii) : Py.is_digit c = true -> Re.is_word c = true.
Proof.
  unfold Py.is_digit, Re.is_word, Re.between. intros ->. reflexivity.
Qed.

Lemma digit_not_letter (c l : ascii) :
  Py.is_digit c = true -> Py.is_digit l = false -> Ascii.eqb c l = false.
Proof.
  intros Hc Hl. destruct (Ascii.eqb c l) eqn:E; [|reflexivity].
  apply Ascii.eqb_eq in E. subst l. congruence.
Qed.

Lemma int_of_two_digits (t1 t2 : ascii) :
  Py.is_digit t1 = true -> Py.is_digit t2 = true ->
  Py.int_of_str (String t1 (String t2 EmptyString))
  = Ok (10 * Py.digit_value t1 + Py.digit_value t2).
Proof.
  intros H1 H2. unfold Py.int_of_str.
  assert (Hbody : (match String t1 (String t2 EmptyString) with
                   | String "-" rest => (true, rest)
                   | String "+" rest => (false, rest)
                   | _ => (false, String t1 (String t2 EmptyString))
                   end) = (false, String t1 (String t2 EmptyString))).
  { destruct t1 as [[] [] [] [] [] [] [] []]; try reflexivity; discriminate. }
  rewrite Hbody. cbn [Py.digits_value]. rewrite H1. cbn [Py.digits_value].
  rewrite H2. reflexivity.
Qed.

(** A power-on report with a two-digit volume token decodes to the
    rescaled native volume. *)
Lemma from_string_numeric
    (junk : string) (z s g t1 t2 : ascii) (rest : string) :
  no_hash junk = true ->
  Py.is_digit z = true -> Py.is_digit s = true -> Py.is_digit g = true ->
  Py.is_digit t1 = true -> Py.is_digit t2 = true ->
  Re.search ZONE_PATTERN_OFF rest = None ->
  from_string (junk ++ on_report z s g (String t1 (String t2 EmptyString)) ++ rest)
  = (volume <- decoded_volume (10 * Py.digit_value t1 + Py.digit_value t2) ;;
     Ok (Some (mkZoneStatus (Py.digit_value z) volume true false (Py.digit_value s))))%result.
Proof.
  intros Hjunk Hz Hs Hg Ht1 Ht2 Hrest.
  rewrite (from_string_on _ [String z EmptyString; String s EmptyString;
                             String g EmptyString; String t1 (String t2 EmptyString)]).
  - cbn [groups_get nth]. rewrite (int_of_digit z Hz), (int_of_digit s Hs).
    cbn [rbind String.eqb].
    rewrite (digit_not_letter t1 "M" Ht1 eq_refl), (digit_not_letter t1 "X" Ht1 eq_refl).
    cbn [orb]. rewrite (int_of_two_digits t1 t2 Ht1 Ht2). cbn [rbind].
    unfold decoded_volume.
    destruct (Py.truediv _ _) as [fraction|]; [|reflexivity]. cbn [rbind].
    destruct (Py.mul fraction _); reflexivity.
  - rewrite search_off_on_report by (assumption || apply digit_is_word; assumption).
    exact Hrest.
  - apply search_on_on_report; (assumption || apply digit_is_word; assumption).
Qed.

Lemma digit_char_spec (d : Z) :
  0 <= d <= 9 ->
  Py.str d = String (digit_char d) EmptyString
  /\ Py.is_digit (digit_char d) = true
  /\ Py.digit_value (digit_char d) = d.
Proof.
  intros Hd.
  assert (Hall : forallb (fun d =>
            String.eqb (Py.str d) (String (digit_char d) EmptyString)
            && Py.is_digit (digit_char d) && (Py.digit_value (digit_char d) =? d))
          (Zrange 0 10) = true) by (vm_compute; reflexivity).
  apply forallb_Zrange with (x := d) in Hall; [|lia].
  apply andb_true_iff in Hall as [Hall H3]. apply andb_true_iff in Hall as [H1 H2].
  apply String.eqb_eq in H1. apply Z.eqb_eq in H3. auto.
Qed.

Lemma format_02_two_digits (n : Z) :
  0 <= n <= 99 ->
  Py.format_02 n = String (digit_char (n / 10)) (String (digit_char (n mod 10)) EmptyString).
Proof.
  intros Hn.
  assert (Hall : forallb (fun n =>
            String.eqb (Py.format_02 n)
              (String (digit_char (n / 10)) (String (digit_char (n mod 10)) EmptyString)))
          (Zrange 0 100) = true) by (vm_compute; reflexivity).
  apply forallb_Zrange with (x := n) in Hall; [|lia].
  now apply String.eqb_eq in Hall.
Qed.

(** The report of a zone at a native volume, decoded. *)
Lemma from_string_status_reply (z s g native : Z) :
  0 <= z <= 9 -> 0 <= s <= 9 -> 0 <= g <= 9 -> 0 <= native <= 99 ->
  from_string (status_reply z s g native)
  = (volume <- decoded_volume native ;;
     Ok (Some (mkZoneStatus z volume true false s)))%result.
Proof.
  intros Hz Hs Hg Hn.
  destruct (digit_char_spec z Hz) as [Ez [Dz Vz]].
  destruct (digit_char_spec s Hs) as [Es [Ds Vs]].
  destruct (digit_char_spec g Hg) as [Eg [Dg Vg]].
  assert (Hhi : 0 <= native / 10 <= 9).
  { split; [apply Z.div_pos; lia|].
    assert (native / 10 < 10) by (apply Z.div_lt_upper_bound; lia). lia. }
  assert (Hlo : 0 <= native mod 10 <= 9) by (pose proof (Z.mod_pos_bound native 10); lia).
  destruct (digit_char_spec _ Hhi) as [_ [D1 V1]].
  destruct (digit_char_spec _ Hlo) as [_ [D2 V2]].
  pose proof (from_string_numeric EmptyString _ _ _ _ _ EOL
                eq_refl Dz Ds Dg D1 D2 eq_refl) as H.
  rewrite Vz, Vs, V1, V2 in H.
  replace (10 * (native / 10) + native mod 10) with native in H
    by (pose proof (Z.div_mod native 10); lia).
  rewrite <- H. f_equal.
  unfold status_reply. rewrite Ez, Es, Eg, (format_02_two_digits native Hn).
  reflexivity.
Qed.

Lemma round_trip_checked : forallb round_trip_ok (Zrange 0 101) = true.
Proof. vm_compute. reflexivity. Qed.

(** C3, as the code has it.  The volume command for [pct] carries the
    truncated native volume; the report of that native volume decodes to a
    percentage that is at most [pct] and less than one native step
    (100/78) below it. *)
Theorem volume_round_trip (z pct s g : Z) :
  1 <= z <= 6 -> 0 <= pct <= 100 -> 0 <= s <= 9 -> 0 <= g <= 9 ->
  let native := truncated_native pct in
  _format_set_volume z (Py.Int pct) = Ok (volume_frame z native)
  /\ exists recovered,
       from_string (status_reply z s g native)
       = Ok (Some (mkZoneStatus z recovered true false s))
       /\ (Py.to_Q recovered <= inject_Z pct)%Q
       /\ (inject_Z pct - Py.to_Q recovered < one_step)%Q.
Proof.
  intros Hz Hp Hs Hg native.
  assert (Hnative : 0 <= native <= 99).
  { subst native. unfold truncated_native, clamp.
    replace (Z.max 0 (Z.min pct 100)) with pct by lia.
    split; [apply Z.div_pos | apply Z.div_le_upper_bound]; lia. }
  pose proof (forallb_Zrange _ _ _ round_trip_checked pct ltac:(lia)) as H.
  unfold round_trip_ok in H. fold native in H.
  rewrite format_set_volume_native.
  rewrite (from_string_status_reply z s g native) by lia.
  destruct (native_volume (Py.Int pct)) as [n|]; [|discriminate H].
  destruct (decoded_volume native) as [recovered|]; [|discriminate H].
  apply andb_true_iff in H as [H Hstep]. apply andb_true_iff in H as [Hn Hle].
  apply Z.eqb_eq in Hn. subst n. split; [reflexivity|].
  exists recovered. split; [reflexivity|]. split.
  - now apply Qle_bool_iff.
  - apply negb_true_iff in Hstep.
    apply Qnot_le_lt. intros Hge. apply Qle_bool_iff in Hge. congruence.
Qed.

Lemma volume_round_trip_witness :
  _format_set_volume 2 (Py.Int 51) = Ok ("*Z02VOL39" ++ EOL)
  /\ exists recovered,
       from_string ("#Z02PWRON,SRC4,GRP1,VOL-39,POFF" ++ EOL)
       = Ok (Some (mkZoneStatus 2 recovered true false 4))
       /\ (Py.to_Q recovered <= 51)%Q
       /\ (51 - Py.to_Q recovered < one_step)%Q.
Proof.
  exact (volume_round_trip 2 51 4 1 ltac:(lia) ltac:(lia) ltac:(lia) ltac:(lia)).
Defined.

(** C3, as stated, fails in what it says of the encoder: for 2 percent
    the frame carries native volume 01, not [round(1.56)], which is 2. *)
Lemma volume_round_trip_does_not_round :
  ~ forall z pct s g : Z,
      1 <= z <= 6 -> 0 <= pct <= 100 -> 0 <= s <= 9 -> 0 <= g <= 9 ->
      let native := rounded_native pct in
      _format_set_volume z (Py.Int pct) = Ok (volume_frame z native)
      /\ exists recovered,
           from_string (status_reply z s g native)
           = Ok (Some (mkZoneStatus z recovered true false s))
           /\ (Qabs (Py.to_Q recovered - inject_Z pct) <= one_step)%Q.
Proof.
  intros H.
  destruct (H 1 2 1 1 ltac:(lia) ltac:(lia) ltac:(lia) ltac:(lia)) as [Hframe _].
  vm_compute in Hframe. discriminate Hframe.
Qed.

(** * Further properties

    Properties of the decoder, the encoders, the transports and the media
    player entity, read off the source. *)

(** ** What the decoder returns *)

Lemma match_classes_fits (ks : list Re.cclass) (s captured rest : string) :
  Re.match_classes ks s = Some (captured, rest) -> fits ks captured = true.
Proof.
  revert s captured rest. induction ks as [|k ks IH]; intros s captured rest H.
  - cbn in H. destruct s; injection H as <- _; reflexivity.
  - destruct s as [|c s]; [discriminate H|]. cbn [Re.match_classes] in H.
    destruct (Re.in_class k c) eqn:Hk; [|discriminate H].
    destruct (Re.match_classes ks s) as [[cap' rest']|] eqn:Hm; [|discriminate H].
    injection H as <- _. cbn [fits]. rewrite Hk. exact (IH _ _ _ Hm).
Qed.

Lemma match_here_fits (r : Re.regex) (s : string) (groups : list string) :
  Re.match_here r s = Some groups ->
  Forall2 (fun ks g => fits ks g = true) (group_classes r) groups.
Proof.
  revert s groups. induction r as [|[text|ks] r IH]; intros s groups H.
  - injection H as <-. constructor.
  - cbn [Re.match_here] in H. destruct (Re.match_lit text s); [|discriminate H].
    exact (IH _ _ H).
  - cbn [Re.match_here] in H.
    destruct (Re.match_classes ks s) as [[cap rest]|] eqn:Hm; [|discriminate H].
    destruct (Re.match_here r rest) as [gs|] eqn:Hr; [|discriminate H].
    injection H as <-. cbn [group_classes]. constructor.
    + exact (match_classes_fits _ _ _ _ Hm).
    + exact (IH _ _ Hr).
Qed.

Lemma search_fits (r : Re.regex) (s : string) (groups : list string) :
  Re.search r s = Some groups ->
  Forall2 (fun ks g => fits ks g = true) (group_classes r) groups.
Proof.
  induction s as [|c s IH]; cbn [Re.search];
    destruct (Re.match_here r _) eqn:Hm; intros H.
  - injection H as <-. exact (match_here_fits _ _ _ Hm).
  - discriminate H.
  - injection H as <-. exact (match_here_fits _ _ _ Hm).
  - exact (IH H).
Qed.

Lemma fits_one (k : Re.cclass) (g : string) :
  fits [k] g = true -> exists c, g = String c EmptyString /\ Re.in_class k c = true.
Proof.
  destruct g as [|c [|d g]]; cbn; try discriminate.
  - intros H. exists c. rewrite andb_true_r in H. auto.
  - intros H. apply andb_true_iff in H as [_ H]. discriminate H.
Qed.

Lemma fits_two (k1 k2 : Re.cclass) (g : string) :
  fits [k1; k2] g = true ->
  exists c1 c2, g = String c1 (String c2 EmptyString)
                /\ Re.in_class k1 c1 = true /\ Re.in_class k2 c2 = true.
Proof.
  destruct g as [|c1 [|c2 [|d g]]]; cbn; try discriminate.
  - intros H. apply andb_true_iff in H as [_ H]. discriminate H.
  - intros H. apply andb_true_iff in H as [H1 H2]. rewrite andb_true_r in H2.
    exists c1, c2. auto.
  - intros H. apply andb_true_iff in H as [_ H]. apply andb_true_iff in H as [_ H].
    discriminate H.
Qed.

(** The groups of a power-off match: one digit. *)
Lemma search_off_groups (s : string) (groups : list string) :
  Re.search ZONE_PATTERN_OFF s = Some groups ->
  exists z, groups = [String z EmptyString] /\ Py.is_digit z = true.
Proof.
  intros H. apply search_fits in H. cbn [group_classes ZONE_PATTERN_OFF] in H.
  inversion H as [|ks g ? ? Hz Hrest]; subst. inversion Hrest; subst.
  apply fits_one in Hz as [z [-> Hz]]. exists z. auto.
Qed.

(** The groups of a power-on match: zone, source and group digits and a
    token of two word characters. *)
Lemma search_on_groups (s : string) (groups : list string) :
  Re.search ZONE_PATTERN_ON s = Some groups ->
  exists z sc g t1 t2,
    groups = [String z EmptyString; String sc EmptyString; String g EmptyString;
              String t1 (String t2 EmptyString)]
    /\ Py.is_digit z = true /\ Py.is_digit sc = true /\ Py.is_digit g = true
    /\ Re.is_word t1 = true /\ Re.is_word t2 = true.
Proof.
  intros H. apply search_fits in H. cbn [group_classes ZONE_PATTERN_ON] in H.
  inversion H as [|? ? ? ? Hz H1]; subst.
  inversion H1 as [|? ? ? ? Hs H2]; subst.
  inversion H2 as [|? ? ? ? Hg H3]; subst.
  inversion H3 as [|? ? ? ? Ht H4]; subst. inversion H4; subst.
  apply fits_one in Hz as [z [-> Hz]]. apply fits_one in Hs as [sc [-> Hs]].
  apply fits_one in Hg as [g [-> Hg]]. apply fits_two in Ht as [t1 [t2 [-> [Ht1 Ht2]]]].
  exists z, sc, g, t1, t2. auto 10.
Qed.

Lemma digit_value_range (c : ascii) : Py.is_digit c = true -> 0 <= Py.digit_value c <= 9.
Proof.
  unfold Py.is_digit, Py.digit_value. intros H.
  apply andb_true_iff in H as [H1 H2]. apply N.leb_le in H1, H2. lia.
Qed.

(** Rescaling a two-digit native volume raises nothing. *)
Lemma decoded_volume_total (native : Z) :
  0 <= native <= 99 -> exists v, decoded_volume native = Ok (Py.Float v).
Proof.
  intros Hn.
  assert (Hall : forallb (fun n => match decoded_volume n with
                                   | Ok (Py.Float _) => true
                                   | _ => false
                                   end) (Zrange 0 100) = true) by (vm_compute; reflexivity).
  apply forallb_Zrange with (x := native) in Hall; [|lia].
  destruct (decoded_volume native) as [[|v]|]; try discriminate Hall. now exists v.
Qed.

Lemma from_string_unmatched (s : string) :
  Re.search ZONE_PATTERN_OFF s = None ->
  Re.search ZONE_PATTERN_ON s = None ->
  from_string s = Ok None.
Proof.
  intros Hoff Hon. destruct s as [|c s]; [reflexivity|].
  unfold from_string. now rewrite Hoff, Hon.
Qed.

(** The decoded token of a power-on match. *)
Lemma from_string_on_token (s : string) (z sc g t1 t2 : ascii) :
  Re.search ZONE_PATTERN_OFF s = None ->
  Re.search ZONE_PATTERN_ON s
  = Some [String z EmptyString; String sc EmptyString; String g EmptyString;
          String t1 (String t2 EmptyString)] ->
  Py.is_digit z = true -> Py.is_digit sc = true -> Re.is_word t1 = true ->
  from_string s =
  if (String.eqb (String t1 (String t2 EmptyString)) "MT"
      || String.eqb (String t1 (String t2 EmptyString)) "XM")%bool
  then Ok (Some (mkZoneStatus (Py.digit_value z) (Py.Int 0) true true (Py.digit_value sc)))
  else if (Py.is_digit t1 && Py.is_digit t2)%bool
       then (volume <- decoded_volume (10 * Py.digit_value t1 + Py.digit_value t2) ;;
             Ok (Some (mkZoneStatus (Py.digit_value z) volume true false
                         (Py.digit_value sc))))%result
       else Raise ValueError.
Proof.
  intros Hoff Hon Hz Hs Ht1.
  rewrite (from_string_on _ _ Hoff Hon). cbn [groups_get nth].
  rewrite (int_of_digit z Hz), (int_of_digit sc Hs). cbn [rbind].
  destruct (String.eqb _ "MT" || String.eqb _ "XM")%bool; [reflexivity|].
  destruct (Py.is_digit t1 && Py.is_digit t2)%bool eqn:Hd.
  - apply andb_true_iff in Hd as [Hd1 Hd2].
    rewrite (int_of_two_digits t1 t2 Hd1 Hd2). cbn [rbind]. unfold decoded_volume.
    destruct (Py.truediv _ _) as [fraction|]; [|reflexivity]. cbn [rbind].
    destruct (Py.mul fraction _); reflexivity.
  - rewrite (int_of_token_invalid t1 t2 Ht1 Hd). reflexivity.
Qed.

(** X1.  Whatever text [ZoneStatus.from_string] decodes, the status it
    returns has a zone in 0..9 and one of three shapes: powered off
    (not muted, volume the integer 0, source 1); powered on and muted
    (volume the integer 0, source in 0..9); or powered on, not muted,
    with the float [native / 78 * 100] of a two-digit native volume. *)
Theorem from_string_status_shape (s : string) (status : ZoneStatus) :
  from_string s = Ok (Some status) ->
  0 <= zone status <= 9
  /\ ((power status = false /\ mute status = false
       /\ volume status = Py.Int 0 /\ source status = 1)
      \/ (power status = true /\ 0 <= source status <= 9
          /\ ((mute status = true /\ volume status = Py.Int 0)
              \/ (mute status = false
                  /\ exists native v,
                       0 <= native <= 99
                       /\ decoded_volume native = Ok (Py.Float v)
                       /\ volume status = Py.Float v)))).
Proof.
  intros H.
  destruct (Re.search ZONE_PATTERN_OFF s) as [groups|] eqn:Hoff.
  - destruct (search_off_groups _ _ Hoff) as [z [-> Hz]].
    rewrite (from_string_off _ _ Hoff) in H. cbn [groups_get nth] in H.
    rewrite (int_of_digit z Hz) in H. cbn [rbind] in H. injection H as <-.
    cbn [zone power mute volume source]. split; [apply digit_value_range, Hz|].
    left. auto.
  - destruct (Re.search ZONE_PATTERN_ON s) as [groups|] eqn:Hon.
    2:{ rewrite (from_string_unmatched _ Hoff Hon) in H. discriminate H. }
    destruct (search_on_groups _ _ Hon) as [z [sc [g [t1 [t2 [-> [Hz [Hs [Hg [Ht1 Ht2]]]]]]]]]].
    rewrite (from_string_on_token s z sc g t1 t2 Hoff Hon Hz Hs Ht1) in H.
    destruct (String.eqb _ "MT" || String.eqb _ "XM")%bool.
    + injection H as <-. cbn [zone power mute volume source].
      split; [apply digit_value_range, Hz|]. right.
      split; [reflexivity|]. split; [apply digit_value_range, Hs|]. left. auto.
    + destruct (Py.is_digit t1 && Py.is_digit t2)%bool eqn:Hd; [|discriminate H].
      apply andb_true_iff in Hd as [Hd1 Hd2].
      pose proof (digit_value_range t1 Hd1). pose proof (digit_value_range t2 Hd2).
      destruct (decoded_volume_total (10 * Py.digit_value t1 + Py.digit_value t2)
                  ltac:(lia)) as [v Hv].
      rewrite Hv in H. cbn [rbind] in H. injection H as <-.
      cbn [zone power mute volume source].
      split; [apply digit_value_range, Hz|]. right.
      split; [reflexivity|]. split; [apply digit_value_range, Hs|]. right.
      split; [reflexivity|]. exists (10 * Py.digit_value t1 + Py.digit_value t2), v.
      split; [lia|]. auto.
Qed.

Lemma from_string_status_shape_witness :
  let status := mkZoneStatus 3 (Py.Int 0) true true 4 in
  from_string ("#Z03PWRON,SRC4,GRP1,VOL-MT,POFF" ++ EOL) = Ok (Some status)
  /\ 0 <= zone status <= 9
  /\ ((power status = false /\ mute status = false
       /\ volume status = Py.Int 0 /\ source status = 1)
      \/ (power status = true /\ 0 <= source status <= 9
          /\ ((mute status = true /\ volume status = Py.Int 0)
              \/ (mute status = false
                  /\ exists native v,
                       0 <= native <= 99
                       /\ decoded_volume native = Ok (Py.Float v)
                       /\ volume status = Py.Float v)))).
Proof.
  split; [reflexivity|].
  exact (from_string_status_shape ("#Z03PWRON,SRC4,GRP1,VOL-MT,POFF" ++ EOL)
           (mkZoneStatus 3 (Py.Int 0) true true 4) eq_refl).
Defined.

(** X2.  [ZoneStatus.from_string] raises nothing but [ValueError], and
    only on a text without a power-off report whose first power-on report
    has a volume token that is neither two digits nor [MT] nor [XM]. *)
Theorem from_string_raises_only_value_error (s : string) (e : exn) :
  from_string s = Raise e ->
  e = ValueError
  /\ Re.search ZONE_PATTERN_OFF s = None
  /\ exists z sc g t1 t2,
       Re.search ZONE_PATTERN_ON s
       = Some [String z EmptyString; String sc EmptyString; String g EmptyString;
               String t1 (String t2 EmptyString)]
       /\ (Py.is_digit t1 && Py.is_digit t2)%bool = false
       /\ String t1 (String t2 EmptyString) <> "MT"
       /\ String t1 (String t2 EmptyString) <> "XM".
Proof.
  intros H.
  destruct (Re.search ZONE_PATTERN_OFF s) as [groups|] eqn:Hoff.
  - destruct (search_off_groups _ _ Hoff) as [z [-> Hz]].
    rewrite (from_string_off _ _ Hoff) in H. cbn [groups_get nth] in H.
    rewrite (int_of_digit z Hz) in H. discriminate H.
  - destruct (Re.search ZONE_PATTERN_ON s) as [groups|] eqn:Hon.
    2:{ rewrite (from_string_unmatched _ Hoff Hon) in H. discriminate H. }
    destruct (search_on_groups _ _ Hon) as [z [sc [g [t1 [t2 [-> [Hz [Hs [Hg [Ht1 Ht2]]]]]]]]]].
    rewrite (from_string_on_token s z sc g t1 t2 Hoff Hon Hz Hs Ht1) in H.
    destruct (String.eqb _ "MT") eqn:Hmt; [discriminate H|].
    destruct (String.eqb _ "XM") eqn:Hxm; [discriminate H|].
    cbn [orb] in H.
    destruct (Py.is_digit t1 && Py.is_digit t2)%bool eqn:Hd.
    + apply andb_true_iff in Hd as [Hd1 Hd2].
      pose proof (digit_value_range t1 Hd1). pose proof (digit_value_range t2 Hd2).
      destruct (decoded_volume_total (10 * Py.digit_value t1 + Py.digit_value t2)
                  ltac:(lia)) as [v Hv].
      rewrite Hv in H. discriminate H.
    + injection H as <-. split; [reflexivity|]. split; [reflexivity|].
      exists z, sc, g, t1, t2. split; [reflexivity|]. split; [exact Hd|].
      split; apply String.eqb_neq; assumption.
Qed.

Lemma from_string_raises_only_value_error_witness :
  let s := "#Z01PWRON,SRC1,GRP1,VOL-AB,POFF" ++ EOL in
  from_string s = Raise ValueError
  /\ ValueError = ValueError
  /\ Re.search ZONE_PATTERN_OFF s = None
  /\ exists z sc g t1 t2,
       Re.search ZONE_PATTERN_ON s
       = Some [String z EmptyString; String sc EmptyString; String g EmptyString;
               String t1 (String t2 EmptyString)]
       /\ (Py.is_digit t1 && Py.is_digit t2)%bool = false
       /\ String t1 (String t2 EmptyString) <> "MT"
       /\ String t1 (String t2 EmptyString) <> "XM".
Proof.
  split; [reflexivity|].
  exact (from_string_raises_only_value_error
           ("#Z01PWRON,SRC1,GRP1,VOL-AB,POFF" ++ EOL) ValueError eq_refl).
Defined.

(** X3.  The power-off pattern is tried first: a text that holds a
    power-on report and, later, a power-off report decodes as the
    power-off report, whatever the zone and the volume token of the
    power-on report. *)
Theorem from_string_off_report_wins
    (junk : string) (z sc g t1 t2 : ascii) (between : string) (z' : ascii) (rest : string) :
  no_hash junk = true ->
  Py.is_digit z = true -> Py.is_digit sc = true -> Py.is_digit g = true ->
  Re.is_word t1 = true -> Re.is_word t2 = true ->
  no_hash between = true -> Py.is_digit z' = true ->
  from_string (junk ++ on_report z sc g (String t1 (String t2 EmptyString))
               ++ between ++ off_report z' ++ rest)
  = Ok (Some (mkZoneStatus (Py.digit_value z') (Py.Int 0) false false 1)).
Proof.
  intros Hjunk Hz Hs Hg Ht1 Ht2 Hbetween Hz'.
  rewrite (from_string_off _ [String z' EmptyString]).
  - cbn [groups_get nth]. rewrite (int_of_digit z' Hz'). reflexivity.
  - rewrite search_off_on_report by assumption.
    apply search_off_report; assumption.
Qed.

Lemma from_string_off_report_wins_witness :
  from_string ("#Z01PWRON,SRC2,GRP1,VOL-39,POFF" ++ EOL ++ "#Z04PWROFF" ++ EOL)
  = Ok (Some (mkZoneStatus 4 (Py.Int 0) false false 1)).
Proof.
  exact (from_string_off_report_wins EmptyString "1" "2" "1" "3" "9" EOL "4" EOL
           eq_refl eq_refl eq_refl eq_refl eq_refl eq_refl eq_refl eq_refl).
Defined.

Lemma decoded_volume_checked : forallb decoded_volume_ok (Zrange 0 100) = true.
Proof. vm_compute. reflexivity. Qed.

(** X4.  A power-on report with a two-digit volume token, in a text
    without a power-off report, decodes to a powered-on, unmuted status
    whose volume is a float that is never negative, is at most 100
    exactly when the token is at most 78, and differs from
    [100 * native / 78] by less than [2^-45]. *)
Theorem from_string_numeric_volume
    (junk : string) (z sc g t1 t2 : ascii) (rest : string) :
  no_hash junk = true ->
  Py.is_digit z = true -> Py.is_digit sc = true -> Py.is_digit g = true ->
  Py.is_digit t1 = true -> Py.is_digit t2 = true ->
  Re.search ZONE_PATTERN_OFF rest = None ->
  let native := 10 * Py.digit_value t1 + Py.digit_value t2 in
  exists v,
    from_string (junk ++ on_report z sc g (String t1 (String t2 EmptyString)) ++ rest)
    = Ok (Some (mkZoneStatus (Py.digit_value z) (Py.Float v) true false (Py.digit_value sc)))
    /\ (0 <= Py.to_Q (Py.Float v))%Q
    /\ ((Py.to_Q (Py.Float v) <= 100)%Q <-> native <= 78)
    /\ (Qabs (Py.to_Q (Py.Float v) - (100 * native # 78)) < 1 # 2 ^ 45)%Q.
Proof.
  intros Hjunk Hz Hs Hg Ht1 Ht2 Hrest native.
  pose proof (digit_value_range t1 Ht1). pose proof (digit_value_range t2 Ht2).
  pose proof (forallb_Zrange _ _ _ decoded_volume_checked native ltac:(subst native; lia))
    as Hok.
  unfold decoded_volume_ok in Hok.
  rewrite (from_string_numeric junk z sc g t1 t2 rest) by assumption. fold native.
  destruct (decoded_volume native) as [[|v]|]; try discriminate Hok.
  cbv zeta in Hok.
  apply andb_true_iff in Hok as [Hok Herr]. apply andb_true_iff in Hok as [Hpos Hle].
  exists v. split; [reflexivity|]. split; [now apply Qle_bool_iff|]. split.
  - apply Bool.eqb_prop in Hle. rewrite <- Z.leb_le, <- Hle. symmetry. apply Qle_bool_iff.
  - apply negb_true_iff in Herr. apply Qnot_le_lt. intros Hge.
    apply Qle_bool_iff in Hge. congruence.
Qed.

Lemma from_string_numeric_volume_witness :
  exists v,
    from_string ("#Z01PWRON,SRC2,GRP1,VOL-39,POFF" ++ EOL)
    = Ok (Some (mkZoneStatus 1 (Py.Float v) true false 2))
    /\ (0 <= Py.to_Q (Py.Float v))%Q
    /\ ((Py.to_Q (Py.Float v) <= 100)%Q <-> 39 <= 78)
    /\ (Qabs (Py.to_Q (Py.Float v) - (100 * 39 # 78)) < 1 # 2 ^ 45)%Q.
Proof.
  exact (from_string_numeric_volume EmptyString "1" "2" "1" "3" "9" EOL
           eq_refl eq_refl eq_refl eq_refl eq_refl eq_refl eq_refl).
Defined.

(** ** Frames *)

Lemma all_numeric_app (a b : string) :
  all_numeric (a ++ b) = all_numeric a && all_numeric b.
Proof.
  induction a as [|c a IH]; cbn [append all_numeric]; [reflexivity|].
  now rewrite IH, andb_assoc.
Qed.

Lemma string_of_uint_numeric (d : Decimal.uint) : all_numeric (NilEmpty.string_of_uint d) = true.
Proof. induction d; cbn [NilEmpty.string_of_uint all_numeric]; auto. Qed.

(** [str(z)] is a sign and digits. *)
Lemma str_numeric (z : Z) : all_numeric (Py.str z) = true.
Proof.
  unfold Py.str, NilZero.string_of_int, NilZero.string_of_uint.
  destruct (Z.to_int z) as [d|d]; destruct d; try reflexivity;
    apply (string_of_uint_numeric (_ _)) || (cbn [all_numeric]; apply (string_of_uint_numeric (_ _))).
Qed.

Lemma repeat_zero_numeric (n : nat) : all_numeric (Py.repeat_char "0" n) = true.
Proof. induction n; cbn [Py.repeat_char all_numeric]; auto. Qed.

Lemma format_02_numeric (z : Z) : all_numeric (Py.format_02 z) = true.
Proof.
  unfold Py.format_02. rewrite !all_numeric_app, repeat_zero_numeric, str_numeric.
  destruct (z <? 0); reflexivity.
Qed.

Lemma numeric_free (a : ascii) (s : string) :
  is_numeric a = false -> all_numeric s = true -> free a s = true.
Proof.
  intros Ha. induction s as [|c s IH]; cbn [all_numeric free]; [reflexivity|].
  intros H. apply andb_true_iff in H as [Hc Hs]. rewrite (IH Hs), andb_true_r.
  destruct (Ascii.eqb a c) eqn:E; [|reflexivity].
  apply Ascii.eqb_eq in E. subst c. congruence.
Qed.

Lemma free_app (a : ascii) (x y : string) : free a (x ++ y) = free a x && free a y.
Proof.
  induction x as [|c x IH]; cbn [append free]; [reflexivity|].
  now rewrite IH, andb_assoc.
Qed.

Lemma single_line_intro (head : string) (zone : Z) (tail : string) :
  free CR head = true -> free CR tail = true ->
  single_line (head ++ Py.str zone ++ tail ++ EOL).
Proof.
  intros Hh Ht. exists (head ++ Py.str zone ++ tail). split.
  - now rewrite !append_assoc.
  - rewrite !free_app, Hh, Ht, (numeric_free CR (Py.str zone) eq_refl (str_numeric zone)).
    reflexivity.
Qed.

(** X5.  Every frame the encoders build, for any zone number and any
    argument, is one line: a body without a carriage return followed by
    the terminator.  (The volume encoder can raise; the frames it returns
    are meant.) *)
Theorem frames_are_single_lines (zone : Z) :
  single_line (_format_zone_status_request zone)
  /\ (forall power, single_line (_format_set_power zone power))
  /\ (forall mute, single_line (_format_set_mute zone mute))
  /\ (forall source, single_line (_format_set_source zone source))
  /\ (forall volume,
        match _format_set_volume zone volume with
        | Ok frame => single_line frame
        | Raise _ => True
        end).
Proof.
  split; [|split; [|split; [|split]]].
  - apply (single_line_intro "*Z0" zone "CONSR"); reflexivity.
  - intros power. unfold _format_set_power.
    apply (single_line_intro "*Z0" zone); [reflexivity | destruct power; reflexivity].
  - intros mute. unfold _format_set_mute.
    apply (single_line_intro "*Z0" zone); [reflexivity | destruct mute; reflexivity].
  - intros source. unfold _format_set_source.
    apply (single_line_intro "*Z0" zone ("SRC" ++ _)); [reflexivity|].
    rewrite free_app. apply andb_true_iff. split; [reflexivity|].
    apply numeric_free; [reflexivity | apply str_numeric].
  - intros volume. rewrite format_set_volume_native.
    destruct (native_volume volume) as [native|]; [|exact I].
    unfold volume_frame.
    apply (single_line_intro "*Z0" zone ("VOL" ++ _)); [reflexivity|].
    rewrite free_app. apply andb_true_iff. split; [reflexivity|].
    apply numeric_free; [reflexivity | apply format_02_numeric].
Qed.

(** X6.  [_format_set_source] clamps the source to 0..6 for every
    integer: the frame carries the one digit of the clamped source, and a
    source out of range gives the frame of the nearest bound. *)
Theorem format_set_source_clamps (zone source : Z) :
  _format_set_source zone source
  = "*Z0" ++ Py.str zone ++ "SRC" ++ String (digit_char (clamp 0 6 source)) EOL
  /\ 0 <= clamp 0 6 source <= 6
  /\ _format_set_source zone source = _format_set_source zone (clamp 0 6 source).
Proof.
  unfold _format_set_source, clamp.
  assert (Hc : 0 <= Z.max 0 (Z.min source 6) <= 9) by lia.
  split; [|split; [lia|]].
  - destruct (digit_char_spec _ Hc) as [-> _]. reflexivity.
  - replace (Z.max 0 (Z.min (Z.max 0 (Z.min source 6)) 6))
      with (Z.max 0 (Z.min source 6)) by lia.
    reflexivity.
Qed.

(** ** The blocking transport *)

(** One more byte that is no terminator. *)
Lemma not_terminated_snoc (skip : nat) (result : string) (c : ascii) (line : string) :
  no_cr_after (skip - String.length result) (String c line) = true ->
  terminated skip (result ++ String c EmptyString) = false
  /\ no_cr_after (skip - String.length (result ++ String c EmptyString)) line = true.
Proof.
  intros H.
  assert (Hlen : String.length (result ++ String c EmptyString)
                 = S (String.length result)).
  { rewrite length_append. cbn [String.length]. lia. }
  unfold terminated. rewrite last_bytes_snoc, Hlen. cbn [no_cr_after] in H.
  destruct (skip - String.length result)%nat as [|k] eqn:Hk.
  - apply andb_true_iff in H as [Hc H]. apply negb_true_iff in Hc. split.
    + unfold EOL. cbn [String.eqb]. rewrite Hc. apply andb_false_r.
    + replace (skip - S (String.length result))%nat with O by lia. exact H.
  - split.
    + replace (skip <? S (String.length result))%nat with false; [reflexivity|].
      symmetry. apply Nat.ltb_ge. lia.
    + replace (skip - S (String.length result))%nat with k by lia. exact H.
Qed.

Lemma read_loop_completes (skip : nat) (body extra result : string) :
  no_cr_after (skip - String.length result) body = true ->
  (skip <= String.length result + String.length body)%nat ->
  BreatheAudioSync.read_loop skip result (body ++ EOL ++ extra)
  = Complete (result ++ body ++ EOL).
Proof.
  revert result. induction body as [|c body IH]; intros result Hcr Hlen.
  - cbn [append EOL BreatheAudioSync.read_loop]. unfold EOL.
    cbn [append BreatheAudioSync.read_loop].
    assert (Hterm : terminated skip (result ++ String CR EmptyString) = true).
    { unfold terminated. rewrite last_bytes_snoc, length_append.
      cbn [String.length] in *. apply andb_true_iff. split.
      - apply Nat.ltb_lt. lia.
      - reflexivity. }
    rewrite Hterm. reflexivity.
  - cbn [append BreatheAudioSync.read_loop].
    destruct (not_terminated_snoc skip result c body Hcr) as [Hnot Hrest].
    rewrite Hnot, (IH _ Hrest).
    + now rewrite append_assoc.
    + rewrite length_append. cbn [String.length] in *. lia.
Qed.

(** What a completed read is: a prefix of the line, terminated, none of
    its shorter prefixes being terminated. *)
Lemma read_loop_complete_inv (skip : nat) (line result reply : string) :
  BreatheAudioSync.read_loop skip result line = Complete reply ->
  terminated skip reply = true
  /\ exists taken extra,
       line = taken ++ extra /\ reply = result ++ taken
       /\ forall p q, taken = p ++ q -> p <> EmptyString -> q <> EmptyString ->
                      terminated skip (result ++ p) = false.
Proof.
  revert result. induction line as [|c line IH]; intros result H; [discriminate H|].
  cbn [BreatheAudioSync.read_loop] in H.
  destruct (terminated skip (result ++ String c EmptyString)) eqn:Hterm.
  - injection H as <-. split; [exact Hterm|].
    exists (String c EmptyString), line. split; [reflexivity|]. split; [reflexivity|].
    intros [|a [|b p]] q Hpq Hp Hq; try contradiction; cbn in Hpq.
    + injection Hpq as _ Hq'. symmetry in Hq'. contradiction.
    + discriminate Hpq.
  - destruct (IH _ H) as [Hreply [taken [extra [Hline [Hr Hmin]]]]].
    split; [exact Hreply|].
    exists (String c taken), extra. split; [now rewrite Hline|].
    split; [now rewrite Hr, append_assoc|].
    intros [|a p] q Hpq Hp Hq; [contradiction|].
    cbn [append] in Hpq. injection Hpq as <- Htaken.
    destruct p as [|b p].
    + exact Hterm.
    + replace (result ++ String c (String b p))
        with ((result ++ String c EmptyString) ++ String b p)
        by now rewrite append_assoc.
      apply (Hmin _ q Htaken); [discriminate | exact Hq].
Qed.


Lemma all_ascii_app (a b : string) : all_ascii (a ++ b) = all_ascii a && all_ascii b.
Proof.
  induction a as [|c a IH]; cbn [append all_ascii]; [reflexivity|].
  now rewrite IH, andb_assoc.
Qed.



(** X8.  Whatever [_process_request] returns is ASCII, ends with the
    terminator beyond the first [skip] bytes, is a prefix of the bytes
    that arrived, and is the shortest such prefix: no proper non-empty
    prefix of it is terminated. *)
Theorem process_request_reply_is_a_terminated_prefix
    (request : string) (skip : nat) (port : BreatheAudioSync.Port) (reply : string) :
  fst (BreatheAudioSync._process_request request skip port) = Ok reply ->
  terminated skip reply = true
  /\ all_ascii reply = true
  /\ (exists extra, hd EmptyString (BreatheAudioSync.incoming port) = reply ++ extra)
  /\ (forall p q, reply = p ++ q -> p <> EmptyString -> q <> EmptyString ->
                  terminated skip p = false).
Proof.
  unfold BreatheAudioSync._process_request.
  destruct (BreatheAudioSync.read_loop skip EmptyString _) as [r|r] eqn:Hloop;
    cbn [fst]; [|discriminate].
  unfold decode_ascii. destruct (all_ascii r) eqn:Hascii; [|discriminate].
  intros H. injection H as <-.
  destruct (read_loop_complete_inv _ _ _ _ Hloop) as [Hterm [taken [extra [Hline [Hr Hmin]]]]].
  cbn [append] in Hr. subst taken.
  split; [exact Hterm|]. split; [exact Hascii|]. split; [now exists extra|].
  intros p q Hpq Hp Hq. exact (Hmin p q Hpq Hp Hq).
Qed.

Lemma process_request_reply_is_a_terminated_prefix_witness :
  let port := BreatheAudioSync.mkPort [] ["#Z01PWROFF" ++ EOL ++ "#Z02PWROFF" ++ EOL] in
  let reply := "#Z01PWROFF" ++ EOL in
  fst (BreatheAudioSync._process_request ("*Z01CONSR" ++ EOL) 0 port) = Ok reply
  /\ terminated 0 reply = true
  /\ all_ascii reply = true
  /\ (exists extra, hd EmptyString (BreatheAudioSync.incoming port) = reply ++ extra)
  /\ (forall p q, reply = p ++ q -> p <> EmptyString -> q <> EmptyString ->
                  terminated 0 p = false).
Proof.
  split; [reflexivity|].
  exact (process_request_reply_is_a_terminated_prefix ("*Z01CONSR" ++ EOL) 0
           (BreatheAudioSync.mkPort [] ["#Z01PWROFF" ++ EOL ++ "#Z02PWROFF" ++ EOL])
           ("#Z01PWROFF" ++ EOL) eq_refl).
Defined.



(** ** The event-driven transport *)

Lemma read_loop_bytewise (skip : nat) (line result : string) :
  BreatheAudioSync.read_loop skip result line
  = BreatheAudioProtocol.receive_loop skip result (bytewise line).
Proof.
  revert result. induction line as [|c line IH]; intros result; [reflexivity|].
  cbn [BreatheAudioSync.read_loop bytewise list_ascii_of_string map
       BreatheAudioProtocol.receive_loop].
  destruct (terminated skip _); [reflexivity|]. apply IH.
Qed.

(** X10.  When the bytes arrive one at a time, the event-driven
    [send] gives what the blocking [_process_request] gives on the same
    bytes, for every request, skip and line: the same reply, the same
    [UnicodeDecodeError], and asyncio's [TimeoutError] where the blocking
    transport raises its timeout. *)
Theorem send_bytewise_agrees_with_process_request
    (request : string) (skip : nat) (line : string)
    (port : BreatheAudioSync.Port) (protocol : BreatheAudioProtocol.Protocol) :
  hd EmptyString (BreatheAudioSync.incoming port) = line ->
  hd [] (BreatheAudioProtocol.incoming protocol) = bytewise line ->
  fst (BreatheAudioProtocol.send request skip protocol)
  = as_async (fst (BreatheAudioSync._process_request request skip port)).
Proof.
  intros Hport Hprotocol.
  unfold BreatheAudioProtocol.send, BreatheAudioSync._process_request.
  rewrite Hport, Hprotocol, read_loop_bytewise.
  destruct (BreatheAudioProtocol.receive_loop skip EmptyString (bytewise line)) as [r|r];
    cbn [fst as_async]; [|reflexivity].
  unfold decode_ascii. destruct (all_ascii r); reflexivity.
Qed.

Lemma send_bytewise_agrees_with_process_request_witness :
  let line := "#Z01PWROFF" ++ EOL in
  fst (BreatheAudioProtocol.send ("*Z01CONSR" ++ EOL) 0
         (BreatheAudioProtocol.mkProtocol [] [bytewise line] []))
  = as_async
      (fst (BreatheAudioSync._process_request ("*Z01CONSR" ++ EOL) 0
              (BreatheAudioSync.mkPort [] [line]))).
Proof.
  exact (send_bytewise_agrees_with_process_request ("*Z01CONSR" ++ EOL) 0
           ("#Z01PWROFF" ++ EOL)
           (BreatheAudioSync.mkPort [] ["#Z01PWROFF" ++ EOL])
           (BreatheAudioProtocol.mkProtocol [] [bytewise ("#Z01PWROFF" ++ EOL)] [])
           eq_refl eq_refl).
Defined.

Lemma substring_skip (a b : string) (n m : nat) :
  substring (String.length a + n) m (a ++ b) = substring n m b.
Proof.
  induction a as [|x a IH]; [reflexivity|].
  cbn [append String.length Nat.add substring]. exact IH.
Qed.

Lemma last_bytes_append (a b : string) :
  b <> EmptyString -> last_bytes 1 (a ++ b) = last_bytes 1 b.
Proof.
  intros Hb. unfold last_bytes. rewrite length_append.
  destruct b as [|c b]; [contradiction|].
  replace (String.length a + String.length (String c b) - 1)%nat
    with (String.length a + (String.length (String c b) - 1))%nat
    by (cbn [String.length]; lia).
  apply substring_skip.
Qed.

Lemma accumulated_unterminated (skip : nat) (chunks : list string) (result : string) :
  forallb ends_without_cr chunks = true ->
  forallb (fun r => negb (terminated skip r)) (accumulated result chunks) = true.
Proof.
  revert result. induction chunks as [|chunk chunks IH]; intros result H; [reflexivity|].
  cbn [forallb accumulated] in *. apply andb_true_iff in H as [Hchunk H].
  rewrite (IH _ H), andb_true_r.
  unfold ends_without_cr in Hchunk. apply andb_true_iff in Hchunk as [Hne Hcr].
  apply negb_true_iff in Hne, Hcr. apply String.eqb_neq in Hne.
  unfold terminated. unfold LEN_EOL in *. cbn [String.length EOL] in *.
  rewrite (last_bytes_append result chunk Hne), Hcr. now rewrite andb_false_r.
Qed.

(** X11.  The event-driven [send] looks for the terminator only at the
    end of what has been received after each chunk: when no chunk is
    empty or ends with a carriage return, it times out, whatever carriage
    returns the chunks hold inside, logs the request with all the bytes
    received, and raises asyncio's [TimeoutError]. *)
Theorem send_ignores_terminators_inside_chunks
    (request : string) (skip : nat) (protocol : BreatheAudioProtocol.Protocol) :
  let chunks := hd [] (BreatheAudioProtocol.incoming protocol) in
  forallb ends_without_cr chunks = true ->
  BreatheAudioProtocol.send request skip protocol
  = (Raise AsyncioTimeoutError,
     BreatheAudioProtocol.mkProtocol
       (BreatheAudioProtocol.written protocol ++ [request])
       (tl (BreatheAudioProtocol.incoming protocol))
       (BreatheAudioProtocol.error_log protocol ++ [(request, join chunks)])).
Proof.
  intros chunks H. unfold BreatheAudioProtocol.send. fold chunks.
  rewrite receive_loop_times_out by (apply accumulated_unterminated, H).
  reflexivity.
Qed.

Lemma send_ignores_terminators_inside_chunks_witness :
  BreatheAudioProtocol.send ("*Z01CONSR" ++ EOL) 0
    (BreatheAudioProtocol.mkProtocol [] [["#Z01PWROFF" ++ EOL ++ "#"]] [])
  = (Raise AsyncioTimeoutError,
     BreatheAudioProtocol.mkProtocol ["*Z01CONSR" ++ EOL] []
       [("*Z01CONSR" ++ EOL, "#Z01PWROFF" ++ EOL ++ "#")]).
Proof.
  exact (send_ignores_terminators_inside_chunks ("*Z01CONSR" ++ EOL) 0
           (BreatheAudioProtocol.mkProtocol [] [["#Z01PWROFF" ++ EOL ++ "#"]] [])
           eq_refl).
Defined.

(** ** Status queries *)

Lemma terminated_0_ends_with_cr (s : string) :
  last_bytes LEN_EOL s = EOL -> terminated 0 s = true.
Proof.
  intros H. unfold terminated. rewrite H. cbn [String.eqb]. 
  destruct s as [|c s]; [discriminate H|]. reflexivity.
Qed.

(** X12.  The event-driven [zone_status] waits with no skip: when the
    first chunk received is ASCII and ends with a carriage return, the
    status is decoded from that chunk alone, later chunks are not waited
    for, and nothing is logged. *)
Theorem async_zone_status_decodes_first_chunk
    (zone : Z) (protocol : BreatheAudioProtocol.Protocol)
    (first : string) (chunks : list string) :
  hd [] (BreatheAudioProtocol.incoming protocol) = first :: chunks ->
  last_bytes LEN_EOL first = EOL ->
  all_ascii first = true ->
  BreatheAudioAsync.zone_status zone protocol
  = (from_string first,
     BreatheAudioProtocol.mkProtocol
       (BreatheAudioProtocol.written protocol ++ [_format_zone_status_request zone])
       (tl (BreatheAudioProtocol.incoming protocol))
       (BreatheAudioProtocol.error_log protocol)).
Proof.
  intros Hin Hcr Hascii.
  unfold BreatheAudioAsync.zone_status, bind, BreatheAudioProtocol.send, lift.
  rewrite Hin. cbn [BreatheAudioProtocol.receive_loop append].
  rewrite (terminated_0_ends_with_cr first Hcr). unfold decode_ascii. rewrite Hascii.
  reflexivity.
Qed.

Lemma async_zone_status_decodes_first_chunk_witness :
  BreatheAudioAsync.zone_status 1
    (BreatheAudioProtocol.mkProtocol [] [[EOL; "#Z01PWROFF" ++ EOL]] [])
  = (from_string EOL,
     BreatheAudioProtocol.mkProtocol [_format_zone_status_request 1] [] []).
Proof.
  exact (async_zone_status_decodes_first_chunk 1
           (BreatheAudioProtocol.mkProtocol [] [[EOL; "#Z01PWROFF" ++ EOL]] [])
           EOL ["#Z01PWROFF" ++ EOL] eq_refl eq_refl eq_refl).
Defined.

Lemma no_cr_after_free (k : nat) (s : string) : free CR s = true -> no_cr_after k s = true.
Proof.
  revert k. induction s as [|c s IH]; intros k H; [reflexivity|].
  cbn [free] in H. apply andb_true_iff in H as [Hc Hs].
  cbn [no_cr_after]. destruct k; [|apply IH, Hs].
  rewrite (IH _ Hs), andb_true_r. rewrite Ascii.eqb_sym. exact Hc.
Qed.

Lemma no_cr_after_app (k : nat) (a b : string) :
  no_cr_after k a = true -> free CR b = true -> no_cr_after k (a ++ b) = true.
Proof.
  revert k. induction a as [|c a IH]; intros k Ha Hb.
  - apply no_cr_after_free, Hb.
  - cbn [append no_cr_after] in *. destruct k.
    + apply andb_true_iff in Ha as [Hc Ha]. rewrite Hc. apply IH; assumption.
    + apply IH; assumption.
Qed.

Lemma digit_is_ascii (c : ascii) : Py.is_digit c = true -> (N_of_ascii c <? 128)%N = true.
Proof.
  unfold Py.is_digit. intros H. apply andb_true_iff in H as [_ H].
  apply N.leb_le in H. apply N.ltb_lt. lia.
Qed.

Lemma digit_not_cr (c : ascii) : Py.is_digit c = true -> Ascii.eqb CR c = false.
Proof.
  intros H. destruct (Ascii.eqb CR c) eqn:E; [|reflexivity].
  apply Ascii.eqb_eq in E. subst c. discriminate H.
Qed.

Lemma process_request_line
    (request : string) (skip : nat) (port : BreatheAudioSync.Port) (body extra : string) :
  hd EmptyString (BreatheAudioSync.incoming port) = body ++ EOL ++ extra ->
  no_cr_after skip body = true ->
  (skip <= String.length body)%nat ->
  BreatheAudioSync._process_request request skip port
  = (if all_ascii body then Ok (body ++ EOL) else Raise UnicodeDecodeError,
     BreatheAudioSync.mkPort (BreatheAudioSync.written port ++ [request])
       (tl (BreatheAudioSync.incoming port))).
Proof.
  intros Hline Hcr Hlen. unfold BreatheAudioSync._process_request.
  rewrite Hline, read_loop_completes by (cbn [String.length]; rewrite ?Nat.sub_0_r; assumption).
  cbn [append]. unfold decode_ascii. rewrite all_ascii_app.
  change (all_ascii EOL) with true. rewrite andb_true_r. reflexivity.
Qed.

(** X13.  The blocking [zone_status] on a device that answers with a
    power-off report: after any ASCII text without [#] whose only
    carriage return, if any, is its first byte, the report of zone [z]
    is decoded to the powered-off status of zone [z], whatever zone was
    asked for; the query frame is written and the bytes after the
    report's terminator are not read. *)
Theorem sync_zone_status_power_off
    (zone : Z) (port : BreatheAudioSync.Port) (junk : string) (z : ascii) (extra : string) :
  hd EmptyString (BreatheAudioSync.incoming port) = junk ++ off_report z ++ EOL ++ extra ->
  no_hash junk = true -> all_ascii junk = true -> no_cr_after LEN_EOL junk = true ->
  Py.is_digit z = true ->
  BreatheAudioSync.zone_status zone port
  = (Ok (Some (mkZoneStatus (Py.digit_value z) (Py.Int 0) false false 1)),
     BreatheAudioSync.mkPort
       (BreatheAudioSync.written port ++ [_format_zone_status_request zone])
       (tl (BreatheAudioSync.incoming port))).
Proof.
  intros Hline Hjunk Hascii Hcr Hz.
  assert (Hreport : free CR (off_report z) = true).
  { cbn [off_report append free]. rewrite (digit_not_cr z Hz). reflexivity. }
  unfold BreatheAudioSync.zone_status, bind.
  rewrite (process_request_line _ LEN_EOL port (junk ++ off_report z) extra).
  - assert (Hreport_ascii : all_ascii (off_report z) = true).
    { cbn [off_report append all_ascii]. now rewrite (digit_is_ascii z Hz). }
    rewrite all_ascii_app, Hascii, Hreport_ascii. cbn [andb]. unfold lift.
    rewrite append_assoc.
    rewrite (from_string_off _ [String z EmptyString]).
    + cbn [groups_get nth]. rewrite (int_of_digit z Hz). reflexivity.
    + apply search_off_report; assumption.
  - rewrite Hline. now rewrite !append_assoc.
  - apply no_cr_after_app; assumption.
  - rewrite length_append. cbn. lia.
Qed.

Lemma sync_zone_status_power_off_witness :
  BreatheAudioSync.zone_status 1
    (BreatheAudioSync.mkPort [] [EOL ++ "#Z03PWROFF" ++ EOL])
  = (Ok (Some (mkZoneStatus 3 (Py.Int 0) false false 1)),
     BreatheAudioSync.mkPort [_format_zone_status_request 1] []).
Proof.
  exact (sync_zone_status_power_off 1
           (BreatheAudioSync.mkPort [] [EOL ++ "#Z03PWROFF" ++ EOL])
           EOL "3" EmptyString eq_refl eq_refl eq_refl eq_refl eq_refl).
Defined.

(** ** Sending a decoded volume back *)

Lemma replay_checked : forallb replay_ok (Zrange 0 79) = true.
Proof. vm_compute. reflexivity. Qed.

(** X14.  Sending back a decoded volume, as [restore_zone] does with a
    snapshot: for every native volume 0..78 the percentage that
    [from_string] computes for it is encoded by [_format_set_volume] to
    the same native volume, except for 13, 25, 26, 37, 45, 50, 52, 55, 57
    and 74, which come back one step lower. *)
Theorem set_volume_of_decoded_volume (zone native : Z) :
  0 <= native <= 78 ->
  exists v,
    decoded_volume native = Ok v
    /\ _format_set_volume zone v = Ok (volume_frame zone (replayed_native native))
    /\ native - 1 <= replayed_native native <= native.
Proof.
  intros Hn.
  pose proof (forallb_Zrange _ _ _ replay_checked native ltac:(lia)) as H.
  unfold replay_ok in H.
  destruct (decoded_volume native) as [v|]; [|discriminate H].
  exists v. split; [reflexivity|]. rewrite format_set_volume_native.
  destruct (native_volume v) as [n|]; [|discriminate H].
  apply Z.eqb_eq in H. subst n. split; [reflexivity|].
  unfold replayed_native. destruct (existsb _ _); lia.
Qed.

Lemma set_volume_of_decoded_volume_witness :
  exists v,
    decoded_volume 13 = Ok v
    /\ _format_set_volume 1 v = Ok (volume_frame 1 (replayed_native 13))
    /\ 13 - 1 <= replayed_native 13 <= 13.
Proof.
  exact (set_volume_of_decoded_volume 1 13
           (conj (proj1 (Z.leb_le 0 13) eq_refl) (proj1 (Z.leb_le 13 78) eq_refl))).
Defined.

(** ** The media player entity *)

Lemma stored_level_checked : forallb stored_level_ok (Zrange 0 100) = true.
Proof. vm_compute. reflexivity. Qed.

Lemma steps_checked : forallb steps_ok (Zrange 0 79) = true.
Proof. vm_compute. reflexivity. Qed.

Lemma call_set_volume (self : BreatheAudioZone) (volume : Py.num) (native : Z)
    (port : BreatheAudioSync.Port) :
  native_volume volume = Ok native ->
  call (BreatheAudioSync.set_volume (_zone_id self) volume) self port
  = sends_volume self native port.
Proof.
  intros H. unfold call, BreatheAudioSync.set_volume, bind, lift, ret, sends_volume.
  rewrite format_set_volume_native, H. cbn [rbind].
  destruct (BreatheAudioSync._process_request _ 0 port) as [[r|e] port']; reflexivity.
Qed.

(** X15.  With the level that [update] stores for a native volume
    0..78, [volume_up] sends the volume frame of [min (native + 7) 78]
    and [volume_down] that of [max (native - 8) 0]: the steps of 10
    percent are 7 native steps up and 8 down. *)
Theorem volume_up_and_down_steps
    (self : BreatheAudioZone) (port : BreatheAudioSync.Port) (native : Z) (level : Py.num) :
  0 <= native <= 78 ->
  stored_level native = Ok level ->
  _volume self = Some level ->
  volume_up self port = sends_volume self (Z.min (native + 7) 78) port
  /\ volume_down self port = sends_volume self (Z.max (native - 8) 0) port.
Proof.
  intros Hn Hlevel Hvol.
  pose proof (forallb_Zrange _ _ _ steps_checked native ltac:(lia)) as H.
  unfold steps_ok in H. rewrite Hlevel in H.
  destruct (up_native level) as [up|] eqn:Hup; [|discriminate H].
  destruct (down_native level) as [down|] eqn:Hdown; [|discriminate H].
  apply andb_true_iff in H as [H1 H2]. apply Z.eqb_eq in H1, H2. subst up down.
  unfold up_native in Hup. unfold down_native in Hdown.
  unfold volume_up, volume_down. rewrite Hvol.
  destruct (Py.mul level (Py.Int 100)) as [scaled|]; [|discriminate Hup].
  cbn [rbind] in *. split.
  - destruct (PyArith.add scaled (Py.Int 10)) as [volume|]; [|discriminate Hup].
    cbn [rbind] in Hup. apply call_set_volume, Hup.
  - destruct (PyArith.sub scaled (Py.Int 10)) as [volume|]; [|discriminate Hdown].
    cbn [rbind] in Hdown. apply call_set_volume, Hdown.
Qed.

Lemma volume_up_and_down_steps_witness :
  let self :=
    mkBreatheAudioZone [(1, "TV")] [("TV", 1)] ["TV"] 2 None (Some STATE_ON)
      (Some (Py.Float (S754_finite false 4503599627370496 (-53)))) (Some "TV")
      (Some false) in
  let port := BreatheAudioSync.mkPort [] [EOL] in
  volume_up self port = sends_volume self 46 port
  /\ volume_down self port = sends_volume self 31 port.
Proof.
  exact (volume_up_and_down_steps
           (mkBreatheAudioZone [(1, "TV")] [("TV", 1)] ["TV"] 2 None (Some STATE_ON)
              (Some (Py.Float (S754_finite false 4503599627370496 (-53)))) (Some "TV")
              (Some false))
           (BreatheAudioSync.mkPort [] [EOL]) 39
           (Py.Float (S754_finite false 4503599627370496 (-53)))
           (conj (proj1 (Z.leb_le 0 39) eq_refl) (proj1 (Z.leb_le 39 78) eq_refl))
           eq_refl eq_refl).
Defined.

Lemma writeback_checked : forallb writeback_ok (Zrange 0 79) = true.
Proof. vm_compute. reflexivity. Qed.

Lemma mul_100_total (x : Py.num) : exists y, Py.mul x (Py.Int 100) = Ok y.
Proof. destruct x; cbn; eauto. Qed.

(** X16.  Writing back the level read: [set_volume_level] called with
    the level that [update] stores for a native volume 0..78 sends the
    volume frame of [native - 1], except for 0, 39 and 78, which are
    kept. *)
Theorem set_volume_level_of_level_read
    (self : BreatheAudioZone) (port : BreatheAudioSync.Port) (native : Z)
    (level current : Py.num) :
  0 <= native <= 78 ->
  stored_level native = Ok level ->
  _volume self = Some current ->
  set_volume_level self level port = sends_volume self (written_back native) port.
Proof.
  intros Hn Hlevel Hvol.
  pose proof (forallb_Zrange _ _ _ writeback_checked native ltac:(lia)) as H.
  unfold writeback_ok in H. rewrite Hlevel in H.
  destruct (writeback_native level) as [n|] eqn:Hwb; [|discriminate H].
  apply Z.eqb_eq in H. subst n.
  unfold writeback_native in Hwb. unfold set_volume_level.
  destruct (Py.mul level (Py.Int 100)) as [scaled|]; [|discriminate Hwb].
  cbn [rbind] in *.
  destruct (Py.int scaled) as [pct|]; [|discriminate Hwb]. cbn [rbind] in Hwb.
  rewrite Hvol. destruct (mul_100_total current) as [y ->].
  apply call_set_volume, Hwb.
Qed.

Lemma set_volume_level_of_level_read_witness :
  let self :=
    mkBreatheAudioZone [(1, "TV")] [("TV", 1)] ["TV"] 2 None (Some STATE_ON)
      (Some (Py.Float (S754_finite false 4503599627370496 (-53)))) (Some "TV")
      (Some false) in
  let port := BreatheAudioSync.mkPort [] [EOL] in
  set_volume_level self (Py.Float (S754_finite false 4503599627370496 (-53))) port
  = sends_volume self 39 port.
Proof.
  exact (set_volume_level_of_level_read
           (mkBreatheAudioZone [(1, "TV")] [("TV", 1)] ["TV"] 2 None (Some STATE_ON)
              (Some (Py.Float (S754_finite false 4503599627370496 (-53)))) (Some "TV")
              (Some false))
           (BreatheAudioSync.mkPort [] [EOL]) 39
           (Py.Float (S754_finite false 4503599627370496 (-53)))
           (Py.Float (S754_finite false 4503599627370496 (-53)))
           (conj (proj1 (Z.leb_le 0 39) eq_refl) (proj1 (Z.leb_le 39 78) eq_refl))
           eq_refl eq_refl).
Defined.

(** X17.  Before the first successful [update] the entity has no
    volume, and [set_volume_level] then raises for every argument and
    sends nothing: the arguments of its debug message multiply [None] by
    100.  For an integer argument the exception is that [TypeError]. *)
Theorem set_volume_level_before_update
    (self : BreatheAudioZone) (volume : Py.num) (port : BreatheAudioSync.Port) :
  _volume self = None ->
  (exists e, set_volume_level self volume port = (Raised e, self, port))
  /\ (forall n, set_volume_level self (Py.Int n) port = (Raised TypeError, self, port)).
Proof.
  intros Hvol. split.
  - unfold set_volume_level. rewrite Hvol.
    destruct (rbind _ _) as [pct|e]; eauto.
  - intros n. unfold set_volume_level. rewrite Hvol. reflexivity.
Qed.

Lemma set_volume_level_before_update_witness :
  let self := new_zone ([(1, "TV")], [("TV", 1)], ["TV"]) 2 in
  let port := BreatheAudioSync.mkPort [] [EOL] in
  (exists e,
     set_volume_level self (Py.Float (S754_finite false 4503599627370496 (-53))) port
     = (Raised e, self, port))
  /\ (forall n, set_volume_level self (Py.Int n) port = (Raised TypeError, self, port)).
Proof.
  exact (set_volume_level_before_update
           (new_zone ([(1, "TV")], [("TV", 1)], ["TV"]) 2)
           (Py.Float (S754_finite false 4503599627370496 (-53)))
           (BreatheAudioSync.mkPort [] [EOL]) eq_refl).
Defined.

(** [zone_status] on a line that ends: the decoded first line. *)
Lemma zone_status_line (zone : Z) (port : BreatheAudioSync.Port) (body extra : string) :
  hd EmptyString (BreatheAudioSync.incoming port) = body ++ EOL ++ extra ->
  no_cr_after LEN_EOL body = true ->
  (LEN_EOL <= String.length body)%nat ->
  all_ascii body = true ->
  BreatheAudioSync.zone_status zone port = (from_string (body ++ EOL), queried zone port).
Proof.
  intros Hline Hcr Hlen Hascii. unfold BreatheAudioSync.zone_status, bind, lift.
  rewrite (process_request_line _ LEN_EOL port body extra Hline Hcr Hlen), Hascii.
  reflexivity.
Qed.

(** X18.  When the status query times out (no carriage return arrives
    after the first byte), [update] returns normally and leaves every
    field of the entity as it was: the last state read stays on display. *)
Theorem update_keeps_state_on_timeout
    (self : BreatheAudioZone) (port : BreatheAudioSync.Port) :
  no_cr_after LEN_EOL (hd EmptyString (BreatheAudioSync.incoming port)) = true ->
  update self port = (Returned, self, queried (_zone_id self) port).
Proof.
  intros H. unfold update, BreatheAudioSync.zone_status, bind,
    BreatheAudioSync._process_request.
  rewrite read_loop_times_out by (cbn [String.length]; now rewrite Nat.sub_0_r).
  reflexivity.
Qed.

Lemma update_keeps_state_on_timeout_witness :
  let self := new_zone ([(1, "TV")], [("TV", 1)], ["TV"]) 2 in
  let port := BreatheAudioSync.mkPort [] ["#Z02PWR"] in
  update self port = (Returned, self, queried 2 port).
Proof.
  exact (update_keeps_state_on_timeout
           (new_zone ([(1, "TV")], [("TV", 1)], ["TV"]) 2)
           (BreatheAudioSync.mkPort [] ["#Z02PWR"]) eq_refl).
Defined.

(** X19.  When the device answers the status query with a complete
    ASCII line that holds neither report, [zone_status] returns [None]
    and [update] raises [AttributeError] on [state.power], which it does
    not catch; the entity is left as it was. *)
Theorem update_raises_on_unrecognised_reply
    (self : BreatheAudioZone) (port : BreatheAudioSync.Port) (body extra : string) :
  hd EmptyString (BreatheAudioSync.incoming port) = body ++ EOL ++ extra ->
  no_cr_after LEN_EOL body = true ->
  (LEN_EOL <= String.length body)%nat ->
  all_ascii body = true ->
  Re.search ZONE_PATTERN_OFF (body ++ EOL) = None ->
  Re.search ZONE_PATTERN_ON (body ++ EOL) = None ->
  update self port
  = (Raised (Driver (AttributeError "power")), self, queried (_zone_id self) port).
Proof.
  intros Hline Hcr Hlen Hascii Hoff Hon. unfold update.
  rewrite (zone_status_line _ port body extra Hline Hcr Hlen Hascii).
  rewrite (from_string_unmatched _ Hoff Hon). reflexivity.
Qed.

Lemma update_raises_on_unrecognised_reply_witness :
  let self := new_zone ([(1, "TV")], [("TV", 1)], ["TV"]) 2 in
  let port := BreatheAudioSync.mkPort [] ["OK" ++ EOL] in
  update self port
  = (Raised (Driver (AttributeError "power")), self, queried 2 port).
Proof.
  exact (update_raises_on_unrecognised_reply
           (new_zone ([(1, "TV")], [("TV", 1)], ["TV"]) 2)
           (BreatheAudioSync.mkPort [] ["OK" ++ EOL]) "OK" EmptyString
           eq_refl eq_refl (proj1 (Nat.leb_le 1 2) eq_refl) eq_refl eq_refl eq_refl).
Defined.

Section Reports.

Variables (junk : string) (z sc g t1 t2 : ascii).

Hypothesis Hhash : no_hash junk = true.
Hypothesis Hascii : all_ascii junk = true.
Hypothesis Hcr : no_cr_after LEN_EOL junk = true.
Hypothesis Hz : Py.is_digit z = true.
Hypothesis Hs : Py.is_digit sc = true.
Hypothesis Hg : Py.is_digit g = true.
Hypothesis Ht1 : Py.is_digit t1 = true.
Hypothesis Ht2 : Py.is_digit t2 = true.

Let report : string := on_report z sc g (String t1 (String t2 EmptyString)).

Lemma on_report_line :
  no_cr_after LEN_EOL (junk ++ report) = true
  /\ (LEN_EOL <= String.length (junk ++ report))%nat
  /\ all_ascii (junk ++ report) = true.
Proof.
  assert (Hfree : free CR report = true).
  { unfold report. cbn [on_report append free].
    rewrite (digit_not_cr z Hz), (digit_not_cr sc Hs), (digit_not_cr g Hg),
      (digit_not_cr t1 Ht1), (digit_not_cr t2 Ht2). reflexivity. }
  assert (Hrep : all_ascii report = true).
  { unfold report. cbn [on_report append all_ascii].
    rewrite (digit_is_ascii z Hz), (digit_is_ascii sc Hs), (digit_is_ascii g Hg),
      (digit_is_ascii t1 Ht1), (digit_is_ascii t2 Ht2). reflexivity. }
  split; [apply no_cr_after_app; assumption|]. split.
  - rewrite length_append. unfold report. cbn. lia.
  - now rewrite all_ascii_app, Hascii, Hrep.
Qed.

(** [zone_status] on a power-on report with a two-digit volume. *)
Lemma zone_status_numeric (zone : Z) (port : BreatheAudioSync.Port) (extra : string) :
  hd EmptyString (BreatheAudioSync.incoming port) = junk ++ report ++ EOL ++ extra ->
  BreatheAudioSync.zone_status zone port
  = ((volume <- decoded_volume (10 * Py.digit_value t1 + Py.digit_value t2) ;;
      Ok (Some (mkZoneStatus (Py.digit_value z) volume true false (Py.digit_value sc))))%result,
     queried zone port).
Proof.
  intros Hline. destruct on_report_line as [H1 [H2 H3]].
  rewrite (zone_status_line zone port (junk ++ report) extra); try assumption.
  - rewrite append_assoc. unfold report.
    rewrite (from_string_numeric junk z sc g t1 t2 EOL) by (assumption || reflexivity).
    reflexivity.
  - rewrite Hline. now rewrite !append_assoc.
Qed.

End Reports.

(** X20.  [update] on a power-on report with a two-digit volume token:
    the entity becomes [on] and unmuted, its source is the configured
    name of the reported source digit (or none), and its volume level is
    the float [native / 78 * 100 / 100], which is never negative and is
    at most 1 exactly when the token is at most 78: the tokens 79..99,
    which the pattern accepts, give a level above 1. *)
Theorem update_stores_reported_state
    (self : BreatheAudioZone) (port : BreatheAudioSync.Port)
    (junk : string) (z sc g t1 t2 : ascii) (extra : string) :
  hd EmptyString (BreatheAudioSync.incoming port)
  = junk ++ on_report z sc g (String t1 (String t2 EmptyString)) ++ EOL ++ extra ->
  no_hash junk = true -> all_ascii junk = true -> no_cr_after LEN_EOL junk = true ->
  Py.is_digit z = true -> Py.is_digit sc = true -> Py.is_digit g = true ->
  Py.is_digit t1 = true -> Py.is_digit t2 = true ->
  let native := 10 * Py.digit_value t1 + Py.digit_value t2 in
  exists level,
    stored_level native = Ok (Py.Float level)
    /\ update self port
       = (Returned,
          mkBreatheAudioZone (_source_id_name self) (_source_name_id self)
            (_source_names self) (_zone_id self) (_snapshot self)
            (Some STATE_ON) (Some (Py.Float level))
            (id_name_get (_source_id_name self) (Py.digit_value sc))
            (Some false),
          queried (_zone_id self) port)
    /\ (0 <= Py.to_Q (Py.Float level))%Q
    /\ ((Py.to_Q (Py.Float level) <= 1)%Q <-> native <= 78).
Proof.
  intros Hline Hhash Hascii Hcr Hz Hs Hg Ht1 Ht2 native.
  pose proof (digit_value_range t1 Ht1). pose proof (digit_value_range t2 Ht2).
  pose proof (forallb_Zrange _ _ _ stored_level_checked native ltac:(subst native; lia))
    as Hok.
  unfold stored_level_ok in Hok.
  destruct (stored_level native) as [[|level]|] eqn:Hlevel; try discriminate Hok.
  cbv zeta in Hok. apply andb_true_iff in Hok as [Hpos Hle].
  exists level. split; [reflexivity|]. split; [|split].
  - unfold update.
    rewrite (zone_status_numeric junk z sc g t1 t2 Hhash Hascii Hcr Hz Hs Hg Ht1 Ht2
               _ port extra Hline).
    fold native. unfold stored_level in Hlevel.
    destruct (decoded_volume native) as [v|]; [|discriminate Hlevel].
    cbn [rbind] in *. cbn [power volume mute source]. rewrite Hlevel. reflexivity.
  - now apply Qle_bool_iff.
  - apply Bool.eqb_prop in Hle. rewrite <- Z.leb_le, <- Hle. symmetry. apply Qle_bool_iff.
Qed.

Lemma update_stores_reported_state_witness :
  let self := new_zone ([(1, "TV")], [("TV", 1)], ["TV"]) 2 in
  let port := BreatheAudioSync.mkPort [] ["#Z02PWRON,SRC1,GRP1,VOL-39,POFF" ++ EOL] in
  exists level,
    stored_level 39 = Ok (Py.Float level)
    /\ update self port
       = (Returned,
          mkBreatheAudioZone (_source_id_name self) (_source_name_id self)
            (_source_names self) (_zone_id self) (_snapshot self)
            (Some STATE_ON) (Some (Py.Float level))
            (id_name_get (_source_id_name self) 1)
            (Some false),
          queried (_zone_id self) port)
    /\ (0 <= Py.to_Q (Py.Float level))%Q
    /\ ((Py.to_Q (Py.Float level) <= 1)%Q <-> 39 <= 78).
Proof.
  exact (update_stores_reported_state
           (new_zone ([(1, "TV")], [("TV", 1)], ["TV"]) 2)
           (BreatheAudioSync.mkPort [] ["#Z02PWRON,SRC1,GRP1,VOL-39,POFF" ++ EOL])
           EmptyString "2" "1" "1" "3" "9" EmptyString
           eq_refl eq_refl eq_refl eq_refl eq_refl eq_refl eq_refl eq_refl eq_refl).
Defined.

(** ** A zone that is off *)

(** X21.  [update] on a power-off report: the entity becomes [off] and
    unmuted with volume level 0.0, and its source becomes the name
    configured for source 1, the source [from_string] puts in every
    power-off status, whatever source the zone had. *)
Theorem update_on_power_off_report
    (self : BreatheAudioZone) (port : BreatheAudioSync.Port)
    (junk : string) (z : ascii) (extra : string) :
  hd EmptyString (BreatheAudioSync.incoming port) = junk ++ off_report z ++ EOL ++ extra ->
  no_hash junk = true -> all_ascii junk = true -> no_cr_after LEN_EOL junk = true ->
  Py.is_digit z = true ->
  update self port
  = (Returned,
     mkBreatheAudioZone (_source_id_name self) (_source_name_id self)
       (_source_names self) (_zone_id self) (_snapshot self)
       (Some STATE_OFF) (Some (Py.Float (S754_zero false)))
       (id_name_get (_source_id_name self) 1)
       (Some false),
     queried (_zone_id self) port).
Proof.
  intros Hline Hjunk Hascii Hcr Hz. unfold update.
  assert (Hreport_cr : free CR (off_report z) = true).
  { cbn [off_report append free]. rewrite (digit_not_cr z Hz). reflexivity. }
  assert (Hreport_ascii : all_ascii (off_report z) = true).
  { cbn [off_report append all_ascii]. now rewrite (digit_is_ascii z Hz). }
  rewrite (zone_status_line _ port (junk ++ off_report z) extra).
  - rewrite append_assoc.
    rewrite (from_string_off _ [String z EmptyString])
      by (apply search_off_report; assumption).
    cbn [groups_get nth]. rewrite (int_of_digit z Hz). reflexivity.
  - rewrite Hline. now rewrite !append_assoc.
  - apply no_cr_after_app; assumption.
  - rewrite length_append. cbn. lia.
  - rewrite all_ascii_app, Hascii, Hreport_ascii. reflexivity.
Qed.

Lemma update_on_power_off_report_witness :
  let self := new_zone ([(1, "TV"); (2, "Radio")], [("TV", 1); ("Radio", 2)], ["TV"; "Radio"]) 2 in
  let port := BreatheAudioSync.mkPort [] ["#Z02PWROFF" ++ EOL] in
  update self port
  = (Returned,
     mkBreatheAudioZone (_source_id_name self) (_source_name_id self)
       (_source_names self) 2 None
       (Some STATE_OFF) (Some (Py.Float (S754_zero false))) (Some "TV") (Some false),
     queried 2 port).
Proof.
  exact (update_on_power_off_report
           (new_zone ([(1, "TV"); (2, "Radio")], [("TV", 1); ("Radio", 2)], ["TV"; "Radio"]) 2)
           (BreatheAudioSync.mkPort [] ["#Z02PWROFF" ++ EOL])
           EmptyString "2" EmptyString eq_refl eq_refl eq_refl eq_refl eq_refl).
Defined.

(** ** The volume command of any number *)

(** [int(max(0, min(x, 78)))] of a float is a native volume, whatever the
    float: not-a-number and everything up to 0 give 0, everything from 78
    on gives 78. *)
Lemma clamped_float_native (g : spec_float) :
  exists n,
    Py.int (Py.max (Py.Int 0) (Py.min (Py.Float g) (Py.Int MAX_VOLUME))) = Ok n
    /\ 0 <= n <= 78.
Proof.
  unfold MAX_VOLUME.
  destruct g as [s|s| |s m e].
  - exists 0. destruct s; split; [reflexivity | lia | reflexivity | lia].
  - destruct s; [exists 0 | exists 78]; split; try reflexivity; lia.
  - exists 0. split; [reflexivity | lia].
  - unfold Py.min, Py.max, Py.lt, Py.gt, Py.compare, Py.int_float_compare,
      Py.float_num_den.
    destruct (0 <=? e) eqn:He.
    + assert (Hd : 0 < 2 ^ e) by (apply Z.pow_pos_nonneg; [lia | now apply Z.leb_le]).
      destruct s.
      * exists 0. split; [|lia].
        assert (Hn : Zneg m * 2 ^ e < 0) by (apply Z.mul_neg_pos; lia).
        destruct (Z.compare_spec (78 * 1) (Zneg m * 2 ^ e)) as [Hc|Hc|Hc];
          [lia | lia |].
        rewrite He.
        destruct (Z.compare_spec (0 * 1) (Zneg m * 2 ^ e)) as [Hc0|Hc0|Hc0];
          [lia | lia |].
        reflexivity.
      * assert (Hn : 0 < Zpos m * 2 ^ e) by lia.
        destruct (Z.compare_spec (78 * 1) (Zpos m * 2 ^ e)) as [Hc|Hc|Hc].
        -- exists 78. split; [|lia]. rewrite He.
           destruct (Z.compare_spec (0 * 1) (Zpos m * 2 ^ e)) as [Hc0|Hc0|Hc0];
             [lia | | lia].
           cbn [option_map CompOpp]. unfold Py.int. rewrite He. f_equal. lia.
        -- exists 78. split; [reflexivity | lia].
        -- exists (Zpos m * 2 ^ e). split; [|lia]. rewrite He.
           destruct (Z.compare_spec (0 * 1) (Zpos m * 2 ^ e)) as [Hc0|Hc0|Hc0];
             [lia | | lia].
           cbn [option_map CompOpp]. unfold Py.int. rewrite He. reflexivity.
    + assert (Hd : 0 < 2 ^ (- e)).
      { apply Z.leb_gt in He. apply Z.pow_pos_nonneg; lia. }
      destruct s.
      * exists 0. split; [|lia].
        destruct (Z.compare_spec (78 * 2 ^ (- e)) (Zneg m)) as [Hc|Hc|Hc];
          [lia | lia |].
        rewrite He. reflexivity.
      * assert (Hq0 : 0 <= Zpos m / 2 ^ (- e)) by (apply Z.div_pos; lia).
        destruct (Z.compare_spec (78 * 2 ^ (- e)) (Zpos m)) as [Hc|Hc|Hc].
        -- exists 78. split; [|lia]. rewrite He.
           cbn [option_map CompOpp Z.mul Z.compare]. unfold Py.int. rewrite He.
           f_equal. rewrite <- Hc. apply Z.div_mul. lia.
        -- exists 78. split; [reflexivity | lia].
        -- exists (Zpos m / 2 ^ (- e)). split.
           ++ rewrite He.
              cbn [option_map CompOpp Z.mul Z.compare]. unfold Py.int. rewrite He.
              reflexivity.
           ++ split; [exact Hq0|].
              apply Z.lt_succ_r. apply Z.div_lt_upper_bound; lia.
Qed.

(** The native volume of a quotient [volume / 100] that is a float. *)
Lemma scaled_native (vp : spec_float) :
  exists n,
    (scaled <- Py.mul (Py.Int MAX_VOLUME) (Py.Float vp) ;;
     Py.int (Py.max (Py.Int 0) (Py.min scaled (Py.Int MAX_VOLUME))))%result = Ok n
    /\ 0 <= n <= 78.
Proof.
  assert (H78 : Py.mul (Py.Int MAX_VOLUME) (Py.Float vp)
                = Ok (Py.Float (SFmul Py.prec Py.emax (Py.float_of_Z 78) vp)))
    by reflexivity.
  rewrite H78. cbn [rbind]. apply clamped_float_native.
Qed.

(** X22.  [_format_set_volume] on any number: it either returns the
    volume frame of a native volume in 0..78, or the argument is an
    integer too large to be divided as a float and it raises
    [OverflowError].  A float argument never raises: not-a-number and
    minus infinity are sent as volume 0, plus infinity as volume 78. *)
Theorem format_set_volume_of_any_number (zone : Z) (volume : Py.num) :
  ((exists native,
      0 <= native <= 78
      /\ _format_set_volume zone volume = Ok (volume_frame zone native))
   \/ (exists x, volume = Py.Int x
                 /\ _format_set_volume zone volume = Raise OverflowError))
  /\ _format_set_volume zone (Py.Float S754_nan) = Ok (volume_frame zone 0)
  /\ _format_set_volume zone (Py.Float (S754_infinity false)) = Ok (volume_frame zone 78)
  /\ _format_set_volume zone (Py.Float (S754_infinity true)) = Ok (volume_frame zone 0).
Proof.
  split; [|repeat split; rewrite format_set_volume_native; reflexivity].
  rewrite format_set_volume_native. unfold native_volume.
  destruct volume as [x|f].
  - unfold Py.truediv.
    destruct (Py.int_truediv x 100) as [q|e] eqn:Hq.
    + left. cbn [rbind].
      destruct (scaled_native q) as [n [Hn Hb]].
      exists n. split; [exact Hb|]. rewrite Hn. reflexivity.
    + right. exists x. split; [reflexivity|].
      unfold Py.int_truediv in Hq.
      destruct x as [|p|p]; [discriminate Hq | |];
        destruct (Py.is_infinite _); inversion Hq; reflexivity.
  - left.
    assert (Hdiv : Py.truediv (Py.Float f) (Py.Int 100)
                   = Ok (Py.Float (SFdiv Py.prec Py.emax f (Py.float_of_Z 100))))
      by reflexivity.
    rewrite Hdiv. cbn [rbind].
    destruct (scaled_native (SFdiv Py.prec Py.emax f (Py.float_of_Z 100))) as [n [Hn Hb]].
    exists n. split; [exact Hb|]. rewrite Hn. reflexivity.
Qed.

(** ** Frames identify commands *)

(** [str] is one to one. *)
Lemma str_injective (a b : Z) : Py.str a = Py.str b -> a = b.
Proof.
  unfold Py.str. intros H.
  assert (Hnn : forall z, Z.to_int z <> Decimal.Pos Decimal.Nil
                          /\ Z.to_int z <> Decimal.Neg Decimal.Nil).
  { intros [|p|p]; cbn; split; try discriminate;
      intros E; injection E as E; exact (DecimalPos.Unsigned.to_uint_nonnil p E). }
  apply DecimalZ.to_int_inj.
  pose proof (NilZero.isi (Z.to_int a) (proj1 (Hnn a)) (proj2 (Hnn a))) as Ha.
  pose proof (NilZero.isi (Z.to_int b) (proj1 (Hnn b)) (proj2 (Hnn b))) as Hb.
  rewrite H in Ha. congruence.
Qed.

(** Where the sign and digits end. *)
Lemma numeric_prefix_split (a1 a2 : string) (c1 c2 : ascii) (t1 t2 : string) :
  all_numeric a1 = true -> all_numeric a2 = true ->
  is_numeric c1 = false -> is_numeric c2 = false ->
  a1 ++ String c1 t1 = a2 ++ String c2 t2 ->
  a1 = a2 /\ String c1 t1 = String c2 t2.
Proof.
  revert a2. induction a1 as [|x a1 IH]; intros [|y a2] H1 H2 Hc1 Hc2 H; cbn [append] in H.
  - now split.
  - injection H as -> _. cbn [all_numeric] in H2. apply andb_true_iff in H2 as [H2 _].
    congruence.
  - injection H as -> _. cbn [all_numeric] in H1. apply andb_true_iff in H1 as [H1 _].
    congruence.
  - injection H as -> H. cbn [all_numeric] in H1, H2.
    apply andb_true_iff in H1 as [_ H1]. apply andb_true_iff in H2 as [_ H2].
    destruct (IH a2 H1 H2 Hc1 Hc2 H) as [-> Ht]. now split.
Qed.

Lemma frame_of_text (zone : Z) (c : command) :
  frame_of zone c = "*Z0" ++ Py.str zone ++ command_text c ++ EOL.
Proof. destruct c; reflexivity. Qed.

(** The text of a command starts with a letter. *)
Lemma command_text_head (c : command) :
  exists ch rest, command_text c ++ EOL = String ch rest /\ is_numeric ch = false.
Proof.
  destruct c as [|[]|[]|native|source]; eexists _, _; split; reflexivity.
Qed.

(** The two digits of a native volume give it back. *)
Lemma format_02_injective (n1 n2 : Z) :
  0 <= n1 <= 99 -> 0 <= n2 <= 99 -> Py.format_02 n1 = Py.format_02 n2 -> n1 = n2.
Proof.
  intros H1 H2 H.
  rewrite (format_02_two_digits n1 H1), (format_02_two_digits n2 H2) in H.
  injection H as Hhi Hlo.
  assert (Hq1 : 0 <= n1 / 10 <= 9)
    by (split; [apply Z.div_pos; lia | apply Z.lt_succ_r, Z.div_lt_upper_bound; lia]).
  assert (Hq2 : 0 <= n2 / 10 <= 9)
    by (split; [apply Z.div_pos; lia | apply Z.lt_succ_r, Z.div_lt_upper_bound; lia]).
  assert (Hr1 : 0 <= n1 mod 10 <= 9) by (pose proof (Z.mod_pos_bound n1 10); lia).
  assert (Hr2 : 0 <= n2 mod 10 <= 9) by (pose proof (Z.mod_pos_bound n2 10); lia).
  apply (f_equal Py.digit_value) in Hhi, Hlo.
  rewrite (proj2 (proj2 (digit_char_spec _ Hq1))),
          (proj2 (proj2 (digit_char_spec _ Hq2))) in Hhi.
  rewrite (proj2 (proj2 (digit_char_spec _ Hr1))),
          (proj2 (proj2 (digit_char_spec _ Hr2))) in Hlo.
  rewrite (Z.div_mod n1 10), (Z.div_mod n2 10) by lia. lia.
Qed.

Lemma command_text_injective (c1 c2 : command) :
  in_range c1 -> in_range c2 ->
  command_text c1 ++ EOL = command_text c2 ++ EOL -> c1 = c2.
Proof.
  intros H1 H2 H.
  destruct c1 as [|[]|[]|n1|s1], c2 as [|[]|[]|n2|s2];
    try reflexivity; try discriminate H.
  - cbn [command_text] in H. cbn [in_range] in H1, H2.
    apply (append_cancel_l "VOL") in H.
    f_equal. apply format_02_injective; [lia | lia |].
    assert (Hlen : forall a b, a ++ EOL = b ++ EOL -> a = b).
    { clear. induction a as [|x a IH]; intros [|y b] E; cbn [append] in E.
      - reflexivity.
      - injection E as _ E. destruct b; discriminate E.
      - injection E as _ E. destruct a; discriminate E.
      - injection E as -> E. f_equal. now apply IH. }
    apply Hlen. exact H.
  - cbn [command_text in_range] in *.
    rewrite (Z.max_r 0 (Z.min s1 6)), (Z.max_r 0 (Z.min s2 6)) in H by lia.
    rewrite (Z.min_l s1 6), (Z.min_l s2 6) in H by lia.
    destruct (digit_char_spec s1 ltac:(lia)) as [E1 [_ V1]].
    destruct (digit_char_spec s2 ltac:(lia)) as [E2 [_ V2]].
    rewrite E1, E2 in H. injection H as H.
    apply (f_equal Py.digit_value) in H. f_equal. congruence.
Qed.

(** X23.  Frames identify commands: two frames of the encoders, for
    any zone numbers and for arguments within the clamps (native volume
    0..78, source 0..6), are equal only when the zones and the commands
    are the same. *)
Theorem frames_identify_commands (z1 z2 : Z) (c1 c2 : command) :
  in_range c1 -> in_range c2 ->
  frame_of z1 c1 = frame_of z2 c2 ->
  z1 = z2 /\ c1 = c2.
Proof.
  intros H1 H2 H. rewrite !frame_of_text in H.
  apply append_cancel_l in H.
  destruct (command_text_head c1) as [ch1 [r1 [E1 N1]]].
  destruct (command_text_head c2) as [ch2 [r2 [E2 N2]]].
  rewrite E1, E2 in H.
  destruct (numeric_prefix_split _ _ _ _ _ _ (str_numeric z1) (str_numeric z2) N1 N2 H)
    as [Hz Ht].
  split; [apply str_injective, Hz|].
  apply command_text_injective; [assumption | assumption |].
  now rewrite E1, E2.
Qed.

Lemma frames_identify_commands_witness :
  frame_of 1 (Volume 39) = "*Z01VOL39" ++ EOL
  /\ (1 = 1 /\ Volume 39 = Volume 39).
Proof.
  split; [reflexivity|].
  exact (frames_identify_commands 1 1 (Volume 39) (Volume 39)
           (conj (proj1 (Z.leb_le 0 39) eq_refl) (proj1 (Z.leb_le 39 78) eq_refl))
           (conj (proj1 (Z.leb_le 0 39) eq_refl) (proj1 (Z.leb_le 39 78) eq_refl))
           eq_refl).
Defined.
